(** * Cashbook: running balances and roll-up totals

    A shallow embedding of the ledger logic of [src/services/storage.ts]
    (book totals, business totals, running balances, join codes) and of the
    local aggregation of [BusinessDetailView.loadData], with the properties
    the specification states about them.

    Layout: the number systems, the JavaScript host (dates, [Array.sort]),
    the data model of [src/types.ts], the functions of the storage service,
    an array store for the in-place operations, and then the theorems. *)

From Stdlib Require Import ZArith List String Ascii Lia Bool.
From Stdlib Require Import Permutation Sorted.
From Stdlib Require Import Floats.
From stdpp Require Import gmap.

Import ListNotations.
#[local] Open Scope string_scope.
#[local] Open Scope list_scope.
#[local] Open Scope Z_scope.
#[local] Set Warnings "-inexact-float".

(** ** Numbers

    A TypeScript [number] is an IEEE 754 binary64 value.  The ledger code
    only adds, subtracts and compares amounts, so the functions below are
    written once over a small interface and run at two instances: binary64
    itself (what the program computes) and the integers (exact amounts, for
    instance in the smallest currency unit). *)

Class Number (num : Type) := {
  zero : num;
  add : num -> num -> num;
  sub : num -> num -> num;
  leb : num -> num -> bool
}.

(** The laws of exact arithmetic: addition is a commutative monoid and
    subtraction undoes it. *)
Class ExactNumber (num : Type) `{Number num} : Prop := {
  add_comm : forall a b : num, add a b = add b a;
  add_assoc : forall a b c : num, add (add a b) c = add a (add b c);
  add_zero_r : forall a : num, add a zero = a;
  add_sub : forall a b : num, sub (add a b) b = a;
  sub_add : forall a b : num, add (sub a b) b = a
}.

(** Addition keeps non-negative numbers non-negative. *)
Class NonnegAdd (num : Type) `{Number num} : Prop := {
  zero_nonneg : leb zero zero = true;
  add_nonneg : forall a b : num,
    leb zero a = true -> leb zero b = true -> leb zero (add a b) = true
}.

#[export] Instance Z_Number : Number Z :=
  {| zero := 0; add := Z.add; sub := Z.sub; leb := Z.leb |}.

#[export] Instance float_Number : Number float :=
  {| zero := 0%float; add := PrimFloat.add; sub := PrimFloat.sub;
     leb := PrimFloat.leb |}.

#[export] Instance Z_ExactNumber : ExactNumber Z.
Proof. split; simpl; intros; lia. Qed.

#[export] Instance Z_NonnegAdd : NonnegAdd Z.
Proof.
  split; simpl; [reflexivity|].
  intros a b Ha Hb. apply Z.leb_le in Ha, Hb. apply Z.leb_le. lia.
Qed.

(** ** The JavaScript host *)

Module JS.

(** A time value: milliseconds since the epoch, or [None] for [NaN]. *)
Definition Time := option Z.

Definition msPerDay : Z := 86400000.
Definition msPerHour : Z := 3600000.
Definition msPerMinute : Z := 60000.

(** What the host decides: the offset of the local time zone at a local
    time [t] (ECMAScript's LocalTZA(t, false)), and the result of parsing a
    string that is not in the date-time format treated below (other ISO
    forms and the engine's legacy formats). *)
Record Host := {
  LocalTZA : Z -> Z;
  implParse : string -> Time
}.

(** ECMAScript UTC(t): the instant of local time [t]. *)
Definition UTC (h : Host) (t : Z) : Z := t - LocalTZA h t.

(** ECMAScript TimeClip. *)
Definition TimeClip (t : Z) : Time :=
  if Z.abs t <=? 8640000000000000 then Some t else None.

(** *** Calendar arithmetic (ECMAScript 21.4.1) *)

Definition DayFromYear (y : Z) : Z :=
  365 * (y - 1970) + (y - 1969) / 4 - (y - 1901) / 100 + (y - 1601) / 400.

Definition InLeapYear (y : Z) : bool :=
  if negb (y mod 4 =? 0) then false
  else if negb (y mod 100 =? 0) then true
  else if negb (y mod 400 =? 0) then false
  else true.

Definition leapDay (y : Z) : Z := if InLeapYear y then 1 else 0.

(** Number of days of the year before month [m] (1 = January). *)
Definition monthStart (y m : Z) : Z :=
  match m with
  | 1 => 0 | 2 => 31
  | 3 => 59 + leapDay y | 4 => 90 + leapDay y | 5 => 120 + leapDay y
  | 6 => 151 + leapDay y | 7 => 181 + leapDay y | 8 => 212 + leapDay y
  | 9 => 243 + leapDay y | 10 => 273 + leapDay y | 11 => 304 + leapDay y
  | _ => 334 + leapDay y
  end.

Definition daysInMonth (y m : Z) : Z :=
  match m with
  | 2 => 28 + leapDay y
  | 4 | 6 | 9 | 11 => 30
  | _ => 31
  end.

(** MakeDay for a month in 1..12 and a day of that month. *)
Definition MakeDay (y m d : Z) : Z := DayFromYear y + monthStart y m + d - 1.

(** MakeTime with seconds and milliseconds 0. *)
Definition MakeTime (hh mm : Z) : Z := hh * msPerHour + mm * msPerMinute.

Definition MakeDate (day time : Z) : Z := day * msPerDay + time.

(** *** Reading [YYYY-MM-DDTHH:mm] *)

Definition digit (c : ascii) : option Z :=
  let n := Z.of_N (N_of_ascii c) in
  if (48 <=? n) && (n <=? 57) then Some (n - 48) else None.

Definition digits2 (a b : ascii) : option Z :=
  match digit a, digit b with
  | Some x, Some y => Some (10 * x + y)
  | _, _ => None
  end.

Definition digits4 (a b c d : ascii) : option Z :=
  match digits2 a b, digits2 c d with
  | Some x, Some y => Some (100 * x + y)
  | _, _ => None
  end.

(** A calendar date [YYYY-MM-DD]: year, month 1..12, day of that month. *)
Definition parseYMD (s : string) : option (Z * Z * Z) :=
  match list_ascii_of_string s with
  | [y1; y2; y3; y4; s1; m1; m2; s2; d1; d2] =>
      match digits4 y1 y2 y3 y4, digits2 m1 m2, digits2 d1 d2 with
      | Some y, Some m, Some d =>
          if Ascii.eqb s1 "-" && Ascii.eqb s2 "-"
             && (1 <=? m) && (m <=? 12) && (1 <=? d) && (d <=? daysInMonth y m)
          then Some (y, m, d) else None
      | _, _, _ => None
      end
  | _ => None
  end.

(** A time of day [HH:mm]: hour 0..23, minute 0..59. *)
Definition parseHM (s : string) : option (Z * Z) :=
  match list_ascii_of_string s with
  | [h1; h2; s1; n1; n2] =>
      match digits2 h1 h2, digits2 n1 n2 with
      | Some hh, Some mm =>
          if Ascii.eqb s1 ":" && (hh <=? 23) && (mm <=? 59)
          then Some (hh, mm) else None
      | _, _ => None
      end
  | _ => None
  end.

(** Splits a string at its first ["T"]. *)
Fixpoint splitT (s : string) : option (string * string) :=
  match s with
  | EmptyString => None
  | String c rest =>
      if Ascii.eqb c "T" then Some (EmptyString, rest)
      else match splitT rest with
           | Some (a, b) => Some (String c a, b)
           | None => None
           end
  end.

(** The local time denoted by a string of the form [YYYY-MM-DDTHH:mm]. *)
Definition isoLocal (s : string) : option Z :=
  match splitT s with
  | Some (d, t) =>
      match parseYMD d, parseHM t with
      | Some (y, m, dd), Some (hh, mm) =>
          Some (MakeDate (MakeDay y m dd) (MakeTime hh mm))
      | _, _ => None
      end
  | None => None
  end.

(** [new Date(s).getTime()]: a date-time without offset is local time. *)
Definition getTime (h : Host) (s : string) : Time :=
  match isoLocal s with
  | Some t => TimeClip (UTC h t)
  | None => implParse h s
  end.

(** Subtraction of two time values as a sort comparator sees it; the
    operands are integers below 2^53 in magnitude, so the sign of the
    binary64 difference is the sign of the exact one. *)
Definition timeDiff (a b : Time) : Time :=
  match a, b with
  | Some x, Some y => Some (x - y)
  | _, _ => None
  end.

(** *** [Array.prototype.sort]

    The comparator returns a number or [NaN]; SortCompare reads [NaN] as
    [+0].  The sort is stable, so with a consistent comparator every engine
    returns the list computed here, by insertion from the left.  With an
    inconsistent one the order is left to the engine, and the list computed
    here is one of the possible outcomes. *)

Section ArraySort.
Context {A : Type}.
Variable comparefn : A -> A -> Time.

Definition SortCompare (x y : A) : Z :=
  match comparefn x y with
  | Some v => v
  | None => 0
  end.

Fixpoint sortInsert (x : A) (sorted : list A) : list A :=
  match sorted with
  | [] => [x]
  | y :: rest =>
      if 0 <? SortCompare y x then x :: y :: rest
      else y :: sortInsert x rest
  end.

Definition arraySort (l : list A) : list A :=
  fold_left (fun acc x => sortInsert x acc) l [].
End ArraySort.

End JS.

(** ** Data model ([src/types.ts] and the rows of the store) *)

Definition TransactionType_IN : string := "IN".
Definition TransactionType_OUT : string := "OUT".

(** The [type] field is a string at run time ([t.type as TransactionType]
    is an unchecked cast), so it is kept as one. *)
Module Transaction.
Record t {num : Type} := mk {
  id : string;
  bookId : string;
  amount : num;
  type : string;
  date : string;
  time : string;
  note : string;
  partyName : option string;
  category : option string;
  attachmentUrl : option string;
  createdAt : JS.Time
}.
Arguments t : clear implicits.
Arguments mk {num}.
End Transaction.

Module TransactionWithBalance.
Record t {num : Type} := mk {
  id : string;
  bookId : string;
  amount : num;
  type : string;
  date : string;
  time : string;
  note : string;
  partyName : option string;
  category : option string;
  attachmentUrl : option string;
  createdAt : JS.Time;
  runningBalance : num
}.
Arguments t : clear implicits.
Arguments mk {num}.
End TransactionWithBalance.

Module BookWithTotals.
Record t {num : Type} := mk {
  id : string;
  businessId : string;
  name : string;
  createdAt : JS.Time;
  totalIn : num;
  totalOut : num;
  balance : num
}.
Arguments t : clear implicits.
Arguments mk {num}.
End BookWithTotals.

Module BusinessWithTotals.
Record t {num : Type} := mk {
  id : string;
  userId : string;
  name : string;
  currency : string;
  joinCode : string;
  createdAt : JS.Time;
  totalIn : num;
  totalOut : num;
  balance : num;
  bookCount : nat;
  books : list (BookWithTotals.t num);
  isShared : bool;
  ownerEmail : option string
}.
Arguments t : clear implicits.
Arguments mk {num}.
End BusinessWithTotals.

(** A row of [entries]; [amount] stands for [Number(t.amount)]. *)
Module EntryRow.
Record t {num : Type} := mk {
  id : string;
  ledger_id : string;
  amount : num;
  type : string;
  date : string;
  time : string;
  note : option string;
  party_name : option string;
  category : option string;
  attachment_url : option string;
  created_at : string
}.
Arguments t : clear implicits.
Arguments mk {num}.
End EntryRow.

(** A row of [ledgers] with its embedded entries, which may be absent. *)
Module LedgerRow.
Record t {num : Type} := mk {
  id : string;
  project_id : string;
  name : string;
  created_at : string;
  entries : option (list (EntryRow.t num))
}.
Arguments t : clear implicits.
Arguments mk {num}.
End LedgerRow.

(** A row of [projects] with its embedded ledgers, which may be absent. *)
Module ProjectRow.
Record t {num : Type} := mk {
  id : string;
  owner_id : string;
  name : string;
  currency : string;
  join_code : string;
  created_at : string;
  ledgers : option (list (LedgerRow.t num));
  owner_email : option string
}.
Arguments t : clear implicits.
Arguments mk {num}.
End ProjectRow.

(** ** The storage service ([src/services/storage.ts]) *)

Section Storage.
Context {num : Type} `{Number num}.
Variable host : JS.Host.

(** *** Totals of a list of entries

    The loop body [if (t.type === 'IN') in += Number(t.amount); else
    out += Number(t.amount)] occurs three times, in [getBusinesses],
    [getBooks] and [getBookTotals]. *)
Definition addEntry (acc : num * num) (t : EntryRow.t num) : num * num :=
  let '(totalIn, totalOut) := acc in
  if String.eqb (EntryRow.type t) "IN"
  then (add totalIn (EntryRow.amount t), totalOut)
  else (totalIn, add totalOut (EntryRow.amount t)).

Definition sumEntries (entries : option (list (EntryRow.t num))) : num * num :=
  match entries with
  | Some es => fold_left addEntry es (zero, zero)
  | None => (zero, zero)
  end.

(** The record returned for one ledger row by [getBooks] and
    [getBookTotals]. *)
Definition bookOfLedger (b : LedgerRow.t num) : BookWithTotals.t num :=
  let '(totalIn, totalOut) := sumEntries (LedgerRow.entries b) in
  {| BookWithTotals.id := LedgerRow.id b;
     BookWithTotals.businessId := LedgerRow.project_id b;
     BookWithTotals.name := LedgerRow.name b;
     BookWithTotals.createdAt := JS.getTime host (LedgerRow.created_at b);
     BookWithTotals.totalIn := totalIn;
     BookWithTotals.totalOut := totalOut;
     BookWithTotals.balance := sub totalIn totalOut |}.

(** [getBooks]: [data] is [None] when the query fails. *)
Definition getBooks (data : option (list (LedgerRow.t num)))
  : list (BookWithTotals.t num) :=
  match data with
  | Some rows => map bookOfLedger rows
  | None => []
  end.

(** [getBookTotals]. *)
Definition getBookTotals (data : option (LedgerRow.t num))
  : option (BookWithTotals.t num) :=
  match data with
  | Some row => Some (bookOfLedger row)
  | None => None
  end.

(** *** [getBusinesses] *)

(** One turn of [b.ledgers.map(...)]: the callback also adds the book's
    totals to the [totalIn] and [totalOut] of the enclosing business. *)
Definition ledgerStep (businessId : string)
    (st : num * num * list (BookWithTotals.t num)) (book : LedgerRow.t num)
  : num * num * list (BookWithTotals.t num) :=
  let '(totalIn, totalOut, books) := st in
  let '(bIn, bOut) := sumEntries (LedgerRow.entries book) in
  (add totalIn bIn, add totalOut bOut,
   books ++ [ {| BookWithTotals.id := LedgerRow.id book;
                 BookWithTotals.businessId := businessId;
                 BookWithTotals.name := LedgerRow.name book;
                 BookWithTotals.createdAt :=
                   JS.getTime host (LedgerRow.created_at book);
                 BookWithTotals.totalIn := bIn;
                 BookWithTotals.totalOut := bOut;
                 BookWithTotals.balance := sub bIn bOut |} ]).

(** [books.sort((a, b) => b.createdAt - a.createdAt)]. *)
Definition newestFirst (a b : BookWithTotals.t num) : JS.Time :=
  JS.timeDiff (BookWithTotals.createdAt b) (BookWithTotals.createdAt a).

(** The body of [allBusinesses.map]. *)
Definition businessOfProject (isShared : bool) (b : ProjectRow.t num)
  : BusinessWithTotals.t num :=
  let '(totalIn, totalOut, bookCount, books) :=
    match ProjectRow.ledgers b with
    | Some ledgers =>
        let '(totalIn, totalOut, books) :=
          fold_left (ledgerStep (ProjectRow.id b)) ledgers (zero, zero, []) in
        (totalIn, totalOut, length ledgers, JS.arraySort newestFirst books)
    | None => (zero, zero, 0%nat, [])
    end in
  {| BusinessWithTotals.id := ProjectRow.id b;
     BusinessWithTotals.userId := ProjectRow.owner_id b;
     BusinessWithTotals.name := ProjectRow.name b;
     BusinessWithTotals.currency := ProjectRow.currency b;
     BusinessWithTotals.joinCode := ProjectRow.join_code b;
     BusinessWithTotals.createdAt := JS.getTime host (ProjectRow.created_at b);
     BusinessWithTotals.totalIn := totalIn;
     BusinessWithTotals.totalOut := totalOut;
     BusinessWithTotals.balance := sub totalIn totalOut;
     BusinessWithTotals.bookCount := bookCount;
     BusinessWithTotals.books := books;
     BusinessWithTotals.isShared := isShared;
     BusinessWithTotals.ownerEmail :=
       if isShared then ProjectRow.owner_email b else None |}.

(** [getBusinesses]: the owned projects followed by the shared ones; a
    failed query counts as an empty list. *)
Definition getBusinesses (ownedData sharedData : option (list (ProjectRow.t num)))
  : list (BusinessWithTotals.t num) :=
  map (businessOfProject false) (default [] ownedData)
  ++ map (businessOfProject true) (default [] sharedData).

(** *** [getTransactionsWithBalance] *)

(** [note: t.note || ''] : an absent or empty note becomes [''] . *)
Definition transactionOfRow (t : EntryRow.t num) : Transaction.t num :=
  {| Transaction.id := EntryRow.id t;
     Transaction.bookId := EntryRow.ledger_id t;
     Transaction.amount := EntryRow.amount t;
     Transaction.type := EntryRow.type t;
     Transaction.date := EntryRow.date t;
     Transaction.time := EntryRow.time t;
     Transaction.note := default "" (EntryRow.note t);
     Transaction.partyName := EntryRow.party_name t;
     Transaction.category := EntryRow.category t;
     Transaction.attachmentUrl := EntryRow.attachment_url t;
     Transaction.createdAt := JS.getTime host (EntryRow.created_at t) |}.

(** [new Date(`${a.date}T${a.time}`).getTime()]. *)
Definition timestamp (a : Transaction.t num) : JS.Time :=
  JS.getTime host (Transaction.date a ++ "T" ++ Transaction.time a).

(** The comparator of [sortedAsc]: [dateA - dateB]. *)
Definition byDateTime (a b : Transaction.t num) : JS.Time :=
  JS.timeDiff (timestamp a) (timestamp b).

(** [{ ...tx, runningBalance: running }]. *)
Definition withRunningBalance (tx : Transaction.t num) (running : num)
  : TransactionWithBalance.t num :=
  {| TransactionWithBalance.id := Transaction.id tx;
     TransactionWithBalance.bookId := Transaction.bookId tx;
     TransactionWithBalance.amount := Transaction.amount tx;
     TransactionWithBalance.type := Transaction.type tx;
     TransactionWithBalance.date := Transaction.date tx;
     TransactionWithBalance.time := Transaction.time tx;
     TransactionWithBalance.note := Transaction.note tx;
     TransactionWithBalance.partyName := Transaction.partyName tx;
     TransactionWithBalance.category := Transaction.category tx;
     TransactionWithBalance.attachmentUrl := Transaction.attachmentUrl tx;
     TransactionWithBalance.createdAt := Transaction.createdAt tx;
     TransactionWithBalance.runningBalance := running |}.

(** The update of [running] for one transaction. *)
Definition step (running : num) (tx : Transaction.t num) : num :=
  if String.eqb (Transaction.type tx) TransactionType_IN
  then add running (Transaction.amount tx)
  else sub running (Transaction.amount tx).

(** [sortedAsc.map(tx => ...)], with the captured variable [running]
    passed along. *)
Fixpoint runningPass (running : num) (sortedAsc : list (Transaction.t num))
  : list (TransactionWithBalance.t num) :=
  match sortedAsc with
  | [] => []
  | tx :: rest =>
      let running' := step running tx in
      withRunningBalance tx running' :: runningPass running' rest
  end.

(** Lines 483-499, the balance engine: sort a copy ascending, annotate,
    reverse. *)
Definition computeRunningBalances (txs : list (Transaction.t num))
  : list (TransactionWithBalance.t num) :=
  let sortedAsc := JS.arraySort byDateTime txs in
  let withBalance := runningPass zero sortedAsc in
  rev withBalance.

(** [getTransactionsWithBalance]: [data] is [None] when the query fails. *)
Definition getTransactionsWithBalance (data : option (list (EntryRow.t num)))
  : list (TransactionWithBalance.t num) :=
  match data with
  | Some rows => computeRunningBalances (map transactionOfRow rows)
  | None => []
  end.

(** *** [BusinessDetailView.loadData]: the totals of the book list *)
Definition loadDataTotals (booksData : list (BookWithTotals.t num))
  : num * num * num * nat :=
  let totalIn :=
    fold_left (fun sum b => add sum (BookWithTotals.totalIn b)) booksData zero in
  let totalOut :=
    fold_left (fun sum b => add sum (BookWithTotals.totalOut b)) booksData zero in
  (totalIn, totalOut, sub totalIn totalOut, length booksData).

End Storage.

(** *** The join code of [createBusiness]

    [Math.floor(100000 + Math.random() * 900000).toString()], in binary64.
    [random] is the result of [Math.random()]. *)

(** [Math.floor] of a binary64 value, as the integer it denotes; [None]
    for [NaN] and the infinities. *)
Definition Math_floor (x : float) : option Z :=
  match Prim2SF x with
  | S754_zero _ => Some 0
  | S754_finite s m e => Some (Z.shiftl (if s then Z.neg m else Z.pos m) e)
  | _ => None
  end.

Definition digitChar (d : Z) : ascii := ascii_of_N (Z.to_N (48 + d)).

(** The decimal digits of a positive integer, most significant first. *)
Fixpoint digitsOf (fuel : nat) (n : Z) (acc : string) : string :=
  match fuel with
  | O => acc
  | S fuel' =>
      let acc' := String (digitChar (n mod 10)) acc in
      if n / 10 =? 0 then acc' else digitsOf fuel' (n / 10) acc'
  end.

(** [Number.prototype.toString] on an integer below 10^21 in magnitude. *)
Definition toString (n : Z) : string :=
  if n <? 0
  then String "-" (digitsOf (S (Z.to_nat (Z.log2 (- n)))) (- n) "")
  else digitsOf (S (Z.to_nat (Z.log2 n))) n "".

Definition joinCodeNumber (random : float) : option Z :=
  Math_floor (100000 + random * 900000)%float.

Definition joinCode (random : float) : option string :=
  option_map toString (joinCodeNumber random).

(** ** Arrays in a store

    [sort] and [reverse] work in place, the spread [[...txs]] and [map]
    allocate.  Arrays are kept in a store indexed by references, so that
    what happens to the caller's array can be stated.  The transaction
    objects themselves are never assigned to: the callback of [map] builds
    new objects. *)

Module Arrays.
Section Store.
Context {num : Type} `{Number num}.
Variable host : JS.Host.

Record Store := mkStore {
  txArrays : gmap nat (list (Transaction.t num));
  wbArrays : gmap nat (list (TransactionWithBalance.t num))
}.

(** Commands on the store; [None] is a reference to no array. *)
Definition M (A : Type) : Type := Store -> option (A * Store).

Definition ret {A} (a : A) : M A := fun st => Some (a, st).

Definition bind {A B} (m : M A) (k : A -> M B) : M B :=
  fun st => match m st with
            | Some (a, st') => k a st'
            | None => None
            end.

#[local] Notation "x <- m ;; k" := (bind m (fun x => k))
  (at level 100, m at next level, right associativity).

Definition readTx (r : nat) : M (list (Transaction.t num)) :=
  fun st => match txArrays st !! r with
            | Some l => Some (l, st)
            | None => None
            end.

Definition writeTx (r : nat) (l : list (Transaction.t num)) : M unit :=
  fun st => Some (tt, mkStore (<[r := l]> (txArrays st)) (wbArrays st)).

Definition allocTx (l : list (Transaction.t num)) : M nat :=
  fun st => let r := fresh (dom (txArrays st)) in
            Some (r, mkStore (<[r := l]> (txArrays st)) (wbArrays st)).

Definition readWb (r : nat) : M (list (TransactionWithBalance.t num)) :=
  fun st => match wbArrays st !! r with
            | Some l => Some (l, st)
            | None => None
            end.

Definition writeWb (r : nat) (l : list (TransactionWithBalance.t num)) : M unit :=
  fun st => Some (tt, mkStore (txArrays st) (<[r := l]> (wbArrays st))).

Definition allocWb (l : list (TransactionWithBalance.t num)) : M nat :=
  fun st => let r := fresh (dom (wbArrays st)) in
            Some (r, mkStore (txArrays st) (<[r := l]> (wbArrays st))).

(** [[...a]] *)
Definition spread (a : nat) : M nat :=
  l <- readTx a ;; allocTx l.

(** [a.sort(comparefn)]: sorts [a] itself and returns it. *)
Definition sort (comparefn : Transaction.t num -> Transaction.t num -> JS.Time)
    (a : nat) : M nat :=
  l <- readTx a ;; _ <- writeTx a (JS.arraySort comparefn l) ;; ret a.

(** [a.map(tx => { ...; return { ...tx, runningBalance: running } })]
    with [running] starting at 0. *)
Definition mapRunning (a : nat) : M nat :=
  l <- readTx a ;; allocWb (runningPass zero l).

(** [a.reverse()]: reverses [a] itself and returns it. *)
Definition reverse (a : nat) : M nat :=
  l <- readWb a ;; _ <- writeWb a (rev l) ;; ret a.

(** Lines 483-499 on the array referenced by [txs]. *)
Definition computeRunningBalancesAt (txs : nat) : M nat :=
  copy <- spread txs ;;
  sortedAsc <- sort (byDateTime host) copy ;;
  withBalance <- mapRunning sortedAsc ;;
  reverse withBalance.

End Store.
End Arrays.

(** ** Strings of the engine *)

Module JSString.

(** [s.split(separator)] for a separator of one character. *)
Fixpoint split (separator : ascii) (s : string) : list string :=
  match s with
  | EmptyString => [EmptyString]
  | String c rest =>
      if Ascii.eqb c separator then EmptyString :: split separator rest
      else match split separator rest with
           | piece :: pieces => String c piece :: pieces
           | [] => [String c EmptyString]
           end
  end.

(** [l.join(separator)] on strings. *)
Definition join (separator : string) (l : list string) : string :=
  String.concat separator l.

(** The first [n] characters of [padString] repeated; [rest] is what is
    left of the current repetition. *)
Fixpoint filler (n : nat) (padString rest : string) : string :=
  match n with
  | O => EmptyString
  | S n' =>
      match rest with
      | String c r => String c (filler n' padString r)
      | EmptyString =>
          match padString with
          | String c r => String c (filler n' padString r)
          | EmptyString => EmptyString
          end
      end
  end.

(** [s.padStart(targetLength, padString)]. *)
Definition padStart (targetLength : nat) (padString s : string) : string :=
  filler (targetLength - String.length s) padString padString ++ s.

(** The line feed, ["\n"]. *)
Definition newlineChar : ascii := ascii_of_nat 10.
Definition newline : string := String newlineChar EmptyString.

End JSString.

(** ** Dates of the engine ([Date], ECMAScript 21.4)

    What the date picker uses of [Date]: the constructor from a year, a
    month and a day in local time, and the getters. *)

Module JSDate.

(** The host with the second half of its time zone: the offset at an
    instant (ECMAScript's LocalTZA(t, true)). *)
Record Clock := {
  host : JS.Host;
  offsetAt : Z -> Z
}.

Definition LocalTime (c : Clock) (t : Z) : Z := t + offsetAt c t.

Definition Day (t : Z) : Z := t / JS.msPerDay.

Definition WeekDay (t : Z) : Z := (Day t + 4) mod 7.

(** The year of a day number: the estimate from the mean length of a year
    is off by at most one. *)
Definition YearFromDay (day : Z) : Z :=
  let y := 1970 + 400 * day / 146097 in
  if JS.DayFromYear (y + 1) <=? day then y + 1
  else if JS.DayFromYear y <=? day then y
  else y - 1.

Definition YearFromTime (t : Z) : Z := YearFromDay (Day t).

Definition DayWithinYear (t : Z) : Z := Day t - JS.DayFromYear (YearFromTime t).

Definition MonthFromTime (t : Z) : Z :=
  let d := DayWithinYear t in
  let leap := JS.leapDay (YearFromTime t) in
  if d <? 31 then 0
  else if d <? 59 + leap then 1
  else if d <? 90 + leap then 2
  else if d <? 120 + leap then 3
  else if d <? 151 + leap then 4
  else if d <? 181 + leap then 5
  else if d <? 212 + leap then 6
  else if d <? 243 + leap then 7
  else if d <? 273 + leap then 8
  else if d <? 304 + leap then 9
  else if d <? 334 + leap then 10
  else 11.

Definition DateFromTime (t : Z) : Z :=
  let d := DayWithinYear t in
  let leap := JS.leapDay (YearFromTime t) in
  match MonthFromTime t with
  | 0 => d + 1
  | 1 => d - 30
  | 2 => d - 58 - leap
  | 3 => d - 89 - leap
  | 4 => d - 119 - leap
  | 5 => d - 150 - leap
  | 6 => d - 180 - leap
  | 7 => d - 211 - leap
  | 8 => d - 242 - leap
  | 9 => d - 272 - leap
  | 10 => d - 303 - leap
  | _ => d - 333 - leap
  end.

(** MakeDay for any month number: months beyond the year carry into the
    year. *)
Definition MakeDay (year month date : Z) : Z :=
  JS.MakeDay (year + month / 12) (month mod 12 + 1) date.

(** [new Date(year, month, date)]: a year from 0 to 99 means 1900 + year;
    the time of day is 00:00 local time. *)
Definition construct (c : Clock) (year month date : Z) : JS.Time :=
  let yr := if (0 <=? year) && (year <=? 99) then 1900 + year else year in
  JS.TimeClip (JS.UTC (host c) (JS.MakeDate (MakeDay yr month date) 0)).

(** The getters; [None] is [NaN]. *)
Definition getFullYear (c : Clock) (d : JS.Time) : option Z :=
  option_map (fun t => YearFromTime (LocalTime c t)) d.

Definition getMonth (c : Clock) (d : JS.Time) : option Z :=
  option_map (fun t => MonthFromTime (LocalTime c t)) d.

Definition getDate (c : Clock) (d : JS.Time) : option Z :=
  option_map (fun t => DateFromTime (LocalTime c t)) d.

Definition getDay (c : Clock) (d : JS.Time) : option Z :=
  option_map (fun t => WeekDay (LocalTime c t)) d.

(** [String(x)] for a whole number or [NaN]. *)
Definition numberString (x : option Z) : string :=
  match x with
  | Some n => toString n
  | None => "NaN"
  end.

(** The time of day. *)
Definition HourFromTime (t : Z) : Z := (t / JS.msPerHour) mod 24.
Definition MinFromTime (t : Z) : Z := (t / JS.msPerMinute) mod 60.
Definition SecFromTime (t : Z) : Z := (t / 1000) mod 60.
Definition msFromTime (t : Z) : Z := t mod 1000.

(** A whole number in at least [n] digits. *)
Definition padded (n : nat) (x : Z) : string := JSString.padStart n "0" (toString x).

(** The year of [toISOString]: four digits from 0 to 9999, otherwise a sign
    and six digits. *)
Definition yearText (y : Z) : string :=
  if (0 <=? y) && (y <=? 9999) then padded 4 y
  else (if y <? 0 then "-" else "+") ++ padded 6 (Z.abs y).

Definition dateText (t : Z) : string :=
  yearText (YearFromTime t) ++ "-" ++ padded 2 (MonthFromTime t + 1) ++ "-"
  ++ padded 2 (DateFromTime t).

Definition timeText (t : Z) : string :=
  padded 2 (HourFromTime t) ++ ":" ++ padded 2 (MinFromTime t) ++ ":"
  ++ padded 2 (SecFromTime t).

(** [d.toISOString()] for a date with time value [t]: the fields are those
    of UTC. *)
Definition toISOString (t : Z) : string :=
  dateText t ++ "T" ++ timeText t ++ "." ++ padded 3 (msFromTime t) ++ "Z".

(** [d.toTimeString()]: the local time of day, [" GMT"], and the text the
    engine puts after it for the time zone. *)
Definition toTimeString (c : Clock) (zoneText : string) (t : Z) : string :=
  timeText (LocalTime c t) ++ " GMT" ++ zoneText.

End JSDate.

(** ** The dashboard ([DashboardView], the three [reduce]s over the
    businesses) *)

Module DashboardView.
Section Totals.
Context {num : Type} `{Number num}.
Variable businesses : list (BusinessWithTotals.t num).

Definition totalBalance : num :=
  fold_left (fun acc b => add acc (BusinessWithTotals.balance b)) businesses zero.

Definition totalIn : num :=
  fold_left (fun acc b => add acc (BusinessWithTotals.totalIn b)) businesses zero.

Definition totalOut : num :=
  fold_left (fun acc b => add acc (BusinessWithTotals.totalOut b)) businesses zero.
End Totals.
End DashboardView.

(** ** The book view ([BookDetailView]): filters and date headers *)

Module BookDetailView.
Section Filters.
Context {num : Type}.
(** [String.prototype.toLowerCase] and [Number.prototype.toString], as the
    engine provides them. *)
Variable toLowerCase : string -> string.
Variable numberToString : num -> string.

(** [s.includes(searchString)]. *)
Fixpoint includes (s searchString : string) : bool :=
  if String.prefix searchString s then true
  else match s with
       | EmptyString => false
       | String _ rest => includes rest searchString
       end.

(** A string in a condition: the empty string counts as false. *)
Definition truthy (s : string) : bool := negb (String.eqb s "").

(** The callback of [transactions.filter]. *)
Definition matchesFilters (searchTerm filterType dateStart dateEnd : string)
    (t : TransactionWithBalance.t num) : bool :=
  let matchesSearch :=
    includes (toLowerCase (TransactionWithBalance.note t)) (toLowerCase searchTerm)
    || includes (numberToString (TransactionWithBalance.amount t)) searchTerm in
  let matchesType :=
    String.eqb filterType "ALL"
    || String.eqb (TransactionWithBalance.type t) filterType in
  let matchesDate := true in
  let matchesDate :=
    if truthy dateStart && String.ltb (TransactionWithBalance.date t) dateStart
    then false else matchesDate in
  let matchesDate :=
    if truthy dateEnd && String.ltb dateEnd (TransactionWithBalance.date t)
    then false else matchesDate in
  matchesSearch && matchesType && matchesDate.

Definition filteredTransactions (searchTerm filterType dateStart dateEnd : string)
    (transactions : list (TransactionWithBalance.t num))
  : list (TransactionWithBalance.t num) :=
  List.filter (matchesFilters searchTerm filterType dateStart dateEnd) transactions.

(** [index === 0 || tx.date !== filteredTransactions[index - 1].date], for
    the entry [tx] at [index]; [None] where the previous entry is read
    beyond the list. *)
Definition isDateHeader (filteredTransactions : list (TransactionWithBalance.t num))
    (index : nat) (tx : TransactionWithBalance.t num) : option bool :=
  match index with
  | O => Some true
  | S previous =>
      match filteredTransactions !! previous with
      | Some p => Some (negb (String.eqb (TransactionWithBalance.date tx)
                                         (TransactionWithBalance.date p)))
      | None => None
      end
  end.
End Filters.

(** The first values of the date and the time of the entry form; [now] is
    the time value of [new Date()]. *)
Section FormDefaults.
Variable clock : JSDate.Clock.
(** The text the engine writes after [" GMT"] in [toTimeString]. *)
Variable zoneText : string.

(** [new Date().toISOString().split('T')[0]]. *)
Definition initialTxDate (now : Z) : option string :=
  JSString.split "T" (JSDate.toISOString now) !! 0%nat.

(** [new Date().toTimeString().split(' ')[0].substr(0, 5)]. *)
Definition initialTxTime (now : Z) : option string :=
  option_map (String.substring 0 5)
    (JSString.split " " (JSDate.toTimeString clock zoneText now) !! 0%nat).
End FormDefaults.
End BookDetailView.

(** ** The time picker ([ModernTimePicker]) *)

Module ModernTimePicker.

(** A value inside a template literal; [None] is [undefined]. *)
Definition shown (x : option string) : string := default "undefined" x.

(** [const [hours, minutes] = value.split(':')]. *)
Definition hours (value : string) : option string := JSString.split ":" value !! 0%nat.
Definition minutes (value : string) : option string := JSString.split ":" value !! 1%nat.

(** The new value passed to [onChange]. *)
Definition handleHourClick (value h : string) : string :=
  h ++ ":" ++ shown (minutes value).

Definition handleMinuteClick (value : string) (m : option string) : string :=
  shown (hours value) ++ ":" ++ shown m.

Definition hoursList : list string :=
  map (fun i => JSString.padStart 2 "0" (toString (Z.of_nat i))) (seq 0 24).

(** The order of [sort()] without a comparator: [undefined] last, strings
    by their characters. *)
Definition defaultCompare (x y : option string) : JS.Time :=
  match x, y with
  | None, None => Some 0
  | None, Some _ => Some 1
  | Some _, None => Some (-1)
  | Some a, Some b =>
      match String.compare a b with
      | Lt => Some (-1)
      | Eq => Some 0
      | Gt => Some 1
      end
  end.

(** [x === y] on strings and [undefined]. *)
Definition same (x y : option string) : bool :=
  match x, y with
  | Some a, Some b => String.eqb a b
  | None, None => true
  | _, _ => false
  end.

Definition minutesList (value : string) : list (option string) :=
  let minutesList :=
    map (fun i => Some (JSString.padStart 2 "0" (toString (Z.of_nat i * 5)))) (seq 0 12) in
  let minutesList :=
    if existsb (same (minutes value)) minutesList then minutesList
    else minutesList ++ [minutes value] in
  JS.arraySort defaultCompare minutesList.

End ModernTimePicker.

(** ** The date picker ([ModernDatePicker]) *)

Module ModernDatePicker.
Section Picker.
Variable clock : JSDate.Clock.

Definition getDaysInMonth (year month : Z) : option Z :=
  JSDate.getDate clock (JSDate.construct clock year (month + 1) 0).

Definition getFirstDayOfMonth (year month : Z) : option Z :=
  JSDate.getDay clock (JSDate.construct clock year month 1).

(** The month shown: [viewDate.getFullYear()] and [viewDate.getMonth()]. *)
Definition currentYear (viewDate : JS.Time) : option Z :=
  JSDate.getFullYear clock viewDate.

Definition currentMonth (viewDate : JS.Time) : option Z :=
  JSDate.getMonth clock viewDate.

(** The new [viewDate] of the two arrows. *)
Definition handlePrevMonth (currentYear currentMonth : Z) : JS.Time :=
  JSDate.construct clock currentYear (currentMonth - 1) 1.

Definition handleNextMonth (currentYear currentMonth : Z) : JS.Time :=
  JSDate.construct clock currentYear (currentMonth + 1) 1.

(** The string passed to [onChange]. *)
Definition handleDayClick (currentYear currentMonth day : Z) : string :=
  let d := JSDate.construct clock currentYear currentMonth day in
  let yyyy := JSDate.numberString (JSDate.getFullYear clock d) in
  let mm :=
    JSString.padStart 2 "0"
      (JSDate.numberString (option_map (fun m => m + 1) (JSDate.getMonth clock d))) in
  let dd := JSString.padStart 2 "0" (JSDate.numberString (JSDate.getDate clock d)) in
  yyyy ++ "-" ++ mm ++ "-" ++ dd.

(** [Array.from({ length: daysInMonth }, (_, i) => i + 1)]; a length of
    [NaN] gives the empty array. *)
Definition days (daysInMonth : option Z) : list Z :=
  match daysInMonth with
  | Some n => map (fun i => Z.of_nat i + 1) (seq 0 (Z.to_nat n))
  | None => []
  end.

(** [Array(firstDay).fill(null)]; a length of [NaN] throws, here [None]. *)
Definition blanks (firstDay : option Z) : option (list unit) :=
  option_map (fun n => repeat tt (Z.to_nat n)) firstDay.

(** The children of the grid of seven columns: the blanks, then the day
    buttons. *)
Definition grid (currentYear currentMonth : Z) : option (list (option Z)) :=
  option_map
    (fun blanks =>
       map (fun _ => None) blanks
       ++ map Some (days (getDaysInMonth currentYear currentMonth)))
    (blanks (getFirstDayOfMonth currentYear currentMonth)).
End Picker.
End ModernDatePicker.

(** ** The upload signature ([uploadToCloudinary]): the digest in hexadecimal *)

(** A digit of [Number.prototype.toString(radix)]: [0-9], then [a-z]. *)
Definition radixDigitChar (d : Z) : ascii :=
  if d <? 10 then ascii_of_N (Z.to_N (48 + d)) else ascii_of_N (Z.to_N (87 + d)).

Fixpoint digitsOfRadix (fuel : nat) (radix n : Z) (acc : string) : string :=
  match fuel with
  | O => acc
  | S fuel' =>
      let acc' := String (radixDigitChar (n mod radix)) acc in
      if n / radix =? 0 then acc' else digitsOfRadix fuel' radix (n / radix) acc'
  end.

(** [n.toString(radix)] on a non-negative integer, for a radix from 2 to
    36. *)
Definition toStringRadix (radix n : Z) : string :=
  digitsOfRadix (S (Z.to_nat (Z.log2 n))) radix n "".

(** [hashArray.map(b => b.toString(16).padStart(2, '0')).join('')]; an
    element of the [Uint8Array] is a number from 0 to 255. *)
Definition hexOfNumber (b : Z) : string :=
  JSString.padStart 2 "0" (toStringRadix 16 b).

Definition signature (hashArray : list Byte.byte) : string :=
  JSString.join "" (map (fun b => hexOfNumber (Z.of_N (Byte.to_N b))) hashArray).

(** ** The CSV export ([BusinessDetailView.exportCSV]) *)

Module BusinessDetailView.
Section CsvExport.
Context {num : Type}.
(** The conversion of a number inside [join], and
    [new Date(createdAt).toLocaleDateString()], as the engine provides
    them. *)
Variable numberToString : num -> string.
Variable toLocaleDateString : JS.Time -> string.

Definition headers : list string :=
  ["Book Name"; "Total In"; "Total Out"; "Balance"; "Date Created"].

(** The callback of [books.map]. *)
Definition rowOf (b : BookWithTotals.t num) : list string :=
  [ BookWithTotals.name b;
    numberToString (BookWithTotals.totalIn b);
    numberToString (BookWithTotals.totalOut b);
    numberToString (BookWithTotals.balance b);
    toLocaleDateString (BookWithTotals.createdAt b) ].

(** [[headers, ...rows].map(e => e.join(",")).join("\n")]. *)
Definition csvLines (books : list (BookWithTotals.t num)) : string :=
  JSString.join JSString.newline
    (map (JSString.join ",") (headers :: map rowOf books)).

Definition csvContent (books : list (BookWithTotals.t num)) : string :=
  "data:text/csv;charset=utf-8," ++ csvLines books.
End CsvExport.
End BusinessDetailView.

(** ** The router ([App]) *)

Module App.

Record User := mkUser {
  id : string;
  name : string;
  email : string;
  phone : option string
}.

Inductive ViewState :=
| AUTH
| DASHBOARD
| BUSINESS_DETAIL (businessId : string)
| BOOK_DETAIL (businessId bookId : string).

(** The two pieces of state of the component. *)
Record State := mkState {
  user : option User;
  viewState : ViewState
}.

Definition initial : State := {| user := None; viewState := AUTH |}.

(** What the component returns. *)
Inductive View :=
| AuthView
| DashboardView (user : User)
| BusinessDetailView (businessId : string)
| BookDetailView (bookId : string).

Definition render (s : State) : View :=
  match viewState s, user s with
  | AUTH, _ => AuthView
  | _, None => AuthView
  | DASHBOARD, Some u => DashboardView u
  | BUSINESS_DETAIL businessId, Some _ => BusinessDetailView businessId
  | BOOK_DETAIL _ bookId, Some _ => BookDetailView bookId
  end.

(** The effect run once after the first render; [existingUser] is the
    result of [getCurrentUser()]. *)
Definition mount (existingUser : option User) (s : State) : State :=
  match existingUser with
  | Some u => {| user := Some u; viewState := DASHBOARD |}
  | None => {| user := user s; viewState := AUTH |}
  end.

(** What can happen afterwards: the sign-out event of the auth client, and
    the callbacks handed to the view on screen.  [onLogin] carries the
    result of [getCurrentUser()]. *)
Inductive Event :=
| SIGNED_OUT
| onLogin (u : option User)
| onLogout
| onSelectBusiness (id : string)
| onSelectBook (bookId : string)
| onBack.

(** The state after an event; [None] when the view on screen has no such
    callback. *)
Definition handle (e : Event) (s : State) : option State :=
  match e, render s, viewState s with
  | SIGNED_OUT, _, _ => Some {| user := None; viewState := AUTH |}
  | onLogin (Some u), AuthView, _ =>
      Some {| user := Some u; viewState := DASHBOARD |}
  | onLogin None, AuthView, _ => Some s
  | onLogout, DashboardView _, _ => Some {| user := None; viewState := AUTH |}
  | onSelectBusiness id, DashboardView _, _ =>
      Some {| user := user s; viewState := BUSINESS_DETAIL id |}
  | onBack, BusinessDetailView _, _ =>
      Some {| user := user s; viewState := DASHBOARD |}
  | onSelectBook bookId, BusinessDetailView _, BUSINESS_DETAIL businessId =>
      Some {| user := user s; viewState := BOOK_DETAIL businessId bookId |}
  | onBack, BookDetailView _, BOOK_DETAIL businessId _ =>
      Some {| user := user s; viewState := BUSINESS_DETAIL businessId |}
  | _, _, _ => None
  end.

(** A run: the mount effect, then the events in turn; an event without a
    callback on screen changes nothing. *)
Definition run (existingUser : option User) (events : list Event) : State :=
  fold_left (fun s e => default s (handle e s)) events (mount existingUser initial).

End App.

(** ** Vocabulary of the properties *)

(** JavaScript's [<] and [<=] on strings, on single-byte characters. *)
Definition strLt (a b : string) : Prop := String.compare a b = Lt.
Definition strLe (a b : string) : Prop := String.compare a b <> Gt.

Section Vocabulary.
Context {num : Type} `{Number num}.

(** The transaction an annotated entry carries. *)
Definition forget (r : TransactionWithBalance.t num) : Transaction.t num :=
  {| Transaction.id := TransactionWithBalance.id r;
     Transaction.bookId := TransactionWithBalance.bookId r;
     Transaction.amount := TransactionWithBalance.amount r;
     Transaction.type := TransactionWithBalance.type r;
     Transaction.date := TransactionWithBalance.date r;
     Transaction.time := TransactionWithBalance.time r;
     Transaction.note := TransactionWithBalance.note r;
     Transaction.partyName := TransactionWithBalance.partyName r;
     Transaction.category := TransactionWithBalance.category r;
     Transaction.attachmentUrl := TransactionWithBalance.attachmentUrl r;
     Transaction.createdAt := TransactionWithBalance.createdAt r |}.

(** Field by field agreement of an output entry with a transaction. *)
Definition sameFields (r : TransactionWithBalance.t num) (tx : Transaction.t num)
  : Prop :=
  TransactionWithBalance.id r = Transaction.id tx
  /\ TransactionWithBalance.bookId r = Transaction.bookId tx
  /\ TransactionWithBalance.amount r = Transaction.amount tx
  /\ TransactionWithBalance.type r = Transaction.type tx
  /\ TransactionWithBalance.date r = Transaction.date tx
  /\ TransactionWithBalance.time r = Transaction.time tx
  /\ TransactionWithBalance.note r = Transaction.note tx
  /\ TransactionWithBalance.partyName r = Transaction.partyName tx
  /\ TransactionWithBalance.category r = Transaction.category tx
  /\ TransactionWithBalance.attachmentUrl r = Transaction.attachmentUrl tx
  /\ TransactionWithBalance.createdAt r = Transaction.createdAt tx.

(** [date] is a valid [YYYY-MM-DD] and [time] a valid [HH:mm]. *)
Definition wellFormed (tx : Transaction.t num) : bool :=
  match JS.parseYMD (Transaction.date tx), JS.parseHM (Transaction.time tx) with
  | Some _, Some _ => true
  | _, _ => false
  end.

(** [a] may stand directly before [b] in a list that is descending by
    (date, time). *)
Definition notBefore (a b : TransactionWithBalance.t num) : Prop :=
  strLt (TransactionWithBalance.date b) (TransactionWithBalance.date a)
  \/ (TransactionWithBalance.date a = TransactionWithBalance.date b
      /\ strLe (TransactionWithBalance.time b) (TransactionWithBalance.time a)).

(** The local time a well-formed transaction denotes. *)
Definition localTime (tx : Transaction.t num) : Z :=
  match JS.parseYMD (Transaction.date tx), JS.parseHM (Transaction.time tx) with
  | Some (y, m, d), Some (hh, mm) =>
      JS.MakeDate (JS.MakeDay y m d) (JS.MakeTime hh mm)
  | _, _ => 0
  end.

(** Its instant on a host. *)
Definition instant (host : JS.Host) (tx : Transaction.t num) : Z :=
  JS.UTC host (localTime tx).

(** The entry of the totals that a transaction comes from. *)
Definition rowOfTransaction (tx : Transaction.t num) : EntryRow.t num :=
  {| EntryRow.id := Transaction.id tx;
     EntryRow.ledger_id := Transaction.bookId tx;
     EntryRow.amount := Transaction.amount tx;
     EntryRow.type := Transaction.type tx;
     EntryRow.date := Transaction.date tx;
     EntryRow.time := Transaction.time tx;
     EntryRow.note := Some (Transaction.note tx);
     EntryRow.party_name := Transaction.partyName tx;
     EntryRow.category := Transaction.category tx;
     EntryRow.attachment_url := Transaction.attachmentUrl tx;
     EntryRow.created_at := "" |}.

(** The book summary of the specification: the totals of [getBookTotals]
    over the entries of a ledger. *)
Definition aggregateBook (entries : list (EntryRow.t num)) : num * num * num :=
  let '(totalIn, totalOut) := sumEntries (Some entries) in
  (totalIn, totalOut, sub totalIn totalOut).

(** The record [getBusinesses] builds for one ledger of business
    [businessId]. *)
Definition bookInBusiness (host : JS.Host) (businessId : string)
    (book : LedgerRow.t num) : BookWithTotals.t num :=
  let '(bIn, bOut) := sumEntries (LedgerRow.entries book) in
  {| BookWithTotals.id := LedgerRow.id book;
     BookWithTotals.businessId := businessId;
     BookWithTotals.name := LedgerRow.name book;
     BookWithTotals.createdAt := JS.getTime host (LedgerRow.created_at book);
     BookWithTotals.totalIn := bIn;
     BookWithTotals.totalOut := bOut;
     BookWithTotals.balance := sub bIn bOut |}.

(** Left-to-right sum, as [reduce((sum, b) => sum + f(b), 0)]. *)
Definition sumOf {A} (f : A -> num) (l : list A) : num :=
  fold_left (fun sum b => add sum (f b)) l zero.

End Vocabulary.

(** ** Vocabulary of the calendar *)

(** [a] may stand before [b] in a list ascending by [key]. *)
Definition ascendingBy {A : Type} (key : A -> Z) (a b : A) : Prop :=
  key a <= key b.

(** A month and a day of that month. *)
Definition validDay (y m d : Z) : Prop :=
  1 <= m <= 12 /\ 1 <= d <= JS.daysInMonth y m.

(** The numbers that order dates and times of day as their strings do. *)
Definition dateKey (y m d : Z) : Z := 10000 * y + 100 * m + d.
Definition timeKey (hh mm : Z) : Z := 100 * hh + mm.

(** A date in the format, taken apart. *)
Inductive dateView : string -> Z -> Z -> Z -> Prop :=
| DateView (c1 c2 c3 c4 c5 c6 c7 c8 : ascii) (v1 v2 v3 v4 v5 v6 v7 v8 : Z) :
    JS.digit c1 = Some v1 -> JS.digit c2 = Some v2 ->
    JS.digit c3 = Some v3 -> JS.digit c4 = Some v4 ->
    JS.digit c5 = Some v5 -> JS.digit c6 = Some v6 ->
    JS.digit c7 = Some v7 -> JS.digit c8 = Some v8 ->
    validDay (100 * (10 * v1 + v2) + (10 * v3 + v4)) (10 * v5 + v6) (10 * v7 + v8) ->
    dateView
      (String c1 (String c2 (String c3 (String c4 (String "-"
         (String c5 (String c6 (String "-" (String c7 (String c8 ""))))))))))
      (100 * (10 * v1 + v2) + (10 * v3 + v4)) (10 * v5 + v6) (10 * v7 + v8).

(** A time of day in the format, taken apart. *)
Inductive timeView : string -> Z -> Z -> Prop :=
| TimeView (c1 c2 c3 c4 : ascii) (v1 v2 v3 v4 : Z) :
    JS.digit c1 = Some v1 -> JS.digit c2 = Some v2 ->
    JS.digit c3 = Some v3 -> JS.digit c4 = Some v4 ->
    10 * v1 + v2 <= 23 -> 10 * v3 + v4 <= 59 ->
    timeView (String c1 (String c2 (String ":" (String c3 (String c4 "")))))
             (10 * v1 + v2) (10 * v3 + v4).

(** The host keeps every offset below a day, as ECMAScript requires. *)
Definition boundedOffsets (h : JS.Host) : Prop :=
  forall t, Z.abs (JS.LocalTZA h t) < JS.msPerDay.

(** Later local times are later instants: no local time is skipped by a
    clock change.  Every zone with a fixed offset is of this kind. *)
Definition increasingClock (h : JS.Host) : Prop :=
  forall t1 t2, t1 < t2 -> JS.UTC h t1 < JS.UTC h t2.

(** A binary64 value, in the form of its specification, that is not
    negative and not [NaN]. *)
Definition nonnegSF (f : spec_float) : Prop :=
  match f with
  | S754_zero _ => True
  | S754_infinity s => s = false
  | S754_nan => False
  | S754_finite s _ _ => s = false
  end.

(** The record after shifting [N] right by [k] places: the quotient, and a
    round bit that is set only when the remainder is at least half. *)
Definition shifted (N k : Z) (mrs : shr_record) : Prop :=
  shr_m mrs = N / 2 ^ k
  /\ (shr_r mrs = true -> 2 ^ k <= 2 * (N mod 2 ^ k)).

(** ** Hosts and sample data *)

(** India Standard Time, UTC+05:30 all year. *)
Definition IST : JS.Host :=
  {| JS.LocalTZA := fun _ => 19800000; JS.implParse := fun _ => None |}.

(** A zone that moves its clocks from 02:00 to 03:00 on 2024-03-10, from
    UTC-05:00 to UTC-04:00 (America/New_York around that date).  A local
    time inside the skipped hour is read with the offset before the
    transition. *)
Definition NewYork2024 : JS.Host :=
  {| JS.LocalTZA := fun t =>
       if t <? JS.MakeDate (JS.MakeDay 2024 3 10) (JS.MakeTime 3 0)
       then -18000000 else -14400000;
     JS.implParse := fun _ => None |}.

Definition sampleTx {num : Type} (id : string) (type : string) (amount : num)
    (date time : string) : Transaction.t num :=
  {| Transaction.id := id; Transaction.bookId := "book-1";
     Transaction.amount := amount; Transaction.type := type;
     Transaction.date := date; Transaction.time := time;
     Transaction.note := ""; Transaction.partyName := None;
     Transaction.category := None; Transaction.attachmentUrl := None;
     Transaction.createdAt := Some 1704067200000 |}.

(** A string of decimal digits read as a number. *)
Fixpoint decimalValue (acc : Z) (s : string) : option Z :=
  match s with
  | EmptyString => Some acc
  | String c rest =>
      match JS.digit c with
      | Some d => decimalValue (10 * acc + d) rest
      | None => None
      end
  end.

(** The difference of two zeros is zero. *)
Class ZeroDifference (num : Type) `{Number num} : Prop :=
  sub_zero_zero : sub zero zero = zero.

#[export] Instance Z_ZeroDifference : ZeroDifference Z.
Proof. reflexivity. Qed.

#[export] Instance float_ZeroDifference : ZeroDifference float.
Proof. reflexivity. Qed.

Definition isIN {num : Type} (t : EntryRow.t num) : bool :=
  String.eqb (EntryRow.type t) "IN".

Definition sampleRow {num : Type} (id type : string) (amount : num)
    (date time : string) : EntryRow.t num :=
  {| EntryRow.id := id; EntryRow.ledger_id := "book-1";
     EntryRow.amount := amount; EntryRow.type := type;
     EntryRow.date := date; EntryRow.time := time;
     EntryRow.note := None; EntryRow.party_name := None;
     EntryRow.category := None; EntryRow.attachment_url := None;
     EntryRow.created_at := "2024-01-01T03:30:00+00:00" |}.

Definition sampleLedger {num : Type} (rows : list (EntryRow.t num))
  : LedgerRow.t num :=
  {| LedgerRow.id := "book-1"; LedgerRow.project_id := "business-1";
     LedgerRow.name := "Cash"; LedgerRow.created_at := "2024-01-01T03:30:00+00:00";
     LedgerRow.entries := Some rows |}.

Definition sampleProject {num : Type} (ledgers : option (list (LedgerRow.t num)))
  : ProjectRow.t num :=
  {| ProjectRow.id := "business-1"; ProjectRow.owner_id := "user-1";
     ProjectRow.name := "Shop"; ProjectRow.currency := "INR";
     ProjectRow.join_code := "123456";
     ProjectRow.created_at := "2024-01-01T03:30:00+00:00";
     ProjectRow.ledgers := ledgers; ProjectRow.owner_email := None |}.

(** Scenario 1 of the specification, in whole rupees. *)
Definition scenario1 : list (EntryRow.t Z) :=
  [ sampleRow "e1" "IN" 100 "2024-01-01" "09:00";
    sampleRow "e3" "IN" 10 "2024-01-02" "08:00";
    sampleRow "e2" "OUT" 40 "2024-01-01" "10:00" ].


Definition unevenRows : list (EntryRow.t float) :=
  [ sampleRow "e1" "IN" 0.3%float "2024-01-01" "09:00";
    sampleRow "e2" "OUT" 0.6%float "2024-01-01" "10:00";
    sampleRow "e3" "IN" 0.1%float "2024-01-02" "08:00" ].

(** A book in rupees and paise. *)
Definition decimalRows : list (EntryRow.t float) :=
  [ sampleRow "e1" "IN" 100.5%float "2024-01-01" "09:00";
    sampleRow "e2" "OUT" 40.25%float "2024-01-01" "10:00" ].

(** Entries with a negative amount. *)
Definition negativeInRows : list (EntryRow.t float) :=
  [ sampleRow "e1" "IN" (-5)%float "2024-01-01" "09:00" ].

Definition negativeOutRows : list (EntryRow.t float) :=
  [ sampleRow "e1" "OUT" (-5)%float "2024-01-01" "09:00" ].

(** Two entries of the night the clocks of [NewYork2024] go forward. *)
Definition springForwardTxs : list (Transaction.t float) :=
  [ sampleTx "a" "IN" 1%float "2024-03-10" "03:00";
    sampleTx "b" "IN" 1%float "2024-03-10" "02:30" ].

(** A store whose only array, at reference 0, holds scenario 1. *)
Definition sampleStore : @Arrays.Store Z :=
  Arrays.mkStore (<[0%nat := map (transactionOfRow IST) scenario1]> ∅) ∅.

(** ** Vocabulary of the further properties *)

(** The entries of a list whose timestamp is [t]. *)
Definition atInstant {num : Type} `{Number num} (host : JS.Host) (t : Z)
    (tx : Transaction.t num) : bool :=
  match timestamp host tx with
  | Some v => v =? t
  | None => false
  end.

(** Every string of the list is below all the strings after it. *)
Fixpoint ascendingStrings (l : list string) : bool :=
  match l with
  | [] => true
  | x :: rest => forallb (String.ltb x) rest && ascendingStrings rest
  end.

(** The minutes a two-digit string denotes. *)
Definition minuteValue (m : string) : option Z :=
  match m with
  | String a (String b EmptyString) =>
      match JS.digits2 a b with
      | Some v => if v <=? 59 then Some v else None
      | None => None
      end
  | _ => None
  end.

(** The value of a hexadecimal digit in lower case. *)
Definition hexValue (c : ascii) : option N :=
  let n := N_of_ascii c in
  if (48 <=? n)%N && (n <=? 57)%N then Some (n - 48)%N
  else if (97 <=? n)%N && (n <=? 102)%N then Some (n - 87)%N
  else None.

(** Reads a string of two-digit hexadecimal numbers back. *)
Fixpoint fromHex (s : string) : option (list Byte.byte) :=
  match s with
  | EmptyString => Some []
  | String c1 (String c2 rest) =>
      match hexValue c1, hexValue c2, fromHex rest with
      | Some h, Some l, Some bytes =>
          match Byte.of_N (16 * h + l) with
          | Some b => Some (b :: bytes)
          | None => None
          end
      | _, _, _ => None
      end
  | String _ EmptyString => None
  end.

(** The two characters of a number denote it. *)
Definition hexPairOk (n : N) : bool :=
  match hexOfNumber (Z.of_N n) with
  | String c1 (String c2 EmptyString) =>
      match hexValue c1, hexValue c2 with
      | Some h, Some l => N.eqb (16 * h + l) n
      | _, _ => false
      end
  | _ => false
  end.

(** The string has no character [c]. *)
Fixpoint lacks (c : ascii) (s : string) : bool :=
  match s with
  | EmptyString => true
  | String a rest => negb (Ascii.eqb a c) && lacks c rest
  end.

(** A clock on which the local time read back from the instant of a local
    midnight lies in the same day: no whole calendar day is skipped. *)
Definition keepsTheDay (c : JSDate.Clock) : Prop :=
  forall t, t mod JS.msPerDay = 0 ->
    JSDate.Day (JSDate.LocalTime c (JS.UTC (JSDate.host c) t)) = JSDate.Day t.

(** *** Binary64: whole numbers

    Sums and differences of whole numbers are exact in binary64 as long as
    they stay within [2 ^ 53] in magnitude. *)

(** The binary64 number nearest to an integer, in the form of its
    specification and as a float. *)
Definition SFofZ (z : Z) : spec_float := binary_normalize prec emax z 0 false.

Definition integerFloat (z : Z) : float := SF2Prim (SFofZ z).

(** *** The same data over another number type *)

Definition entryWith {A B : Type} (f : A -> B) (e : EntryRow.t A) : EntryRow.t B :=
  {| EntryRow.id := EntryRow.id e;
     EntryRow.ledger_id := EntryRow.ledger_id e;
     EntryRow.amount := f (EntryRow.amount e);
     EntryRow.type := EntryRow.type e;
     EntryRow.date := EntryRow.date e;
     EntryRow.time := EntryRow.time e;
     EntryRow.note := EntryRow.note e;
     EntryRow.party_name := EntryRow.party_name e;
     EntryRow.category := EntryRow.category e;
     EntryRow.attachment_url := EntryRow.attachment_url e;
     EntryRow.created_at := EntryRow.created_at e |}.

Definition ledgerWith {A B : Type} (f : A -> B) (l : LedgerRow.t A) : LedgerRow.t B :=
  {| LedgerRow.id := LedgerRow.id l;
     LedgerRow.project_id := LedgerRow.project_id l;
     LedgerRow.name := LedgerRow.name l;
     LedgerRow.created_at := LedgerRow.created_at l;
     LedgerRow.entries := option_map (map (entryWith f)) (LedgerRow.entries l) |}.

Definition transactionWith {A B : Type} (f : A -> B) (tx : Transaction.t A)
  : Transaction.t B :=
  {| Transaction.id := Transaction.id tx;
     Transaction.bookId := Transaction.bookId tx;
     Transaction.amount := f (Transaction.amount tx);
     Transaction.type := Transaction.type tx;
     Transaction.date := Transaction.date tx;
     Transaction.time := Transaction.time tx;
     Transaction.note := Transaction.note tx;
     Transaction.partyName := Transaction.partyName tx;
     Transaction.category := Transaction.category tx;
     Transaction.attachmentUrl := Transaction.attachmentUrl tx;
     Transaction.createdAt := Transaction.createdAt tx |}.

Definition annotatedWith {A B : Type} (f : A -> B) (r : TransactionWithBalance.t A)
  : TransactionWithBalance.t B :=
  {| TransactionWithBalance.id := TransactionWithBalance.id r;
     TransactionWithBalance.bookId := TransactionWithBalance.bookId r;
     TransactionWithBalance.amount := f (TransactionWithBalance.amount r);
     TransactionWithBalance.type := TransactionWithBalance.type r;
     TransactionWithBalance.date := TransactionWithBalance.date r;
     TransactionWithBalance.time := TransactionWithBalance.time r;
     TransactionWithBalance.note := TransactionWithBalance.note r;
     TransactionWithBalance.partyName := TransactionWithBalance.partyName r;
     TransactionWithBalance.category := TransactionWithBalance.category r;
     TransactionWithBalance.attachmentUrl := TransactionWithBalance.attachmentUrl r;
     TransactionWithBalance.createdAt := TransactionWithBalance.createdAt r;
     TransactionWithBalance.runningBalance := f (TransactionWithBalance.runningBalance r) |}.

Definition bookWith {A B : Type} (f : A -> B) (b : BookWithTotals.t A)
  : BookWithTotals.t B :=
  {| BookWithTotals.id := BookWithTotals.id b;
     BookWithTotals.businessId := BookWithTotals.businessId b;
     BookWithTotals.name := BookWithTotals.name b;
     BookWithTotals.createdAt := BookWithTotals.createdAt b;
     BookWithTotals.totalIn := f (BookWithTotals.totalIn b);
     BookWithTotals.totalOut := f (BookWithTotals.totalOut b);
     BookWithTotals.balance := f (BookWithTotals.balance b) |}.

(** The sum of the magnitudes of the amounts. *)
Definition magnitude (rows : list (EntryRow.t Z)) : Z :=
  fold_right (fun e acc => Z.abs (EntryRow.amount e) + acc) 0 rows.

Definition txMagnitude (txs : list (Transaction.t Z)) : Z :=
  fold_right (fun tx acc => Z.abs (Transaction.amount tx) + acc) 0 txs.

(** ** Further sample data *)

(** Two entries of the same minute. *)
Definition sameMinuteTxs : list (Transaction.t Z) :=
  [ sampleTx "first" "IN" 5 "2024-01-01" "09:00";
    sampleTx "second" "OUT" 2 "2024-01-01" "09:00" ].

(** A book list with two ledgers created at different times. *)
Definition twoLedgers : list (LedgerRow.t Z) :=
  [ {| LedgerRow.id := "book-1"; LedgerRow.project_id := "business-1";
       LedgerRow.name := "Cash"; LedgerRow.created_at := "2024-01-01T09:00";
       LedgerRow.entries := Some scenario1 |};
    {| LedgerRow.id := "book-2"; LedgerRow.project_id := "business-1";
       LedgerRow.name := "Bank"; LedgerRow.created_at := "2024-02-01T09:00";
       LedgerRow.entries := Some [sampleRow "e4" "OUT" 25 "2024-02-02" "12:00"] |} ].

(** Scenario 1 as the program holds it, in binary64. *)
Definition scenario1Float : list (EntryRow.t float) :=
  [ sampleRow "e1" "IN" 100%float "2024-01-01" "09:00";
    sampleRow "e3" "IN" 10%float "2024-01-02" "08:00";
    sampleRow "e2" "OUT" 40%float "2024-01-01" "10:00" ].


(** India Standard Time as a clock. *)
Definition ISTclock : JSDate.Clock :=
  {| JSDate.host := IST; JSDate.offsetAt := fun _ => 19800000 |}.

(** * Properties *)

(** ** [Array.prototype.sort] *)

Section ArraySortFacts.
Context {A : Type}.
Variable comparefn : A -> A -> JS.Time.

Lemma sortInsert_perm (x : A) (l : list A) :
  Permutation (JS.sortInsert comparefn x l) (x :: l).
Proof.
  induction l as [|y l IH]; simpl.
  - reflexivity.
  - destruct (0 <? JS.SortCompare comparefn y x).
    + reflexivity.
    + rewrite IH. apply perm_swap.
Qed.

Lemma fold_sortInsert_perm (l acc : list A) :
  Permutation (fold_left (fun acc x => JS.sortInsert comparefn x acc) l acc)
              (acc ++ l).
Proof.
  revert acc. induction l as [|x l IH]; intros acc; simpl.
  - now rewrite app_nil_r.
  - rewrite IH, sortInsert_perm.
    change (x :: acc) with ([x] ++ acc).
    rewrite (Permutation_app_comm [x] acc), <- app_assoc. reflexivity.
Qed.

Lemma arraySort_perm (l : list A) : Permutation (JS.arraySort comparefn l) l.
Proof. unfold JS.arraySort. now rewrite fold_sortInsert_perm. Qed.

Lemma arraySort_nil : JS.arraySort comparefn [] = [].
Proof. reflexivity. Qed.

(** With a comparator that subtracts keys on the elements at hand, the
    result ascends by key. *)
Variable key : A -> Z.
Variable P : A -> Prop.
Hypothesis comparefn_key :
  forall a b, P a -> P b -> comparefn a b = Some (key a - key b).

Lemma sortInsert_sorted (x : A) (l : list A) :
  P x -> Forall P l ->
  StronglySorted (ascendingBy key) l -> StronglySorted (ascendingBy key) (JS.sortInsert comparefn x l).
Proof.
  intros Px Pl Hs. induction Hs as [|y l Hs IH Hy]; simpl.
  - constructor; [constructor | constructor].
  - inversion Pl as [|? ? Py Pl']; subst.
    unfold JS.SortCompare. rewrite (comparefn_key y x Py Px).
    destruct (0 <? key y - key x) eqn:E.
    + apply Z.ltb_lt in E.
      constructor; [now constructor|].
      constructor; [unfold ascendingBy; lia|].
      eapply Forall_impl; [exact Hy|]. unfold ascendingBy. simpl. intros; lia.
    + apply Z.ltb_ge in E.
      constructor; [now apply IH|].
      assert (Hp : Permutation (JS.sortInsert comparefn x l) (x :: l))
        by apply sortInsert_perm.
      eapply Permutation_Forall; [symmetry; exact Hp|].
      constructor; [unfold ascendingBy; lia | exact Hy].
Qed.

Lemma fold_sortInsert_sorted (l acc : list A) :
  Forall P l -> Forall P acc -> StronglySorted (ascendingBy key) acc ->
  StronglySorted (ascendingBy key)
    (fold_left (fun acc x => JS.sortInsert comparefn x acc) l acc).
Proof.
  revert acc. induction l as [|x l IH]; intros acc Pl Pacc Hs; simpl.
  - exact Hs.
  - inversion Pl as [|? ? Px Pl']; subst.
    apply IH; [exact Pl'| |now apply sortInsert_sorted].
    eapply Permutation_Forall; [symmetry; apply sortInsert_perm|].
    now constructor.
Qed.

Lemma arraySort_sorted (l : list A) :
  Forall P l -> StronglySorted (ascendingBy key) (JS.arraySort comparefn l).
Proof.
  intros Pl. apply fold_sortInsert_sorted; [exact Pl | constructor | constructor].
Qed.
End ArraySortFacts.

(** ** The annotating pass *)

Section RunningPassFacts.
Context {num : Type} `{Number num}.

Lemma forget_withRunningBalance (tx : Transaction.t num) (r : num) :
  forget (withRunningBalance tx r) = tx.
Proof. destruct tx; reflexivity. Qed.

Lemma sameFields_withRunningBalance (tx : Transaction.t num) (r : num) :
  sameFields (withRunningBalance tx r) tx.
Proof. repeat split. Qed.

Lemma runningPass_forget (l : list (Transaction.t num)) (r : num) :
  map forget (runningPass r l) = l.
Proof.
  revert r. induction l as [|tx l IH]; intros r; simpl.
  - reflexivity.
  - now rewrite forget_withRunningBalance, IH.
Qed.

Lemma runningPass_sameFields (l : list (Transaction.t num)) (r : num) :
  Forall2 sameFields (runningPass r l) l.
Proof.
  revert r. induction l as [|tx l IH]; intros r; simpl; constructor.
  - apply sameFields_withRunningBalance.
  - apply IH.
Qed.

Lemma runningPass_length (l : list (Transaction.t num)) (r : num) :
  length (runningPass r l) = length l.
Proof. now rewrite <- (runningPass_forget l r) at 2; rewrite length_map. Qed.

Lemma runningPass_app (l1 l2 : list (Transaction.t num)) (r : num) :
  runningPass r (l1 ++ l2)
  = runningPass r l1 ++ runningPass (fold_left step l1 r) l2.
Proof.
  revert r. induction l1 as [|tx l1 IH]; intros r; simpl.
  - reflexivity.
  - now rewrite IH.
Qed.

(** The last value of the pass is the fold of [step]. *)
Lemma runningPass_last (l : list (Transaction.t num)) (tx : Transaction.t num)
    (r : num) :
  runningPass r (l ++ [tx])
  = runningPass r l ++ [withRunningBalance tx (fold_left step (l ++ [tx]) r)].
Proof. rewrite runningPass_app, fold_left_app. reflexivity. Qed.

Lemma computeRunningBalances_forget (host : JS.Host)
    (txs : list (Transaction.t num)) :
  map forget (computeRunningBalances host txs)
  = rev (JS.arraySort (byDateTime host) txs).
Proof.
  unfold computeRunningBalances. now rewrite map_rev, runningPass_forget.
Qed.
End RunningPassFacts.

(** ** Exact arithmetic *)

Section ExactFacts.
Context {num : Type} `{ExactNumber num}.

Lemma add_cancel_r (a b c : num) : add a c = add b c -> a = b.
Proof.
  intros E. rewrite <- (add_sub a c), <- (add_sub b c). now rewrite E.
Qed.

Lemma sub_add_l (i o a : num) : sub (add i a) o = add (sub i o) a.
Proof.
  apply (add_cancel_r _ _ o). rewrite sub_add.
  rewrite add_assoc, (add_comm a o), <- add_assoc, sub_add. reflexivity.
Qed.

Lemma sub_add_r (i o a : num) : sub i (add o a) = sub (sub i o) a.
Proof.
  apply (add_cancel_r _ _ (add o a)). rewrite sub_add.
  rewrite (add_comm o a), <- add_assoc, sub_add, sub_add. reflexivity.
Qed.

Lemma sub_zero_r (a : num) : sub a zero = a.
Proof. rewrite <- (add_zero_r a) at 1. apply add_sub. Qed.

Lemma step_comm (r : num) (a b : Transaction.t num) :
  step (step r a) b = step (step r b) a.
Proof.
  unfold step.
  destruct (String.eqb (Transaction.type a) TransactionType_IN),
           (String.eqb (Transaction.type b) TransactionType_IN).
  - rewrite !add_assoc. f_equal. apply add_comm.
  - rewrite <- sub_add_l. reflexivity.
  - rewrite <- sub_add_l. reflexivity.
  - rewrite <- !sub_add_r. f_equal. apply add_comm.
Qed.

Lemma fold_step_perm (l l' : list (Transaction.t num)) :
  Permutation l l' -> forall r, fold_left step l r = fold_left step l' r.
Proof.
  induction 1 as [|x l l' _ IH|x y l|l l' l'' _ IH1 _ IH2]; intros r; simpl.
  - reflexivity.
  - apply IH.
  - now rewrite step_comm.
  - now rewrite IH1.
Qed.

(** The signed fold over the transactions is the difference of the two
    one-sided totals over their rows. *)
Lemma fold_step_totals (rows : list (EntryRow.t num)) (host : JS.Host)
    (i o : num) :
  fold_left step (map (transactionOfRow host) rows) (sub i o)
  = sub (fst (fold_left addEntry rows (i, o)))
        (snd (fold_left addEntry rows (i, o))).
Proof.
  revert i o. induction rows as [|t rows IH]; intros i o; simpl.
  - reflexivity.
  - unfold step at 2. simpl. unfold TransactionType_IN.
    destruct (String.eqb (EntryRow.type t) "IN").
    + rewrite <- sub_add_l. apply IH.
    + rewrite <- sub_add_r. apply IH.
Qed.
End ExactFacts.

(** ** The calendar *)

Section CalendarFacts.
Import JS.

Lemma DayFromYear_succ (y : Z) :
  DayFromYear (y + 1) = DayFromYear y + 365 + leapDay y.
Proof.
  unfold DayFromYear, leapDay, InLeapYear.
  destruct (y mod 4 =? 0) eqn:E4; simpl;
    [destruct (y mod 100 =? 0) eqn:E100; simpl;
      [destruct (y mod 400 =? 0) eqn:E400; simpl|]|];
    rewrite ?Z.eqb_eq, ?Z.eqb_neq in *;
    Z.div_mod_to_equations; lia.
Qed.

Lemma leapDay_range (y : Z) : 0 <= leapDay y <= 1.
Proof. unfold leapDay. destruct (InLeapYear y); lia. Qed.

Lemma DayFromYear_mono_nat (n : nat) (y : Z) :
  DayFromYear y + 365 * Z.of_nat n <= DayFromYear (y + Z.of_nat n).
Proof.
  induction n as [|n IH].
  - change (Z.of_nat 0) with 0. replace (y + 0) with y by lia. lia.
  - replace (y + Z.of_nat (S n)) with (y + Z.of_nat n + 1) by lia.
    rewrite DayFromYear_succ. pose proof (leapDay_range (y + Z.of_nat n)). lia.
Qed.

Lemma DayFromYear_lt (y y' : Z) :
  y < y' -> DayFromYear y + 365 + leapDay y <= DayFromYear y'.
Proof.
  intros Hlt. rewrite <- DayFromYear_succ.
  pose proof (DayFromYear_mono_nat (Z.to_nat (y' - (y + 1))) (y + 1)) as Hm.
  rewrite Z2Nat.id in Hm by lia.
  replace (y + 1 + (y' - (y + 1))) with y' in Hm by lia. lia.
Qed.

Lemma month_cases (m : Z) :
  1 <= m <= 12 ->
  m = 1 \/ m = 2 \/ m = 3 \/ m = 4 \/ m = 5 \/ m = 6 \/ m = 7 \/ m = 8
  \/ m = 9 \/ m = 10 \/ m = 11 \/ m = 12.
Proof. lia. Qed.

Lemma dayWithinYear_range (y m d : Z) :
  validDay y m d -> 0 <= monthStart y m + d - 1 <= 364 + leapDay y.
Proof.
  intros [Hm Hd]. pose proof (leapDay_range y).
  destruct (month_cases m Hm) as [->|[->|[->|[->|[->|[->|[->|[->|[->|[->|[->| ->]]]]]]]]]]];
    simpl in *; lia.
Qed.

Lemma monthStart_lt (y m m' d d' : Z) :
  validDay y m d -> validDay y m' d' -> m < m' ->
  monthStart y m + d < monthStart y m' + d'.
Proof.
  intros [Hm Hd] [Hm' Hd'] Hlt. pose proof (leapDay_range y).
  destruct (month_cases m Hm) as [->|[->|[->|[->|[->|[->|[->|[->|[->|[->|[->| ->]]]]]]]]]]];
  destruct (month_cases m' Hm') as [->|[->|[->|[->|[->|[->|[->|[->|[->|[->|[->| ->]]]]]]]]]]];
    simpl in *; lia.
Qed.

Lemma MakeDay_lt (y m d y' m' d' : Z) :
  validDay y m d -> validDay y' m' d' ->
  dateKey y m d < dateKey y' m' d' -> MakeDay y m d < MakeDay y' m' d'.
Proof.
  intros V V' Hk. unfold MakeDay, dateKey in *.
  pose proof (dayWithinYear_range _ _ _ V).
  pose proof (dayWithinYear_range _ _ _ V').
  assert (Hd31 : forall yy mm, 1 <= mm <= 12 -> daysInMonth yy mm <= 31).
  { intros yy mm Hmm. pose proof (leapDay_range yy).
    destruct (month_cases mm Hmm) as [->|[->|[->|[->|[->|[->|[->|[->|[->|[->|[->| ->]]]]]]]]]]];
      simpl; lia. }
  destruct V as [Hm Hd], V' as [Hm' Hd'].
  pose proof (Hd31 y m Hm). pose proof (Hd31 y' m' Hm').
  destruct (Z.lt_trichotomy y y') as [Hy|[->|Hy]].
  - pose proof (DayFromYear_lt _ _ Hy). lia.
  - destruct (Z.lt_trichotomy m m') as [Hmm|[->|Hmm]].
    + pose proof (monthStart_lt y' m m' d d' (conj Hm Hd) (conj Hm' Hd') Hmm). lia.
    + lia.
    + lia.
  - lia.
Qed.
End CalendarFacts.

(** ** Reading dates and times *)

Section ParseFacts.
Import JS.

Lemma digit_inv (c : ascii) (v : Z) :
  digit c = Some v -> 0 <= v <= 9 /\ Z.of_N (N_of_ascii c) = 48 + v.
Proof.
  unfold digit. intros Hd.
  destruct ((48 <=? Z.of_N (N_of_ascii c)) && (Z.of_N (N_of_ascii c) <=? 57)) eqn:E;
    [|discriminate].
  apply andb_true_iff in E. destruct E as [E1 E2].
  apply Z.leb_le in E1, E2. inversion Hd. lia.
Qed.

Lemma digit_compare (c1 c2 : ascii) (v1 v2 : Z) :
  digit c1 = Some v1 -> digit c2 = Some v2 ->
  Ascii.compare c1 c2 = (v1 ?= v2).
Proof.
  intros H1 H2. apply digit_inv in H1, H2.
  destruct H1 as [_ H1], H2 as [_ H2].
  unfold Ascii.compare. rewrite <- N2Z.inj_compare, H1, H2.
  apply Z.add_compare_mono_l.
Qed.

Lemma digit_not_T (c : ascii) (v : Z) :
  digit c = Some v -> Ascii.eqb c "T" = false.
Proof.
  intros Hd. apply digit_inv in Hd. destruct Hd as [Hr Hc].
  apply Ascii.eqb_neq. intros ->. simpl in Hc. lia.
Qed.

Lemma digits2_inv (a b : ascii) (v : Z) :
  digits2 a b = Some v ->
  exists x y, digit a = Some x /\ digit b = Some y /\ v = 10 * x + y.
Proof.
  unfold digits2. destruct (digit a) as [x|], (digit b) as [y|];
    try discriminate.
  intros E; inversion E. now exists x, y.
Qed.

Lemma digits4_inv (a b c d : ascii) (v : Z) :
  digits4 a b c d = Some v ->
  exists x y, digits2 a b = Some x /\ digits2 c d = Some y /\ v = 100 * x + y.
Proof.
  unfold digits4. destruct (digits2 a b) as [x|], (digits2 c d) as [y|];
    try discriminate.
  intros E; inversion E. now exists x, y.
Qed.

Lemma parseYMD_view (s : string) (y m d : Z) :
  parseYMD s = Some (y, m, d) -> dateView s y m d.
Proof.
  unfold parseYMD.
  destruct s as [|c1 [|c2 [|c3 [|c4 [|s1 [|c5 [|c6 [|s2 [|c7 [|c8 [|? ?]]]]]]]]]]];
    simpl; try discriminate.
  destruct (digits4 c1 c2 c3 c4) as [y0|] eqn:Ey; [|discriminate].
  destruct (digits2 c5 c6) as [m0|] eqn:Em; [|discriminate].
  destruct (digits2 c7 c8) as [d0|] eqn:Ed; [|discriminate].
  destruct (Ascii.eqb s1 "-" && Ascii.eqb s2 "-" && (1 <=? m0) && (m0 <=? 12)
            && (1 <=? d0) && (d0 <=? daysInMonth y0 m0)) eqn:E; [|discriminate].
  intros Heq; inversion Heq; subst y0 m0 d0; clear Heq.
  repeat (apply andb_true_iff in E; destruct E as [E ?]).
  apply Ascii.eqb_eq in E. subst s1.
  match goal with Hs : Ascii.eqb s2 _ = true |- _ => apply Ascii.eqb_eq in Hs; subst s2 end.
  repeat match goal with Hx : (_ <=? _) = true |- _ => apply Z.leb_le in Hx end.
  apply digits4_inv in Ey. destruct Ey as (ya & yb & Eya & Eyb & ->).
  apply digits2_inv in Eya. destruct Eya as (v1 & v2 & ? & ? & ->).
  apply digits2_inv in Eyb. destruct Eyb as (v3 & v4 & ? & ? & ->).
  apply digits2_inv in Em. destruct Em as (v5 & v6 & ? & ? & ->).
  apply digits2_inv in Ed. destruct Ed as (v7 & v8 & ? & ? & ->).
  constructor; try assumption. unfold validDay. lia.
Qed.

Lemma parseHM_view (s : string) (hh mm : Z) :
  parseHM s = Some (hh, mm) -> timeView s hh mm.
Proof.
  unfold parseHM.
  destruct s as [|c1 [|c2 [|s1 [|c3 [|c4 [|? ?]]]]]]; simpl; try discriminate.
  destruct (digits2 c1 c2) as [h0|] eqn:Eh; [|discriminate].
  destruct (digits2 c3 c4) as [m0|] eqn:Em; [|discriminate].
  destruct (Ascii.eqb s1 ":" && (h0 <=? 23) && (m0 <=? 59)) eqn:E; [|discriminate].
  intros Heq; inversion Heq; subst h0 m0; clear Heq.
  repeat (apply andb_true_iff in E; destruct E as [E ?]).
  apply Ascii.eqb_eq in E. subst s1.
  repeat match goal with Hx : (_ <=? _) = true |- _ => apply Z.leb_le in Hx end.
  apply digits2_inv in Eh. destruct Eh as (v1 & v2 & ? & ? & ->).
  apply digits2_inv in Em. destruct Em as (v3 & v4 & ? & ? & ->).
  now constructor.
Qed.

Ltac lex_compare :=
  repeat match goal with
  | |- context [Ascii.compare ?a ?b] =>
      match goal with
      | Ha : digit a = Some ?x, Hb : digit b = Some ?y |- _ =>
          rewrite (digit_compare a b x y Ha Hb);
          destruct (Z.compare_spec x y);
          [subst | symmetry; apply Z.compare_lt_iff; lia
                 | symmetry; apply Z.compare_gt_iff; lia]
      end
  end.

Lemma dateView_compare (s s' : string) (y m d y' m' d' : Z) :
  dateView s y m d -> dateView s' y' m' d' ->
  String.compare s s' = (dateKey y m d ?= dateKey y' m' d').
Proof.
  intros V V'. destruct V, V'.
  repeat match goal with Hd : digit _ = Some _ |- _ =>
    pose proof (proj1 (digit_inv _ _ Hd)); revert Hd end.
  intros. unfold dateKey. cbn [String.compare].
  change (Ascii.compare "-" "-") with Eq. cbv iota.
  lex_compare. symmetry. apply Z.compare_refl.
Qed.

Lemma timeView_compare (s s' : string) (hh mm hh' mm' : Z) :
  timeView s hh mm -> timeView s' hh' mm' ->
  String.compare s s' = (timeKey hh mm ?= timeKey hh' mm').
Proof.
  intros V V'. destruct V, V'.
  repeat match goal with Hd : digit _ = Some _ |- _ =>
    pose proof (proj1 (digit_inv _ _ Hd)); revert Hd end.
  intros. unfold timeKey. cbn [String.compare].
  change (Ascii.compare ":" ":") with Eq. cbv iota.
  lex_compare. symmetry. apply Z.compare_refl.
Qed.
End ParseFacts.

(** ** Local times and their strings *)

Section LocalTimeFacts.
Import JS.

Lemma splitT_date (d t : string) (y m dd : Z) :
  dateView d y m dd -> splitT (d ++ "T" ++ t) = Some (d, t).
Proof.
  intros V. destruct V. simpl.
  repeat match goal with Hd : digit ?c = Some _ |- _ =>
    rewrite (digit_not_T c _ Hd); clear Hd end.
  reflexivity.
Qed.

Lemma isoLocal_wellFormed (d t : string) (y m dd hh mm : Z) :
  parseYMD d = Some (y, m, dd) -> parseHM t = Some (hh, mm) ->
  isoLocal (d ++ "T" ++ t) = Some (MakeDate (MakeDay y m dd) (MakeTime hh mm)).
Proof.
  intros Hd Ht. unfold isoLocal.
  rewrite (splitT_date d t y m dd (parseYMD_view _ _ _ _ Hd)), Hd, Ht.
  reflexivity.
Qed.

Lemma dateView_range (s : string) (y m d : Z) :
  dateView s y m d -> 0 <= y <= 9999 /\ validDay y m d.
Proof.
  intros V. destruct V.
  repeat match goal with Hd : digit _ = Some _ |- _ =>
    apply digit_inv in Hd; destruct Hd as [Hd _] end.
  split; [lia | assumption].
Qed.

Lemma timeView_range (s : string) (hh mm : Z) :
  timeView s hh mm -> 0 <= hh <= 23 /\ 0 <= mm <= 59.
Proof.
  intros V. destruct V.
  repeat match goal with Hd : digit _ = Some _ |- _ =>
    apply digit_inv in Hd; destruct Hd as [Hd _] end.
  lia.
Qed.

Lemma MakeTime_range (hh mm : Z) :
  0 <= hh <= 23 -> 0 <= mm <= 59 -> 0 <= MakeTime hh mm < msPerDay.
Proof. unfold MakeTime, msPerHour, msPerMinute, msPerDay. lia. Qed.

Lemma MakeTime_lt (hh mm hh' mm' : Z) :
  0 <= hh <= 23 -> 0 <= mm <= 59 -> 0 <= hh' <= 23 -> 0 <= mm' <= 59 ->
  timeKey hh mm < timeKey hh' mm' -> MakeTime hh mm < MakeTime hh' mm'.
Proof. unfold MakeTime, timeKey, msPerHour, msPerMinute. lia. Qed.

Lemma DayFromYear_range (y : Z) :
  0 <= y <= 9999 -> -719528 <= DayFromYear y <= 2932532.
Proof. unfold DayFromYear. intros Hy. Z.div_mod_to_equations. lia. Qed.

Lemma MakeDate_range (y m d hh mm : Z) :
  0 <= y <= 9999 -> validDay y m d -> 0 <= hh <= 23 -> 0 <= mm <= 59 ->
  Z.abs (MakeDate (MakeDay y m d) (MakeTime hh mm)) <= 8640000000000000 - msPerDay.
Proof.
  intros Hy V Hh Hm.
  pose proof (DayFromYear_range y Hy).
  pose proof (dayWithinYear_range y m d V).
  pose proof (leapDay_range y).
  pose proof (MakeTime_range hh mm Hh Hm).
  unfold MakeDate, MakeDay, msPerDay in *. lia.
Qed.

(** A later or equal local time means a later or equal (date, time) pair
    of strings. *)
Lemma localTime_le_strings (da ta db tb : string)
    (ya ma dda ha na yb mb ddb hb nb : Z) :
  parseYMD da = Some (ya, ma, dda) -> parseHM ta = Some (ha, na) ->
  parseYMD db = Some (yb, mb, ddb) -> parseHM tb = Some (hb, nb) ->
  MakeDate (MakeDay yb mb ddb) (MakeTime hb nb)
    <= MakeDate (MakeDay ya ma dda) (MakeTime ha na) ->
  strLt db da \/ (da = db /\ strLe tb ta).
Proof.
  intros Hda Hta Hdb Htb Hle.
  apply parseYMD_view in Hda, Hdb. apply parseHM_view in Hta, Htb.
  pose proof (dateView_compare _ _ _ _ _ _ _ _ Hdb Hda) as Cd.
  pose proof (timeView_compare _ _ _ _ _ _ Htb Hta) as Ct.
  destruct (dateView_range _ _ _ _ Hda) as [_ Va].
  destruct (dateView_range _ _ _ _ Hdb) as [_ Vb].
  destruct (timeView_range _ _ _ Hta) as [Rha Rna].
  destruct (timeView_range _ _ _ Htb) as [Rhb Rnb].
  pose proof (MakeTime_range _ _ Rha Rna).
  pose proof (MakeTime_range _ _ Rhb Rnb).
  unfold strLt, strLe. rewrite Cd, Ct.
  destruct (Z.compare_spec (dateKey yb mb ddb) (dateKey ya ma dda)) as [E|L|G].
  - right. split.
    + symmetry. apply String.compare_eq_iff. exact Cd.
    + assert (yb = ya /\ mb = ma /\ ddb = dda) as (-> & -> & ->).
      { destruct Va as [? ?], Vb as [? ?]. unfold dateKey in E.
        assert (forall yy mm0, 1 <= mm0 <= 12 -> daysInMonth yy mm0 <= 31) as Hd31.
        { intros yy mm0 Hmm. pose proof (leapDay_range yy).
          destruct (month_cases mm0 Hmm)
            as [->|[->|[->|[->|[->|[->|[->|[->|[->|[->|[->| ->]]]]]]]]]]];
            simpl; lia. }
        pose proof (Hd31 ya ma ltac:(assumption)).
        pose proof (Hd31 yb mb ltac:(assumption)). lia. }
      intros Hgt. apply Z.compare_gt_iff in Hgt.
      pose proof (MakeTime_lt _ _ _ _ Rha Rna Rhb Rnb Hgt).
      unfold MakeDate in Hle. lia.
  - now left.
  - exfalso. pose proof (MakeDay_lt _ _ _ _ _ _ Va Vb G).
    unfold MakeDate, msPerDay in *. lia.
Qed.
End LocalTimeFacts.
(** ** The order of the output *)

Section OrderFacts.
Context {num : Type} `{Number num}.
Variable host : JS.Host.
Hypothesis Hbounded : boundedOffsets host.

Lemma timestamp_wellFormed (tx : Transaction.t num) :
  wellFormed tx = true -> timestamp host tx = Some (instant host tx).
Proof.
  unfold wellFormed, timestamp, instant, localTime, JS.getTime.
  destruct (JS.parseYMD (Transaction.date tx)) as [[[y m] d]|] eqn:Ed;
    [|discriminate].
  destruct (JS.parseHM (Transaction.time tx)) as [[hh mm]|] eqn:Et;
    [|discriminate].
  intros _. rewrite (isoLocal_wellFormed _ _ _ _ _ _ _ Ed Et).
  pose proof (parseYMD_view _ _ _ _ Ed) as Vd.
  pose proof (parseHM_view _ _ _ Et) as Vt.
  destruct (dateView_range _ _ _ _ Vd) as [Ry Vday].
  destruct (timeView_range _ _ _ Vt) as [Rh Rm].
  pose proof (MakeDate_range y m d hh mm Ry Vday Rh Rm) as Hr.
  pose proof (Hbounded (JS.MakeDate (JS.MakeDay y m d) (JS.MakeTime hh mm))) as Hb.
  unfold JS.TimeClip, JS.UTC.
  destruct (Z.leb_spec
    (Z.abs (JS.MakeDate (JS.MakeDay y m d) (JS.MakeTime hh mm)
            - JS.LocalTZA host (JS.MakeDate (JS.MakeDay y m d) (JS.MakeTime hh mm))))
    8640000000000000) as [_|Hgt]; [reflexivity|].
  unfold JS.msPerDay in *. lia.
Qed.

Lemma byDateTime_instant (a b : Transaction.t num) :
  wellFormed a = true -> wellFormed b = true ->
  byDateTime host a b = Some (instant host a - instant host b).
Proof.
  intros Ha Hb. unfold byDateTime.
  now rewrite (timestamp_wellFormed a Ha), (timestamp_wellFormed b Hb).
Qed.

Lemma sortedAsc_ascending (txs : list (Transaction.t num)) :
  Forall (fun tx => wellFormed tx = true) txs ->
  StronglySorted (ascendingBy (instant host))
    (JS.arraySort (byDateTime host) txs).
Proof.
  intros Hwf.
  apply (arraySort_sorted (byDateTime host) (instant host)
           (fun tx => wellFormed tx = true) byDateTime_instant txs Hwf).
Qed.

Hypothesis Hclock : increasingClock host.

Lemma instant_le_notBefore (a b : TransactionWithBalance.t num) :
  wellFormed (forget a) = true -> wellFormed (forget b) = true ->
  instant host (forget b) <= instant host (forget a) -> notBefore a b.
Proof.
  unfold wellFormed, instant, localTime, notBefore. simpl.
  destruct (JS.parseYMD (TransactionWithBalance.date a)) as [[[ya ma] da]|] eqn:Eda;
    [|discriminate].
  destruct (JS.parseHM (TransactionWithBalance.time a)) as [[ha na]|] eqn:Eta;
    [|discriminate].
  destruct (JS.parseYMD (TransactionWithBalance.date b)) as [[[yb mb] db]|] eqn:Edb;
    [|discriminate].
  destruct (JS.parseHM (TransactionWithBalance.time b)) as [[hb nb]|] eqn:Etb;
    [|discriminate].
  intros _ _ Hle.
  apply (localTime_le_strings _ _ _ _ _ _ _ _ _ _ _ _ _ _ Eda Eta Edb Etb).
  destruct (Z.le_gt_cases (JS.MakeDate (JS.MakeDay yb mb db) (JS.MakeTime hb nb))
              (JS.MakeDate (JS.MakeDay ya ma da) (JS.MakeTime ha na)))
    as [Hok|Hbad]; [exact Hok|].
  apply Hclock in Hbad. lia.
Qed.
End OrderFacts.

Section ListFacts.
Context {A : Type}.


End ListFacts.

Lemma Forall2_rev {A B : Type} (R : A -> B -> Prop) (l1 : list A) (l2 : list B) :
  Forall2 R l1 l2 -> Forall2 R (rev l1) (rev l2).
Proof.
  induction 1 as [|x y l1 l2 Hxy _ IH]; simpl.
  - constructor.
  - apply Forall2_app; [exact IH | now repeat constructor].
Qed.

(** ** The join code *)

Section JoinCodeFacts.

Lemma digitsOf_step (fuel : nat) (n : Z) (acc : string) :
  digitsOf (S fuel) n acc
  = if n / 10 =? 0 then String (digitChar (n mod 10)) acc
    else digitsOf fuel (n / 10) (String (digitChar (n mod 10)) acc).
Proof. reflexivity. Qed.

Lemma digitsOf_more (fuel : nat) (n : Z) (acc : string) :
  10 <= n -> digitsOf (S fuel) n acc
             = digitsOf fuel (n / 10) (String (digitChar (n mod 10)) acc).
Proof.
  intros Hn. rewrite digitsOf_step.
  destruct (Z.eqb_spec (n / 10) 0) as [E|_]; [|reflexivity].
  exfalso. Z.div_mod_to_equations. lia.
Qed.

Lemma digitsOf_last (fuel : nat) (n : Z) (acc : string) :
  0 <= n < 10 -> digitsOf (S fuel) n acc = String (digitChar (n mod 10)) acc.
Proof.
  intros Hn. rewrite digitsOf_step.
  destruct (Z.eqb_spec (n / 10) 0) as [_|E]; [reflexivity|].
  exfalso. apply E. now apply Z.div_small.
Qed.

Lemma digit_digitChar (d : Z) : 0 <= d <= 9 -> JS.digit (digitChar d) = Some d.
Proof.
  intros Hd. unfold JS.digit, digitChar.
  rewrite N_ascii_embedding by lia.
  rewrite Z2N.id by lia.
  destruct (Z.leb_spec 48 (48 + d)); [|lia].
  destruct (Z.leb_spec (48 + d) 57); [|lia].
  simpl. f_equal. lia.
Qed.

Lemma toString_six (n : Z) :
  100000 <= n <= 999999 ->
  toString n
  = String (digitChar (n / 100000 mod 10)) (String (digitChar (n / 10000 mod 10))
     (String (digitChar (n / 1000 mod 10)) (String (digitChar (n / 100 mod 10))
       (String (digitChar (n / 10 mod 10)) (String (digitChar (n mod 10)) ""))))).
Proof.
  intros Hn. unfold toString.
  destruct (Z.ltb_spec n 0) as [?|_]; [lia|].
  assert (Hlog : 16 <= Z.log2 n).
  { change 16 with (Z.log2 65536). apply Z.log2_le_mono. lia. }
  destruct (Z.to_nat (Z.log2 n)) as [|[|[|[|[|f]]]]] eqn:Ef; try lia.
  rewrite digitsOf_more by lia.
  rewrite digitsOf_more by (Z.div_mod_to_equations; lia).
  rewrite digitsOf_more by (Z.div_mod_to_equations; lia).
  rewrite digitsOf_more by (Z.div_mod_to_equations; lia).
  rewrite digitsOf_more by (Z.div_mod_to_equations; lia).
  rewrite digitsOf_last by (Z.div_mod_to_equations; lia).
  rewrite !Z.div_div by lia. reflexivity.
Qed.
End JoinCodeFacts.

(** ** Arrays in the store *)

Section StoreFacts.
Context {num : Type} `{Number num}.
Variable host : JS.Host.

Lemma computeRunningBalancesAt_spec (st : Arrays.Store) (txs : nat)
    (l : list (Transaction.t num)) :
  Arrays.txArrays st !! txs = Some l ->
  exists (r : nat) (st' : Arrays.Store),
    Arrays.computeRunningBalancesAt host txs st = Some (r, st')
    /\ Arrays.wbArrays st' !! r = Some (computeRunningBalances host l)
    /\ (forall a, a ∈ dom (Arrays.txArrays st) ->
          Arrays.txArrays st' !! a = Arrays.txArrays st !! a)
    /\ (forall a, a ∈ dom (Arrays.wbArrays st) ->
          Arrays.wbArrays st' !! a = Arrays.wbArrays st !! a).
Proof.
  intros Hl.
  set (copy := fresh (dom (Arrays.txArrays st))).
  set (out := fresh (dom (Arrays.wbArrays st))).
  assert (Hcopy : copy ∉ dom (Arrays.txArrays st)) by apply is_fresh.
  assert (Hout : out ∉ dom (Arrays.wbArrays st)) by apply is_fresh.
  exists out.
  eexists.
  split; [|split; [|split]].
  - unfold Arrays.computeRunningBalancesAt, Arrays.spread, Arrays.sort,
      Arrays.mapRunning, Arrays.reverse, Arrays.bind, Arrays.readTx,
      Arrays.allocTx, Arrays.writeTx, Arrays.readWb, Arrays.allocWb,
      Arrays.writeWb, Arrays.ret.
    rewrite Hl. simpl. fold copy.
    rewrite lookup_insert_eq. simpl. rewrite lookup_insert_eq. simpl.
    fold out. rewrite lookup_insert_eq. simpl. reflexivity.
  - simpl. rewrite lookup_insert_eq. reflexivity.
  - intros a Ha. simpl.
    rewrite !lookup_insert_ne by (intros ->; contradiction). reflexivity.
  - intros a Ha. simpl.
    rewrite !lookup_insert_ne by (intros ->; contradiction). reflexivity.
Qed.
End StoreFacts.
(** ** Totals *)

Section TotalsFacts.
Context {num : Type} `{Number num}.

Lemma fold_addEntry_fst (es : list (EntryRow.t num)) (i o : num) :
  fst (fold_left addEntry es (i, o))
  = fold_left (fun sum b => add sum (EntryRow.amount b)) (List.filter isIN es) i.
Proof.
  revert i o. induction es as [|e es IH]; intros i o; simpl.
  - reflexivity.
  - unfold isIN at 1. destruct (String.eqb (EntryRow.type e) "IN"); simpl; apply IH.
Qed.

Lemma fold_addEntry_snd (es : list (EntryRow.t num)) (i o : num) :
  snd (fold_left addEntry es (i, o))
  = fold_left (fun sum b => add sum (EntryRow.amount b))
      (List.filter (fun e => negb (isIN e)) es) o.
Proof.
  revert i o. induction es as [|e es IH]; intros i o; simpl.
  - reflexivity.
  - unfold isIN at 1. destruct (String.eqb (EntryRow.type e) "IN"); simpl; apply IH.
Qed.

Lemma bookOfLedger_totals (host : JS.Host) (b : LedgerRow.t num) :
  BookWithTotals.totalIn (bookOfLedger host b) = fst (sumEntries (LedgerRow.entries b))
  /\ BookWithTotals.totalOut (bookOfLedger host b) = snd (sumEntries (LedgerRow.entries b))
  /\ BookWithTotals.balance (bookOfLedger host b)
     = sub (BookWithTotals.totalIn (bookOfLedger host b))
           (BookWithTotals.totalOut (bookOfLedger host b)).
Proof.
  unfold bookOfLedger. destruct (sumEntries (LedgerRow.entries b)). now simpl.
Qed.

(** The loop over the ledgers of a business adds up what [getBooks] reports
    for each of them, and collects one record per ledger. *)
Lemma fold_ledgerStep (host : JS.Host) (bid : string)
    (ledgers : list (LedgerRow.t num)) (i o : num)
    (books : list (BookWithTotals.t num)) :
  fold_left (ledgerStep host bid) ledgers (i, o, books)
  = (fold_left (fun sum b => add sum (BookWithTotals.totalIn b))
       (map (bookOfLedger host) ledgers) i,
     fold_left (fun sum b => add sum (BookWithTotals.totalOut b))
       (map (bookOfLedger host) ledgers) o,
     books ++ map (bookInBusiness host bid) ledgers).
Proof.
  revert i o books. induction ledgers as [|l ledgers IH]; intros i o books.
  - simpl. now rewrite app_nil_r.
  - cbn [fold_left map]. destruct (bookOfLedger_totals host l) as (Ei & Eo & _).
    rewrite Ei, Eo. unfold ledgerStep at 2, bookInBusiness at 1.
    destruct (sumEntries (LedgerRow.entries l)) as [bIn bOut].
    rewrite IH, <- app_assoc. reflexivity.
Qed.
End TotalsFacts.

(** ** Binary64: sums of non-negative numbers *)

Section Binary64Facts.

Lemma SFleb_zero_nonneg (f : spec_float) :
  SFleb (S754_zero false) f = true <-> nonnegSF f.
Proof.
  destruct f as [s|s| |s m e]; try destruct s; cbn; split; intros Hx;
    try reflexivity; try exact I; try discriminate Hx; try contradiction.
Qed.

Lemma shr_1_nonneg (mrs : shr_record) :
  0 <= shr_m mrs -> 0 <= shr_m (shr_1 mrs).
Proof.
  destruct mrs as [m r s]. simpl.
  destruct m as [|[p|p|]|p]; simpl; lia.
Qed.

Lemma iter_shr_1_nonneg (p : positive) (mrs : shr_record) :
  0 <= shr_m mrs -> 0 <= shr_m (SpecFloat.iter_pos shr_1 p mrs).
Proof.
  revert mrs. induction p as [p IH|p IH|]; intros mrs Hm; simpl.
  - apply IH, IH, shr_1_nonneg, Hm.
  - apply IH, IH, Hm.
  - apply shr_1_nonneg, Hm.
Qed.

Lemma shr_fexp_nonneg (prec emax m e : Z) (l : location) :
  0 <= m -> 0 <= shr_m (fst (shr_fexp prec emax m e l)).
Proof.
  intros Hm. unfold shr_fexp, shr.
  assert (H0 : 0 <= shr_m (shr_record_of_loc m l)).
  { destruct l as [|[]]; simpl; exact Hm. }
  destruct (fexp prec emax (Zdigits2 m + e) - e) as [|p|p]; simpl;
    [exact H0 | now apply iter_shr_1_nonneg | exact H0].
Qed.

Lemma round_nearest_even_nonneg (m : Z) (l : location) :
  0 <= m -> 0 <= round_nearest_even m l.
Proof.
  intros Hm. destruct l as [|[]]; simpl; try lia.
  destruct (Z.even m); lia.
Qed.

Lemma binary_round_aux_nonneg (prec emax m e : Z) (l : location) :
  0 <= m -> nonnegSF (binary_round_aux prec emax false m e l).
Proof.
  intros Hm. unfold binary_round_aux.
  pose proof (shr_fexp_nonneg prec emax m e l Hm) as H1.
  destruct (shr_fexp prec emax m e l) as [mrs' e']. simpl in H1.
  pose proof (shr_fexp_nonneg prec emax
                (round_nearest_even (shr_m mrs') (loc_of_shr_record mrs')) e'
                loc_Exact (round_nearest_even_nonneg _ _ H1)) as H2.
  destruct (shr_fexp prec emax _ e' loc_Exact) as [mrs'' e'']. simpl in H2.
  destruct (shr_m mrs'') as [|p|p]; simpl; [exact I | | lia].
  destruct (e'' <=? emax - prec); reflexivity.
Qed.

Lemma SFadd_nonneg (prec emax : Z) (x y : spec_float) :
  nonnegSF x -> nonnegSF y -> nonnegSF (SFadd prec emax x y).
Proof.
  destruct x as [sx|sx| |sx mx ex], y as [sy|sy| |sy my ey]; simpl;
    try tauto; try (intros -> ->; reflexivity); try (intros _ ->; reflexivity);
    try (intros -> _; reflexivity).
  - destruct sx, sy; intros _ _; exact I.
  - intros -> ->. simpl. unfold binary_round.
    destruct (shl_align _ _ _) as [mz ez].
    apply binary_round_aux_nonneg. lia.
Qed.

Lemma float_add_nonneg (a b : float) :
  PrimFloat.leb 0 a = true -> PrimFloat.leb 0 b = true ->
  PrimFloat.leb 0 (a + b) = true.
Proof.
  rewrite !leb_spec, add_spec.
  change (Prim2SF 0) with (S754_zero false).
  rewrite !SFleb_zero_nonneg. apply SFadd_nonneg.
Qed.
End Binary64Facts.

#[export] Instance float_NonnegAdd : NonnegAdd float.
Proof. split; [reflexivity | exact float_add_nonneg]. Qed.

(** ** Binary64: rounding *)

Section RoundingFacts.

Lemma digits2_pos_size (p : positive) : digits2_pos p = Pos.size p.
Proof. induction p; simpl; congruence. Qed.

(** [p] has [digits2_pos p] binary digits. *)
Lemma digits2_pos_bounds (p : positive) :
  2 ^ (Z.pos (digits2_pos p) - 1) <= Z.pos p < 2 ^ Z.pos (digits2_pos p).
Proof.
  induction p as [p IH|p IH|]; simpl digits2_pos.
  - rewrite Pos2Z.inj_succ.
    replace (Z.succ (Z.pos (digits2_pos p)) - 1) with (Z.succ (Z.pos (digits2_pos p) - 1)) by lia.
    rewrite !Z.pow_succ_r by lia. lia.
  - rewrite Pos2Z.inj_succ.
    replace (Z.succ (Z.pos (digits2_pos p)) - 1) with (Z.succ (Z.pos (digits2_pos p) - 1)) by lia.
    rewrite !Z.pow_succ_r by lia. lia.
  - simpl. lia.
Qed.

(** A mantissa below [2 ^ t] has at most [t] digits. *)
Lemma digits2_pos_le (p : positive) (t : Z) :
  Z.pos p < 2 ^ t -> Z.pos (digits2_pos p) <= t.
Proof.
  intros Hlt. destruct (Z.le_gt_cases (Z.pos (digits2_pos p)) t) as [|Hgt]; [assumption|].
  exfalso. pose proof (digits2_pos_bounds p) as [Hlo _].
  assert (0 <= t).
  { destruct (Z.le_gt_cases 0 t); [assumption|].
    rewrite Z.pow_neg_r in Hlt by lia. lia. }
  assert (2 ^ t <= 2 ^ (Z.pos (digits2_pos p) - 1)) by (apply Z.pow_le_mono_r; lia).
  lia.
Qed.

Lemma shr_1_halves (mrs : shr_record) :
  0 <= shr_m mrs ->
  shr_m (shr_1 mrs) = shr_m mrs / 2
  /\ (shr_r (shr_1 mrs) = true -> shr_m mrs mod 2 = 1).
Proof.
  destruct mrs as [m r s]. simpl. intros Hm.
  destruct m as [|[p|p|]|p]; simpl shr_m; simpl shr_r.
  - split; [reflexivity | discriminate].
  - rewrite Pos2Z.inj_xI. split; [|intros _]; Z.div_mod_to_equations; lia.
  - rewrite Pos2Z.inj_xO. split; [Z.div_mod_to_equations; lia | discriminate].
  - split; reflexivity.
  - lia.
Qed.

Lemma shr_1_shifted (N k : Z) (mrs : shr_record) :
  0 <= N -> 0 <= k -> shifted N k mrs -> shifted N (k + 1) (shr_1 mrs).
Proof.
  intros HN Hk [Hm Hr].
  assert (Hp : 0 < 2 ^ k) by (apply Z.pow_pos_nonneg; lia).
  assert (Hm0 : 0 <= shr_m mrs).
  { rewrite Hm. apply Z.div_pos; lia. }
  destruct (shr_1_halves mrs Hm0) as [Hh Ho].
  split.
  - rewrite Hh, Hm, Z.pow_add_r, Z.div_div by lia. reflexivity.
  - intros Hr1. specialize (Ho Hr1). rewrite Hm in Ho.
    rewrite Z.pow_add_r by lia. change (2 ^ 1) with 2.
    rewrite Z.rem_mul_r by lia. rewrite Ho.
    pose proof (Z.mod_pos_bound N (2 ^ k) Hp). lia.
Qed.

Lemma iter_shr_1_shifted (p : positive) (N k : Z) (mrs : shr_record) :
  0 <= N -> 0 <= k -> shifted N k mrs ->
  shifted N (k + Z.pos p) (SpecFloat.iter_pos shr_1 p mrs).
Proof.
  intros HN. revert k mrs.
  induction p as [p IH|p IH|]; intros k mrs Hk Hs; simpl SpecFloat.iter_pos.
  - replace (k + Z.pos p~1) with (k + 1 + Z.pos p + Z.pos p) by lia.
    apply IH; [lia|]. apply IH; [lia|]. now apply shr_1_shifted.
  - replace (k + Z.pos p~0) with (k + Z.pos p + Z.pos p) by lia.
    apply IH; [lia|]. now apply IH.
  - now apply shr_1_shifted.
Qed.
End RoundingFacts.

Section BracketFacts.
Variables prec emax : Z.

(** What [shr_fexp] does to a non-negative mantissa that carries no
    remainder yet: it shifts by [k], the distance to the exponent the
    format asks for, when that is positive. *)
Lemma shr_fexp_exact (m e : Z) :
  0 <= m ->
  let k := Z.max 0 (fexp prec emax (Zdigits2 m + e) - e) in
  shifted m k (fst (shr_fexp prec emax m e loc_Exact))
  /\ snd (shr_fexp prec emax m e loc_Exact) = e + k.
Proof.
  intros Hm k. unfold shr_fexp, shr. subst k. simpl shr_record_of_loc.
  assert (H0 : shifted m 0 {| shr_m := m; shr_r := false; shr_s := false |}).
  { split; simpl; [now rewrite Z.div_1_r | discriminate]. }
  destruct (fexp prec emax (Zdigits2 m + e) - e) as [|p|p] eqn:E; simpl fst; simpl snd.
  - rewrite Z.max_id. split; [exact H0 | lia].
  - rewrite Z.max_r by lia. split; [|reflexivity].
    apply (iter_shr_1_shifted p m 0 _ Hm (Z.le_refl 0) H0).
  - rewrite Z.max_l by lia. split; [exact H0 | lia].
Qed.

Lemma round_nearest_even_shifted (N k : Z) (mrs : shr_record) :
  0 <= N -> 0 <= k -> shifted N k mrs ->
  let m1 := round_nearest_even (shr_m mrs) (loc_of_shr_record mrs) in
  N / 2 ^ k <= m1 /\ 2 * (m1 * 2 ^ k) <= 2 * N + 2 ^ k.
Proof.
  intros HN Hk [Hm Hr] m1.
  assert (Hp : 0 < 2 ^ k) by (apply Z.pow_pos_nonneg; lia).
  pose proof (Z.div_mod N (2 ^ k) ltac:(lia)) as Hdm.
  pose proof (Z.mod_pos_bound N (2 ^ k) Hp) as Hb.
  subst m1. destruct mrs as [m r s]. simpl in *. subst m.
  destruct r, s; simpl.
  - specialize (Hr eq_refl). nia.
  - specialize (Hr eq_refl). destruct (Z.even (N / 2 ^ k)); nia.
  - nia.
  - nia.
Qed.

(** The result of rounding the positive number [m * 2 ^ e]: the mantissa
    [m2] and the shift [k] with [m2 * 2 ^ (e + k)] the rounded value. *)
Lemma binary_round_aux_bracket (m e : Z) :
  0 < m ->
  exists m1 m2 k1 k2 : Z,
    k1 = Z.max 0 (fexp prec emax (Zdigits2 m + e) - e)
    /\ k2 = Z.max 0 (fexp prec emax (Zdigits2 m1 + (e + k1)) - (e + k1))
    /\ m / 2 ^ k1 <= m1
    /\ 2 * (m1 * 2 ^ k1) <= 2 * m + 2 ^ k1
    /\ m2 = m1 / 2 ^ k2
    /\ binary_round_aux prec emax false m e loc_Exact
       = match m2 with
         | Z0 => S754_zero false
         | Zpos p =>
             if e + k1 + k2 <=? emax - prec
             then S754_finite false p (e + k1 + k2) else S754_infinity false
         | Zneg _ => S754_nan
         end.
Proof.
  intros Hm. unfold binary_round_aux.
  destruct (shr_fexp_exact m e ltac:(lia)) as [Hs1 He1].
  destruct (shr_fexp prec emax m e loc_Exact) as [mrs' e'] eqn:E1.
  simpl in Hs1, He1.
  set (k1 := Z.max 0 (fexp prec emax (Zdigits2 m + e) - e)) in *.
  assert (Hk1 : 0 <= k1) by (subst k1; lia).
  destruct (round_nearest_even_shifted m k1 mrs' ltac:(lia) Hk1 Hs1) as [Hlo Hhi].
  set (m1 := round_nearest_even (shr_m mrs') (loc_of_shr_record mrs')) in *.
  assert (Hm1 : 0 <= m1).
  { assert (0 <= m / 2 ^ k1) by (apply Z.div_pos; [lia | apply Z.pow_pos_nonneg; lia]).
    lia. }
  destruct (shr_fexp_exact m1 e' Hm1) as [Hs2 He2].
  destruct (shr_fexp prec emax m1 e' loc_Exact) as [mrs'' e''] eqn:E2.
  simpl in Hs2, He2. destruct Hs2 as [Hm2 _].
  exists m1, (shr_m mrs''), k1, (Z.max 0 (fexp prec emax (Zdigits2 m1 + e') - e')).
  subst e'. repeat split; try assumption.
  rewrite He2, Z.add_assoc. reflexivity.
Qed.
End BracketFacts.

(** ** Binary64: the join code *)

Section Product64.

Lemma fexp64 (x : Z) : fexp prec emax x = Z.max (x - 53) (-1074).
Proof. reflexivity. Qed.

Lemma pow2_pos (k : Z) : 0 <= k -> 0 < 2 ^ k.
Proof. intros Hk. apply Z.pow_pos_nonneg; lia. Qed.

(** A valid binary64 mantissa has at most 53 digits. *)
Lemma valid_mantissa (s : bool) (m : positive) (e : Z) :
  valid_binary (S754_finite s m e) = true ->
  Z.pos (digits2_pos m) <= 53 /\ Z.pos m < 2 ^ 53
  /\ fexp prec emax (Z.pos (digits2_pos m) + e) = e.
Proof.
  unfold SpecFloat.valid_binary, bounded, canonical_mantissa.
  intros Hv. apply andb_true_iff in Hv. destruct Hv as [Hc _].
  apply Z.eqb_eq in Hc. pose proof Hc as Hc'. rewrite fexp64 in Hc.
  assert (Hd : Z.pos (digits2_pos m) <= 53) by lia.
  split; [exact Hd|]. split; [|exact Hc'].
  pose proof (digits2_pos_bounds m) as [_ Hhi].
  assert (2 ^ Z.pos (digits2_pos m) <= 2 ^ 53) by (apply Z.pow_le_mono_r; lia).
  lia.
Qed.

Lemma SFltb_finite (m m' : positive) (e e' : Z) :
  SFltb (S754_finite false m e) (S754_finite false m' e') = true ->
  e < e' \/ (e = e' /\ Z.pos m < Z.pos m').
Proof.
  unfold SFltb, SFcompare.
  destruct (Z.compare_spec e e') as [E|L|G]; [|now left|discriminate].
  fold (Pos.compare m m').
  destruct (Pos.compare_spec m m') as [E'|L'|G']; try discriminate.
  intros _. right. split; [exact E | lia].
Qed.

(** A valid binary64 number below 1 has an exponent of at most -53. *)
Lemma below_one_exponent (m : positive) (e : Z) :
  valid_binary (S754_finite false m e) = true ->
  SFltb (S754_finite false m e) (S754_finite false 4503599627370496 (-52)) = true ->
  e <= -53.
Proof.
  intros Hv Hlt. destruct (valid_mantissa _ _ _ Hv) as (Hd & Hm & Hc).
  rewrite fexp64 in Hc.
  apply SFltb_finite in Hlt. destruct Hlt as [Hlt | [-> Hlt]]; [lia|].
  exfalso.
  assert (Hd53 : Z.pos (digits2_pos m) = 53) by lia.
  pose proof (digits2_pos_bounds m) as [Hlo _]. rewrite Hd53 in Hlo.
  change (2 ^ (53 - 1)) with 4503599627370496 in Hlo.
  clear Hv. lia.
Qed.

(** The product of a valid binary64 number below 1 and 900000 is 0 or a
    positive number below 900000. *)
Lemma product_below_900000 (mr : positive) (er : Z) :
  valid_binary (S754_finite false mr er) = true ->
  SFltb (S754_finite false mr er) (S754_finite false 4503599627370496 (-52)) = true ->
  SFmul prec emax (S754_finite false mr er)
        (S754_finite false 7730941132800000 (-33)) = S754_zero false
  \/ exists (m2 : positive) (e2 : Z),
       SFmul prec emax (S754_finite false mr er)
             (S754_finite false 7730941132800000 (-33)) = S754_finite false m2 e2
       /\ e2 <= -33
       /\ (e2 = -33 -> Z.pos m2 < 7730941132800000).
Proof.
  intros Hv Hlt.
  destruct (valid_mantissa _ _ _ Hv) as (_ & Hmr & _).
  pose proof (below_one_exponent _ _ Hv Hlt) as Her.
  unfold SFmul. simpl xorb.
  destruct (binary_round_aux_bracket prec emax
              (Z.pos (mr * 7730941132800000)) (er + -33) ltac:(lia))
    as (m1 & m2 & k1 & k2 & Hk1 & Hk2 & Hlo & Hhi & Hm2 & ->).
  set (m := Z.pos (mr * 7730941132800000)) in *.
  set (e := er + -33) in *.
  assert (Hm : m = Z.pos mr * 7730941132800000) by (subst m; lia).
  (* the unit: J = 2^(-er-53), so that 2^(-er) = 2^53 * J *)
  set (J := 2 ^ (- er - 53)).
  assert (HJ : 1 <= J) by (subst J; pose proof (pow2_pos (- er - 53)); lia).
  assert (Hpow : 2 ^ (- er) = 9007199254740992 * J).
  { subst J. replace (- er) with (53 + (- er - 53)) at 1 by lia.
    rewrite Z.pow_add_r by lia. reflexivity. }
  (* digits of the exact product *)
  assert (HD : Zdigits2 m + e <= 20).
  { subst m. simpl Zdigits2.
    assert (Z.pos (digits2_pos (mr * 7730941132800000)) <= 106).
    { apply digits2_pos_le. rewrite Pos2Z.inj_mul.
      change (2 ^ 106) with (2 ^ 53 * 2 ^ 53).
      apply Z.mul_lt_mono_nonneg; lia. }
    subst e. lia. }
  assert (Hk1b : 0 <= k1 <= - er) by (rewrite Hk1, fexp64; subst e; lia).
  assert (H2k1 : 0 < 2 ^ k1 <= 2 ^ (- er)).
  { split; [apply pow2_pos; lia | apply Z.pow_le_mono_r; lia]. }
  (* the rounded mantissa stays below the limit 900000, in units of 2^e *)
  assert (Hlim : m1 * 2 ^ k1 < 7730941132800000 * 2 ^ (- er)).
  { rewrite Hpow in *. nia. }
  assert (Hm1 : 0 <= m1).
  { assert (0 <= m / 2 ^ k1) by (apply Z.div_pos; lia). lia. }
  assert (HD1 : Zdigits2 m1 + (e + k1) <= 20).
  { destruct m1 as [|p1|p1]; [simpl; subst e; lia | | lia].
    simpl Zdigits2.
    assert (Z.pos (digits2_pos p1) <= 53 - er - k1); [|subst e; lia].
    apply digits2_pos_le.
    replace (53 - er - k1) with (53 + (- er - k1)) by lia.
    rewrite Z.pow_add_r by lia.
    assert (Hsplit : 2 ^ (- er) = 2 ^ (- er - k1) * 2 ^ k1).
    { rewrite <- Z.pow_add_r by lia. f_equal. lia. }
    rewrite Hsplit in Hlim.
    pose proof (pow2_pos (- er - k1) ltac:(lia)).
    change (2 ^ 53) with 9007199254740992. nia. }
  assert (Hk2b : 0 <= k2) by (rewrite Hk2; lia).
  assert (He2 : e + k1 + k2 <= -33).
  { rewrite Hk2, Hk1, !fexp64. rewrite fexp64 in Hk1. lia. }
  assert (H2k2 : 0 < 2 ^ k2) by (apply pow2_pos; lia).
  assert (Hm2b : 0 <= m2 /\ m2 * 2 ^ k2 <= m1).
  { rewrite Hm2. split; [apply Z.div_pos; lia|].
    rewrite Z.mul_comm. apply Z.mul_div_le. lia. }
  destruct m2 as [|p2|p2]; [now left | right | lia].
  exists p2, (e + k1 + k2).
  destruct (Z.leb_spec (e + k1 + k2) (emax - prec)) as [_|Hbad];
    [|unfold emax, prec in Hbad; lia].
  split; [reflexivity|]. split; [exact He2|].
  intros Heq.
  assert (Hk12 : k1 + k2 = - er) by (subst e; lia).
  assert (Hsplit : 2 ^ (- er) = 2 ^ k2 * 2 ^ k1).
  { rewrite <- Z.pow_add_r by lia. f_equal. lia. }
  rewrite Hsplit in Hlim. nia.
Qed.
End Product64.

Section Sum64.

Lemma iter_xO_value (d m : positive) :
  Z.pos (Pos.iter xO m d) = Z.pos m * 2 ^ Z.pos d.
Proof.
  induction d as [|d IH] using Pos.peano_ind.
  - simpl. lia.
  - rewrite Pos.iter_succ, Pos2Z.inj_xO, IH, Pos2Z.inj_succ, Z.pow_succ_r by lia. lia.
Qed.

Lemma iter_xO_digits (d m : positive) :
  Z.pos (digits2_pos (Pos.iter xO m d)) = Z.pos (digits2_pos m) + Z.pos d.
Proof.
  induction d as [|d IH] using Pos.peano_ind.
  - simpl. lia.
  - rewrite Pos.iter_succ. simpl digits2_pos. rewrite Pos2Z.inj_succ, IH. lia.
Qed.

(** [shl_align] lowers the exponent to [t] when it is above, keeping the
    value and the position of the leading digit. *)
Lemma shl_align_spec (mx : positive) (ex t : Z) :
  snd (shl_align mx ex t) = Z.min ex t
  /\ Z.pos (fst (shl_align mx ex t)) = Z.pos mx * 2 ^ (ex - Z.min ex t)
  /\ Z.pos (digits2_pos (fst (shl_align mx ex t))) + Z.min ex t
     = Z.pos (digits2_pos mx) + ex.
Proof.
  unfold shl_align. destruct (t - ex) as [|d|d] eqn:E; simpl fst; simpl snd.
  - rewrite Z.min_l by lia. rewrite Z.sub_diag. simpl. lia.
  - rewrite Z.min_l by lia. rewrite Z.sub_diag. simpl. lia.
  - rewrite Z.min_r by lia. rewrite iter_xO_value, iter_xO_digits.
    replace (ex - t) with (Z.pos d) by lia. lia.
Qed.

(** Adding 100000 to a valid binary64 number between 0 and the
    predecessor of 900000 gives a number from 100000 to below 1000000, with
    an exponent of at most -33. *)
Lemma sum_in_range (m2 : positive) (e2 : Z) :
  valid_binary (S754_finite false m2 e2) = true ->
  e2 <= -33 -> (e2 = -33 -> Z.pos m2 < 7730941132800000) ->
  exists (mf : positive) (ef : Z),
    SFadd prec emax (S754_finite false 6871947673600000 (-36))
          (S754_finite false m2 e2) = S754_finite false mf ef
    /\ ef <= -33
    /\ 100000 * 2 ^ (- ef) <= Z.pos mf < 1000000 * 2 ^ (- ef).
Proof.
  intros Hv He2 Hlim.
  destruct (valid_mantissa _ _ _ Hv) as (_ & Hm2 & _). clear Hv.
  change (2 ^ 53) with 9007199254740992 in Hm2.
  unfold SFadd, cond_Zopp.
  set (ez := Z.min (-36) e2).
  destruct (shl_align_spec 6871947673600000 (-36) ez) as (_ & Ha1 & _).
  destruct (shl_align_spec m2 e2 ez) as (_ & Ha2 & _).
  rewrite (Z.min_r (-36) ez) in Ha1 by (subst ez; lia).
  rewrite (Z.min_r e2 ez) in Ha2 by (subst ez; lia).
  set (p1 := fst (shl_align 6871947673600000 (-36) ez)) in *.
  set (p2 := fst (shl_align m2 e2 ez)) in *.
  change (Z.pos p1 + Z.pos p2) with (Z.pos (p1 + p2)).
  unfold binary_normalize, binary_round.
  set (S := (p1 + p2)%positive).
  (* the exact sum, in units of 2^ez *)
  set (U := 2 ^ (- 36 - ez)) in *.
  assert (HU : 1 <= U) by (subst U; pose proof (pow2_pos (- 36 - ez)); subst ez; lia).
  assert (Hu : 2 ^ (- ez) = 68719476736 * U).
  { subst U. replace (- ez) with (36 + (- 36 - ez)) by lia.
    rewrite Z.pow_add_r by (subst ez; lia). reflexivity. }
  assert (HS : 100000 * 2 ^ (- ez) <= Z.pos S
               /\ 8589934592 * Z.pos S <= 8589934592 * (1000000 * 2 ^ (- ez)) - 2 ^ (- ez)).
  { subst S. rewrite Pos2Z.inj_add, Ha1, Ha2, Hu. fold U.
    destruct (Z.le_gt_cases (-36) e2) as [Hge|Hlt].
    - assert (Hez : ez = -36) by (subst ez; lia).
      assert (HU1 : U = 1) by (subst U; rewrite Hez; reflexivity).
      rewrite Hez, HU1.
      assert (Hc : e2 = -36 \/ e2 = -35 \/ e2 = -34 \/ e2 = -33) by lia.
      destruct Hc as [->|[->|[->| ->]]]; simpl Z.pow; lia.
    - assert (Hez : ez = e2) by (subst ez; lia).
      rewrite Hez, Z.sub_diag. simpl Z.pow. nia. }
  destruct HS as [HSlo HShi].
  (* alignment to the exponent of the format *)
  set (t := fexp prec emax (Z.pos (digits2_pos S) + ez)).
  destruct (shl_align_spec S ez t) as (Hez' & Hmz & Hdz).
  destruct (shl_align S ez t) as [mz ez'] eqn:Eal. simpl in Hez', Hmz, Hdz.
  assert (HD : Z.pos (digits2_pos S) + ez <= 20).
  { assert (Z.pos (digits2_pos S) <= 20 + (- ez)); [|lia].
    apply digits2_pos_le. rewrite Z.pow_add_r by (subst ez; lia).
    change (2 ^ 20) with 1048576. pose proof (pow2_pos (- ez)). lia. }
  assert (Ht : t <= -33) by (subst t; rewrite fexp64; lia).
  assert (Hez't : ez' <= t /\ ez' <= ez) by lia.
  destruct (binary_round_aux_bracket prec emax (Z.pos mz) ez' ltac:(lia))
    as (m1 & mf & k1 & k2 & Hk1 & Hk2 & Hlo & Hhi & Hmf & ->).
  simpl Zdigits2 in Hk1. rewrite Hez' in Hk1 at 1. rewrite Hdz in Hk1. fold t in Hk1.
  assert (Hk1e : k1 = t - ez') by lia.
  assert (H2k1 : 0 < 2 ^ k1) by (apply pow2_pos; lia).
  (* the aligned sum, in units of 2^ez' *)
  assert (Hsplit : 2 ^ (- ez') = 2 ^ (- ez) * 2 ^ (ez - ez')).
  { rewrite <- Z.pow_add_r by lia. f_equal. lia. }
  pose proof (pow2_pos (ez - ez') ltac:(lia)) as Hsh.
  pose proof (pow2_pos (- ez) ltac:(subst ez; lia)) as Hue.
  assert (Hmzb : 100000 * 2 ^ (- ez') <= Z.pos mz
                 /\ 8589934592 * Z.pos mz <= 8589934592 * (1000000 * 2 ^ (- ez')) - 2 ^ (- ez')).
  { rewrite Hsplit, Hmz. rewrite <- Hez'. nia. }
  destruct Hmzb as [Hmzlo Hmzhi].
  assert (Hsplit' : 2 ^ (- ez') = 2 ^ (- t) * 2 ^ k1).
  { rewrite <- Z.pow_add_r by lia. f_equal. lia. }
  pose proof (pow2_pos (- t) ltac:(lia)) as Hut.
  assert (Ht33 : 8589934592 <= 2 ^ (- t)).
  { change 8589934592 with (2 ^ 33). apply Z.pow_le_mono_r; lia. }
  (* the rounded mantissa *)
  assert (Hm1lo : 100000 * 2 ^ (- t) <= m1).
  { apply Z.le_trans with (Z.pos mz / 2 ^ k1); [|exact Hlo].
    apply Z.div_le_lower_bound; [lia|]. rewrite Hsplit' in Hmzlo. lia. }
  assert (Hm1hi : m1 < 1000000 * 2 ^ (- t)).
  { destruct (Z.lt_ge_cases m1 (1000000 * 2 ^ (- t))) as [Hok|Hge]; [exact Hok|].
    exfalso. rewrite Hsplit' in Hmzhi.
    assert (1000000 * (2 ^ (- t) * 2 ^ k1) <= m1 * 2 ^ k1).
    { rewrite Z.mul_assoc. apply Z.mul_le_mono_nonneg_r; lia. }
    assert (8589934592 * 2 ^ k1 <= 2 ^ (- t) * 2 ^ k1).
    { apply Z.mul_le_mono_nonneg_r; lia. }
    lia. }
  assert (HD1 : Zdigits2 m1 + t <= 20).
  { destruct m1 as [|q1|q1]; [lia | | lia].
    simpl Zdigits2.
    assert (Z.pos (digits2_pos q1) <= 20 + (- t)); [|lia].
    apply digits2_pos_le. rewrite Z.pow_add_r by lia.
    change (2 ^ 20) with 1048576. lia. }
  replace (ez' + k1) with t in * by lia.
  assert (Hk2b : 0 <= k2 /\ t + k2 <= -33) by (rewrite Hk2, fexp64; lia).
  assert (H2k2 : 0 < 2 ^ k2) by (apply pow2_pos; lia).
  assert (Hsplit2 : 2 ^ (- t) = 2 ^ (- (t + k2)) * 2 ^ k2).
  { rewrite <- Z.pow_add_r by lia. f_equal. lia. }
  pose proof (pow2_pos (- (t + k2)) ltac:(lia)) as Huf.
  assert (Hmflo : 100000 * 2 ^ (- (t + k2)) <= mf).
  { rewrite Hmf. apply Z.div_le_lower_bound; [lia|]. rewrite Hsplit2 in Hm1lo. lia. }
  assert (Hmfhi : mf < 1000000 * 2 ^ (- (t + k2))).
  { assert (mf * 2 ^ k2 <= m1).
    { rewrite Hmf, Z.mul_comm. apply Z.mul_div_le. lia. }
    rewrite Hsplit2 in Hm1hi.
    destruct (Z.lt_ge_cases mf (1000000 * 2 ^ (- (t + k2)))) as [Hok|Hge];
      [exact Hok|].
    exfalso.
    assert (1000000 * (2 ^ (- (t + k2)) * 2 ^ k2) <= mf * 2 ^ k2).
    { rewrite Z.mul_assoc. apply Z.mul_le_mono_nonneg_r; lia. }
    lia. }
  destruct mf as [|pf|pf]; [lia | | lia].
  exists pf, (t + k2).
  destruct (Z.leb_spec (t + k2) (emax - prec)) as [_|Hbad];
    [|unfold emax, prec in Hbad; lia].
  split; [reflexivity|]. split; [lia|]. split; assumption.
Qed.
End Sum64.

Section JoinCode64.

Lemma floor_of_range (mf : positive) (ef : Z) :
  ef <= -33 ->
  100000 * 2 ^ (- ef) <= Z.pos mf < 1000000 * 2 ^ (- ef) ->
  100000 <= Z.shiftl (Z.pos mf) ef <= 999999.
Proof.
  intros He [Hlo Hhi].
  assert (Hsh : Z.shiftl (Z.pos mf) ef = Z.pos mf / 2 ^ (- ef)).
  { apply Z.shiftl_div_pow2. lia. }
  rewrite Hsh.
  pose proof (pow2_pos (- ef) ltac:(lia)) as Hp.
  split.
  - apply Z.div_le_lower_bound; lia.
  - assert (Z.pos mf / 2 ^ (- ef) < 1000000); [|lia].
    apply Z.div_lt_upper_bound; lia.
Qed.

(** The number behind the join code, for every binary64 draw in [0, 1). *)
Lemma joinCodeNumber_range (random : float) :
  PrimFloat.leb 0 random = true -> PrimFloat.ltb random 1 = true ->
  exists n : Z, joinCodeNumber random = Some n /\ 100000 <= n <= 999999.
Proof.
  rewrite leb_spec, ltb_spec.
  change (Prim2SF 0) with (S754_zero false).
  change (Prim2SF 1) with (S754_finite false 4503599627370496 (-52)).
  intros H0 H1. unfold joinCodeNumber, Math_floor.
  pose proof (Prim2SF_valid (random * 900000)) as Hvp.
  rewrite add_spec, mul_spec in *.
  change (Prim2SF 100000) with (S754_finite false 6871947673600000 (-36)).
  change (Prim2SF 900000) with (S754_finite false 7730941132800000 (-33)) in *.
  pose proof (Prim2SF_valid random) as Hvr.
  unfold SF64add, SF64mul in *.
  destruct (Prim2SF random) as [s|s| |s mr er].
  - (* the draw 0 *)
    exists 100000. destruct s; simpl; split; (reflexivity || lia).
  - destruct s; discriminate.
  - discriminate.
  - destruct s; [discriminate|].
    destruct (product_below_900000 mr er Hvr H1) as [Hz | (m2 & e2 & Hp & He2 & Hlim)].
    + rewrite Hz. exists 100000. simpl. split; [reflexivity | lia].
    + rewrite Hp in *.
      destruct (sum_in_range m2 e2 Hvp He2 Hlim) as (mf & ef & Hs & Hef & Hr).
      rewrite Hs. exists (Z.shiftl (Z.pos mf) ef).
      split; [reflexivity|]. now apply floor_of_range.
Qed.
End JoinCode64.

(** * The claims *)

(** C3: every input transaction appears exactly once in the output of
    [computeRunningBalances]: forgetting the [runningBalance] annotation,
    the output is a permutation of the input. *)
Theorem computeRunningBalances_permutation {num : Type} `{Number num}
    (host : JS.Host) (txs : list (Transaction.t num)) :
  Permutation (map forget (computeRunningBalances host txs)) txs.
Proof.
  rewrite computeRunningBalances_forget, <- Permutation_rev.
  apply arraySort_perm.
Qed.

(** C10: [computeRunningBalances] only annotates.  Run on the array [txs]
    of a store, it returns a new array holding the pure result; each entry
    of the result agrees on all eleven fields with the input transaction at
    the same place of a rearrangement of the input; and the array [txs], like
    every other array already in the store, is left as it was. *)
Theorem computeRunningBalances_only_annotates {num : Type} `{Number num}
    (host : JS.Host) (st : Arrays.Store) (txs : nat)
    (l : list (Transaction.t num)) :
  Arrays.txArrays st !! txs = Some l ->
  exists (r : nat) (st' : Arrays.Store) (rearranged : list (Transaction.t num)),
    Arrays.computeRunningBalancesAt host txs st = Some (r, st')
    /\ Arrays.wbArrays st' !! r = Some (computeRunningBalances host l)
    /\ Permutation rearranged l
    /\ Forall2 sameFields (computeRunningBalances host l) rearranged
    /\ Arrays.txArrays st' !! txs = Some l
    /\ (forall a, a ∈ dom (Arrays.txArrays st) ->
          Arrays.txArrays st' !! a = Arrays.txArrays st !! a)
    /\ (forall a, a ∈ dom (Arrays.wbArrays st) ->
          Arrays.wbArrays st' !! a = Arrays.wbArrays st !! a).
Proof.
  intros Hl.
  destruct (computeRunningBalancesAt_spec host st txs l Hl)
    as (r & st' & Hrun & Hout & Htx & Hwb).
  exists r, st', (rev (JS.arraySort (byDateTime host) l)).
  repeat split; try assumption.
  - rewrite <- Permutation_rev. apply arraySort_perm.
  - unfold computeRunningBalances. apply Forall2_rev, runningPass_sameFields.
  - rewrite Htx; [exact Hl|]. apply elem_of_dom. now exists l.
Qed.

(** The claim on a store whose only array holds scenario 1. *)
Lemma computeRunningBalances_only_annotates_witness :
  exists (r : nat) (st' : Arrays.Store) (rearranged : list (Transaction.t Z)),
    Arrays.computeRunningBalancesAt IST 0%nat sampleStore = Some (r, st')
    /\ Arrays.wbArrays st' !! r
       = Some (computeRunningBalances IST (map (transactionOfRow IST) scenario1))
    /\ Permutation rearranged (map (transactionOfRow IST) scenario1)
    /\ Forall2 sameFields
         (computeRunningBalances IST (map (transactionOfRow IST) scenario1))
         rearranged
    /\ Arrays.txArrays st' !! 0%nat = Some (map (transactionOfRow IST) scenario1)
    /\ (forall a, a ∈ dom (Arrays.txArrays sampleStore) ->
          Arrays.txArrays st' !! a = Arrays.txArrays sampleStore !! a)
    /\ (forall a, a ∈ dom (Arrays.wbArrays sampleStore) ->
          Arrays.wbArrays st' !! a = Arrays.wbArrays sampleStore !! a).
Proof.
  apply (computeRunningBalances_only_annotates (num := Z) IST sampleStore 0%nat
           (map (transactionOfRow IST) scenario1)).
  reflexivity.
Defined.

(** Without the copy the caller's array would change: sorting the array of
    scenario 1 in place reorders it. *)
Example sort_in_place_changes_the_array :
  exists st' : Arrays.Store,
    Arrays.sort (byDateTime IST) 0%nat sampleStore = Some (0%nat, st')
    /\ Arrays.txArrays st' !! 0%nat <> Arrays.txArrays sampleStore !! 0%nat.
Proof.
  eexists. split; [reflexivity|].
  vm_compute. discriminate.
Qed.

(** C6: the totals of a business are the left-to-right sums of the totals
    that [getBooks] reports for its books, its balance is [totalIn - totalOut],
    and [bookCount] is the number of books; the books attached to the
    summary are the per-ledger records, rearranged.  The same holds for the
    totals [loadData] derives from a book list. *)
Theorem business_totals_are_sums_of_book_totals {num : Type} `{Number num}
    (host : JS.Host) (isShared : bool) (b : ProjectRow.t num)
    (booksData : list (BookWithTotals.t num)) :
  let ledgers := default [] (ProjectRow.ledgers b) in
  let books := getBooks host (Some ledgers) in
  let business := businessOfProject host isShared b in
  BusinessWithTotals.totalIn business = sumOf BookWithTotals.totalIn books
  /\ BusinessWithTotals.totalOut business = sumOf BookWithTotals.totalOut books
  /\ BusinessWithTotals.balance business
     = sub (BusinessWithTotals.totalIn business)
           (BusinessWithTotals.totalOut business)
  /\ BusinessWithTotals.bookCount business = length books
  /\ Permutation (BusinessWithTotals.books business)
       (map (bookInBusiness host (ProjectRow.id b)) ledgers)
  /\ loadDataTotals booksData
     = (sumOf BookWithTotals.totalIn booksData,
        sumOf BookWithTotals.totalOut booksData,
        sub (sumOf BookWithTotals.totalIn booksData)
            (sumOf BookWithTotals.totalOut booksData),
        length booksData).
Proof.
  cbv zeta. unfold businessOfProject, getBooks, sumOf.
  destruct (ProjectRow.ledgers b) as [ledgers|]; simpl.
  - rewrite fold_ledgerStep. simpl. rewrite length_map.
    repeat split. apply arraySort_perm.
  - repeat split. constructor.
Qed.

(** C7: empty input is a defined zero result.  The balance engine maps the
    empty list to the empty list, and a business without books gets totals
    0, balance 0 and book count 0, in every number system where [0 - 0] is
    [0] (binary64 and the integers are such). *)
Theorem empty_input_is_a_zero_result {num : Type} `{ZeroDifference num}
    (host : JS.Host) (isShared : bool) (b : ProjectRow.t num) :
  ProjectRow.ledgers b = Some [] \/ ProjectRow.ledgers b = None ->
  computeRunningBalances host (@nil (Transaction.t num)) = []
  /\ getTransactionsWithBalance host (Some (@nil (EntryRow.t num))) = []
  /\ BusinessWithTotals.totalIn (businessOfProject host isShared b) = zero
  /\ BusinessWithTotals.totalOut (businessOfProject host isShared b) = zero
  /\ BusinessWithTotals.balance (businessOfProject host isShared b) = zero
  /\ BusinessWithTotals.bookCount (businessOfProject host isShared b) = 0%nat
  /\ BusinessWithTotals.books (businessOfProject host isShared b) = []
  /\ loadDataTotals (@nil (BookWithTotals.t num)) = (zero, zero, zero, 0%nat).
Proof.
  intros Hb. unfold businessOfProject, loadDataTotals.
  destruct Hb as [-> | ->]; simpl; rewrite sub_zero_zero; repeat split.
Qed.

(** The claim at binary64, the numbers of the program, for a business whose
    list of ledgers is empty. *)
Lemma empty_input_is_a_zero_result_witness :
  computeRunningBalances IST (@nil (Transaction.t float)) = []
  /\ getTransactionsWithBalance IST (Some (@nil (EntryRow.t float))) = []
  /\ BusinessWithTotals.totalIn (businessOfProject IST false (sampleProject (Some []))) = 0%float
  /\ BusinessWithTotals.totalOut (businessOfProject IST false (sampleProject (Some []))) = 0%float
  /\ BusinessWithTotals.balance (businessOfProject IST false (sampleProject (Some []))) = 0%float
  /\ BusinessWithTotals.bookCount (businessOfProject IST false (sampleProject (Some []))) = 0%nat
  /\ BusinessWithTotals.books (businessOfProject IST false (sampleProject (Some []))) = []
  /\ loadDataTotals (@nil (BookWithTotals.t float)) = (0%float, 0%float, 0%float, 0%nat).
Proof.
  exact (empty_input_is_a_zero_result (num := float) IST false
           (sampleProject (Some [])) (or_introl eq_refl)).
Defined.




(** C9: in every number system, binary64 included, each step of the totals
    loop adds the amount to [totalIn] when the type is ['IN'] and to
    [totalOut] for every other type string, so [totalIn] is the
    left-to-right sum of the amounts typed ['IN'] and [totalOut] the
    left-to-right sum of all the others: no entry is skipped.  When the
    additions are exact, [totalIn + totalOut] is the sum of all amounts. *)
Theorem totals_route_every_entry {num : Type} `{Number num}
    (entries : list (EntryRow.t num)) :
  (forall (totalIn totalOut : num) (t : EntryRow.t num),
     addEntry (totalIn, totalOut) t
     = if String.eqb (EntryRow.type t) "IN"
       then (add totalIn (EntryRow.amount t), totalOut)
       else (totalIn, add totalOut (EntryRow.amount t)))
  /\ fst (sumEntries (Some entries))
     = sumOf EntryRow.amount (List.filter isIN entries)
  /\ snd (sumEntries (Some entries))
     = sumOf EntryRow.amount (List.filter (fun t => negb (isIN t)) entries)
  /\ (ExactNumber num ->
      add (fst (sumEntries (Some entries))) (snd (sumEntries (Some entries)))
      = sumOf EntryRow.amount entries).
Proof.
  split; [reflexivity|].
  split; [apply fold_addEntry_fst|].
  split; [apply fold_addEntry_snd|].
  intros Hexact.
  unfold sumEntries, sumOf.
  assert (G : forall i o : num,
            add (fst (fold_left addEntry entries (i, o)))
                (snd (fold_left addEntry entries (i, o)))
            = fold_left (fun sum b => add sum (EntryRow.amount b)) entries (add i o)).
  { induction entries as [|e es IH]; intros i o; simpl.
    - reflexivity.
    - destruct (String.eqb (EntryRow.type e) "IN"); rewrite IH; f_equal.
      + rewrite !add_assoc. f_equal. apply add_comm.
      + now rewrite add_assoc. }
  rewrite G. now rewrite add_zero_r.
Qed.

(** The claim on scenario 1 of the specification, in whole rupees, where
    the additions are exact; and the routing in binary64, on the entries
    IN 0.3, OUT 0.6, IN 0.1. *)
Lemma totals_route_every_entry_witness :
  ((forall (totalIn totalOut : Z) (t : EntryRow.t Z),
      addEntry (totalIn, totalOut) t
      = if String.eqb (EntryRow.type t) "IN"
        then (add totalIn (EntryRow.amount t), totalOut)
        else (totalIn, add totalOut (EntryRow.amount t)))
   /\ fst (sumEntries (Some scenario1))
      = sumOf EntryRow.amount (List.filter isIN scenario1)
   /\ snd (sumEntries (Some scenario1))
      = sumOf EntryRow.amount (List.filter (fun t => negb (isIN t)) scenario1)
   /\ add (fst (sumEntries (Some scenario1))) (snd (sumEntries (Some scenario1)))
      = sumOf EntryRow.amount scenario1)
  /\ (fst (sumEntries (Some unevenRows))
      = sumOf EntryRow.amount (List.filter isIN unevenRows)
      /\ snd (sumEntries (Some unevenRows))
         = sumOf EntryRow.amount
             (List.filter (fun t => negb (isIN t)) unevenRows)).
Proof.
  split.
  - destruct (totals_route_every_entry (num := Z) scenario1) as (Hs & Hi & Ho & He).
    split; [exact Hs|]. split; [exact Hi|]. split; [exact Ho|].
    exact (He Z_ExactNumber).
  - destruct (totals_route_every_entry (num := float) unevenRows)
      as (_ & Hi & Ho & _).
    split; [exact Hi | exact Ho].
Defined.

(** C9 as stated fails in binary64: for the entries IN 0.3, OUT 0.6, IN 0.1
    the totals are 0.4 and 0.6, whose sum is 1, while the amounts added in
    their order give 0.9999999999999999. *)
Lemma totals_rounding_counterexample :
  fst (sumEntries (Some unevenRows)) = 0.4%float
  /\ snd (sumEntries (Some unevenRows)) = 0.6%float
  /\ add (fst (sumEntries (Some unevenRows))) (snd (sumEntries (Some unevenRows)))
     = 1%float
  /\ sumOf EntryRow.amount unevenRows = 0x1.fffffffffffffp-1%float
  /\ add (fst (sumEntries (Some unevenRows))) (snd (sumEntries (Some unevenRows)))
     <> sumOf EntryRow.amount unevenRows.
Proof.
  split; [vm_compute; reflexivity|].
  split; [vm_compute; reflexivity|].
  split; [vm_compute; reflexivity|].
  split; [vm_compute; reflexivity|].
  intros E.
  discriminate (f_equal (PrimFloat.eqb 1%float) E).
Qed.

(** C4, for non-negative amounts: when no entry of a ledger has a negative
    amount, the [totalIn] and [totalOut] that [getBookTotals] and [getBooks]
    report for it are at least 0. *)
Theorem book_totals_nonnegative {num : Type} `{NonnegAdd num}
    (host : JS.Host) (ledgers : list (LedgerRow.t num)) :
  Forall (fun ledger =>
            Forall (fun e => leb zero (EntryRow.amount e) = true)
                   (default [] (LedgerRow.entries ledger))) ledgers ->
  Forall (fun book => leb zero (BookWithTotals.totalIn book) = true
                      /\ leb zero (BookWithTotals.totalOut book) = true)
         (getBooks host (Some ledgers))
  /\ Forall (fun ledger =>
               exists book, getBookTotals host (Some ledger) = Some book
                 /\ leb zero (BookWithTotals.totalIn book) = true
                 /\ leb zero (BookWithTotals.totalOut book) = true) ledgers.
Proof.
  intros Hall.
  assert (G : forall es (i o : num),
            Forall (fun e => leb zero (EntryRow.amount e) = true) es ->
            leb zero i = true -> leb zero o = true ->
            leb zero (fst (fold_left addEntry es (i, o))) = true
            /\ leb zero (snd (fold_left addEntry es (i, o))) = true).
  { induction es as [|e es IH]; intros i o Hes Hi Ho; simpl.
    - now split.
    - inversion Hes as [|? ? He Hes']; subst.
      destruct (String.eqb (EntryRow.type e) "IN"); apply IH; try assumption;
        now apply add_nonneg. }
  assert (B : forall ledger,
            Forall (fun e => leb zero (EntryRow.amount e) = true)
                   (default [] (LedgerRow.entries ledger)) ->
            leb zero (BookWithTotals.totalIn (bookOfLedger host ledger)) = true
            /\ leb zero (BookWithTotals.totalOut (bookOfLedger host ledger)) = true).
  { intros ledger Hes. destruct (bookOfLedger_totals host ledger) as (-> & -> & _).
    unfold sumEntries. destruct (LedgerRow.entries ledger) as [es|]; simpl in *.
    - apply G; [exact Hes | apply zero_nonneg | apply zero_nonneg].
    - split; apply zero_nonneg. }
  split.
  - simpl. apply Forall_map. eapply Forall_impl; [exact Hall|]. exact B.
  - eapply Forall_impl; [exact Hall|]. intros ledger Hes.
    exists (bookOfLedger host ledger). split; [reflexivity|]. now apply B.
Qed.

(** The claim in binary64 on a book with the entries +100.5 and -40.25. *)
Lemma book_totals_nonnegative_witness :
  Forall (fun book : BookWithTotals.t float =>
            leb zero (BookWithTotals.totalIn book) = true
            /\ leb zero (BookWithTotals.totalOut book) = true)
         (getBooks IST (Some [sampleLedger decimalRows]))
  /\ Forall (fun ledger : LedgerRow.t float =>
               exists book, getBookTotals IST (Some ledger) = Some book
                 /\ leb zero (BookWithTotals.totalIn book) = true
                 /\ leb zero (BookWithTotals.totalOut book) = true)
            [sampleLedger decimalRows].
Proof.
  apply (book_totals_nonnegative (num := float) IST [sampleLedger decimalRows]).
  repeat constructor.
Defined.

(** C4 as stated fails: an entry typed IN with amount -5 gives a book with
    [totalIn = -5], and one typed OUT with amount -5 a book with
    [totalOut = -5]. *)
Lemma book_totals_negative_counterexample :
  exists bookIn bookOut : BookWithTotals.t float,
    getBookTotals IST (Some (sampleLedger negativeInRows)) = Some bookIn
    /\ BookWithTotals.totalIn bookIn = (-5)%float
    /\ leb zero (BookWithTotals.totalIn bookIn) = false
    /\ getBookTotals IST (Some (sampleLedger negativeOutRows)) = Some bookOut
    /\ BookWithTotals.totalOut bookOut = (-5)%float
    /\ leb zero (BookWithTotals.totalOut bookOut) = false.
Proof.
  eexists _, _. repeat split; vm_compute; reflexivity.
Qed.

(** C5, as the code behaves: no entry is rejected or skipped, whatever its
    amount.  An entry [e] whose type is not ['IN'] (an OUT entry, with a
    negative amount or any other) appears in the output, the output is as
    long as the input, the totals loop adds its amount to [totalOut], and the
    running pass subtracts its amount from the running balance. *)
Theorem out_entries_are_never_rejected {num : Type} `{Number num}
    (host : JS.Host) (before after : list (EntryRow.t num)) (e : EntryRow.t num) :
  isIN e = false ->
  In (transactionOfRow host e)
     (map forget (getTransactionsWithBalance host (Some (before ++ e :: after))))
  /\ length (getTransactionsWithBalance host (Some (before ++ e :: after)))
     = length (before ++ e :: after)
  /\ sumEntries (Some (before ++ e :: after))
     = fold_left addEntry after
         (fst (sumEntries (Some before)),
          add (snd (sumEntries (Some before))) (EntryRow.amount e))
  /\ (forall (running : num) (l1 l2 : list (Transaction.t num)),
        runningPass running (l1 ++ transactionOfRow host e :: l2)
        = runningPass running l1
          ++ withRunningBalance (transactionOfRow host e)
               (sub (fold_left step l1 running) (EntryRow.amount e))
          :: runningPass (sub (fold_left step l1 running) (EntryRow.amount e)) l2).
Proof.
  intros Hout.
  pose proof (computeRunningBalances_permutation host
                (map (transactionOfRow host) (before ++ e :: after))) as Hperm.
  repeat split.
  - eapply Permutation_in; [symmetry; exact Hperm|].
    apply in_map, in_elt.
  - apply Permutation_length in Hperm.
    rewrite !length_map in Hperm. exact Hperm.
  - unfold sumEntries. rewrite fold_left_app. simpl.
    destruct (fold_left addEntry before (zero, zero)) as [i o]. simpl.
    unfold isIN in Hout. now rewrite Hout.
  - intros running l1 l2. rewrite runningPass_app. simpl.
    unfold step at 1 3. simpl. unfold isIN in Hout. unfold TransactionType_IN.
    now rewrite Hout.
Qed.

(** The claim on the OUT entry of scenario 1. *)
Lemma out_entries_are_never_rejected_witness :
  In (transactionOfRow IST (sampleRow "e2" "OUT" 40 "2024-01-01" "10:00"))
     (map forget (getTransactionsWithBalance IST (Some scenario1)))
  /\ length (getTransactionsWithBalance IST (Some scenario1)) = length scenario1
  /\ sumEntries (Some scenario1)
     = fold_left addEntry []
         (fst (sumEntries (Some (firstn 2 scenario1))),
          add (snd (sumEntries (Some (firstn 2 scenario1)))) 40)
  /\ (forall (running : Z) (l1 l2 : list (Transaction.t Z)),
        runningPass running
          (l1 ++ transactionOfRow IST (sampleRow "e2" "OUT" 40 "2024-01-01" "10:00") :: l2)
        = runningPass running l1
          ++ withRunningBalance
               (transactionOfRow IST (sampleRow "e2" "OUT" 40 "2024-01-01" "10:00"))
               (sub (fold_left step l1 running) 40)
          :: runningPass (sub (fold_left step l1 running) 40) l2).
Proof.
  exact (out_entries_are_never_rejected (num := Z) IST (firstn 2 scenario1) []
           (sampleRow "e2" "OUT" 40 "2024-01-01" "10:00") eq_refl).
Defined.

(** C5 as stated fails: a book whose only entry is OUT with amount -5 is
    neither rejected nor skipped.  The entry is in the output with running
    balance 0 - (-5) = 5, and the book has [totalOut = -5] and
    [balance = 5]. *)
Lemma negative_out_entry_counterexample :
  exists (entry : TransactionWithBalance.t float) (book : BookWithTotals.t float),
    getTransactionsWithBalance IST (Some negativeOutRows) = [entry]
    /\ TransactionWithBalance.type entry = "OUT"
    /\ TransactionWithBalance.amount entry = (-5)%float
    /\ TransactionWithBalance.runningBalance entry = 5%float
    /\ getBookTotals IST (Some (sampleLedger negativeOutRows)) = Some book
    /\ BookWithTotals.totalIn book = 0%float
    /\ BookWithTotals.totalOut book = (-5)%float
    /\ BookWithTotals.balance book = 5%float.
Proof.
  eexists _, _. repeat split; vm_compute; reflexivity.
Qed.






(** C8: for every binary64 draw in [0, 1), the join code is the decimal
    representation of an integer between 100000 and 999999, a string of
    exactly six decimal digits. *)
Theorem joinCode_has_six_digits (random : float) :
  PrimFloat.leb 0 random = true -> PrimFloat.ltb random 1 = true ->
  exists n : Z,
    joinCodeNumber random = Some n
    /\ 100000 <= n <= 999999
    /\ joinCode random = Some (toString n)
    /\ String.length (toString n) = 6%nat
    /\ decimalValue 0 (toString n) = Some n.
Proof.
  intros H0 H1.
  destruct (joinCodeNumber_range random H0 H1) as (n & Hn & Hr).
  exists n. split; [exact Hn|]. split; [exact Hr|].
  split; [unfold joinCode; now rewrite Hn|].
  rewrite (toString_six _ Hr). split; [reflexivity|].
  cbn [decimalValue].
  rewrite !digit_digitChar by (Z.div_mod_to_equations; lia).
  f_equal. Z.div_mod_to_equations. lia.
Qed.

Lemma joinCode_has_six_digits_witness :
  exists n : Z,
    joinCodeNumber 0.5%float = Some n
    /\ 100000 <= n <= 999999
    /\ joinCode 0.5%float = Some (toString n)
    /\ String.length (toString n) = 6%nat
    /\ decimalValue 0 (toString n) = Some n.
Proof.
  apply (joinCode_has_six_digits 0.5%float); reflexivity.
Defined.

(** * Further properties *)

Section RunningBalanceFacts.
Context {num : Type} `{Number num}.

(** The value the pass writes at a position is the fold of [step] over the
    transactions up to and including that position. *)
Lemma runningPass_at (l : list (Transaction.t num)) (r : num)
    (l1 l2 : list (TransactionWithBalance.t num)) (a : TransactionWithBalance.t num) :
  runningPass r l = l1 ++ a :: l2 ->
  TransactionWithBalance.runningBalance a
  = fold_left step (map forget l1 ++ [forget a]) r.
Proof.
  intros E.
  pose proof (runningPass_forget l r) as F. rewrite E in F.
  rewrite map_app in F. cbn [map] in F. subst l.
  rewrite runningPass_app in E. cbn [runningPass] in E.
  apply app_inj_1 in E; [|now rewrite runningPass_length, length_map].
  destruct E as [_ E]. injection E as Ea _.
  rewrite fold_left_app. rewrite <- Ea at 1. reflexivity.
Qed.
End RunningBalanceFacts.

Section PairFacts.
Context {A : Type}.

Lemma lookup_pair_split (l : list A) (i j : nat) (a b : A) :
  (i < j)%nat -> l !! i = Some a -> l !! j = Some b ->
  exists l1 l2 l3, l = l1 ++ a :: l2 ++ b :: l3.
Proof.
  intros Hij Ha Hb.
  destruct (list_elem_of_split_length l i a Ha) as (l1 & r & -> & Hi).
  exists l1.
  apply lookup_app_Some in Hb. destruct Hb as [Hb | [_ Hb]].
  - apply lookup_lt_Some in Hb. lia.
  - replace (j - length l1)%nat with (S (j - length l1 - 1)) in Hb by lia.
    simpl in Hb.
    destruct (list_elem_of_split_length r _ b Hb) as (l2 & l3 & -> & _).
    now exists l2, l3.
Qed.

Lemma StronglySorted_pair (R : A -> A -> Prop) (l1 l2 l3 : list A) (x y : A) :
  StronglySorted R (l1 ++ x :: l2 ++ y :: l3) -> R x y.
Proof.
  induction l1 as [|z l1 IH]; simpl; intros Hs.
  - inversion Hs as [|? ? _ Hall]; subst.
    apply Forall_app in Hall. destruct Hall as [_ Hall]. now inversion Hall.
  - inversion Hs; subst. now apply IH.
Qed.

Lemma filter_none (f : A -> bool) (l : list A) :
  Forall (fun y => f y = false) l -> List.filter f l = [].
Proof.
  induction 1 as [|y l Hy _ IH]; simpl; [reflexivity|]. now rewrite Hy.
Qed.
End PairFacts.

(** ** The sort keeps ties in their order *)

Section StableSortFacts.
Context {A : Type}.
Variable comparefn : A -> A -> JS.Time.
Variable key : A -> Z.
Variable P : A -> Prop.
Hypothesis comparefn_key :
  forall a b, P a -> P b -> comparefn a b = Some (key a - key b).

Lemma sortInsert_ties (k : Z) (x : A) (l : list A) :
  P x -> Forall P l -> StronglySorted (ascendingBy key) l ->
  List.filter (fun y => key y =? k) (JS.sortInsert comparefn x l)
  = List.filter (fun y => key y =? k) l ++ List.filter (fun y => key y =? k) [x].
Proof.
  intros Px Pl Hs. induction Hs as [|y l Hs IH Hy].
  - reflexivity.
  - inversion Pl as [|? ? Py Pl']; subst. cbn [JS.sortInsert].
    unfold JS.SortCompare. rewrite (comparefn_key y x Py Px).
    destruct (0 <? key y - key x) eqn:E.
    + apply Z.ltb_lt in E.
      change (x :: y :: l) with ([x] ++ y :: l). rewrite List.filter_app.
      cbn [List.filter]. destruct (Z.eqb_spec (key x) k) as [Ek|Ek]; cbn [app].
      * rewrite (filter_none (fun y0 => key y0 =? k) l).
        { destruct (Z.eqb_spec (key y) k); [lia | reflexivity]. }
        eapply Forall_impl; [exact Hy|]. unfold ascendingBy. simpl.
        intros z Hz. apply Z.eqb_neq. lia.
      * now rewrite app_nil_r.
    + cbn [List.filter]. rewrite (IH Pl').
      destruct (key y =? k); reflexivity.
Qed.

Lemma fold_sortInsert_ties (k : Z) (l acc : list A) :
  Forall P l -> Forall P acc -> StronglySorted (ascendingBy key) acc ->
  List.filter (fun y => key y =? k)
    (fold_left (fun acc x => JS.sortInsert comparefn x acc) l acc)
  = List.filter (fun y => key y =? k) acc ++ List.filter (fun y => key y =? k) l.
Proof.
  revert acc. induction l as [|x l IH]; intros acc Pl Pacc Hs.
  - simpl. now rewrite app_nil_r.
  - inversion Pl as [|? ? Px Pl']; subst. cbn [fold_left].
    rewrite IH.
    + rewrite (sortInsert_ties k x acc Px Pacc Hs), <- app_assoc.
      change (x :: l) with ([x] ++ l). now rewrite (List.filter_app _ [x] l).
    + exact Pl'.
    + eapply Permutation_Forall; [symmetry; apply sortInsert_perm|].
      now constructor.
    + now apply (sortInsert_sorted comparefn key P comparefn_key).
Qed.

Lemma arraySort_ties (k : Z) (l : list A) :
  Forall P l ->
  List.filter (fun y => key y =? k) (JS.arraySort comparefn l)
  = List.filter (fun y => key y =? k) l.
Proof.
  intros Pl. unfold JS.arraySort.
  rewrite fold_sortInsert_ties; [reflexivity | exact Pl | constructor | constructor].
Qed.
End StableSortFacts.

(** ** Totals in exact arithmetic *)

Section ExactTotalsFacts.
Context {num : Type} `{ExactNumber num}.

Lemma addEntry_comm (acc : num * num) (a b : EntryRow.t num) :
  addEntry (addEntry acc a) b = addEntry (addEntry acc b) a.
Proof.
  destruct acc as [i o]. unfold addEntry.
  destruct (String.eqb (EntryRow.type a) "IN"), (String.eqb (EntryRow.type b) "IN");
    try reflexivity; f_equal; rewrite !add_assoc; f_equal; apply add_comm.
Qed.

Lemma fold_addEntry_perm (l l' : list (EntryRow.t num)) :
  Permutation l l' ->
  forall acc, fold_left addEntry l acc = fold_left addEntry l' acc.
Proof.
  induction 1 as [|x l l' _ IH|x y l|l l' l'' _ IH1 _ IH2]; intros acc; simpl.
  - reflexivity.
  - apply IH.
  - now rewrite addEntry_comm.
  - now rewrite IH1.
Qed.
End ExactTotalsFacts.

(** X1: the running balance of an entry is the signed sum, from zero, of
    the entries from the bottom of the list up to and including it; so it is
    the running balance of the entry right below it, plus or minus its own
    amount, and for the entry at the bottom zero plus or minus its own
    amount. *)
Theorem running_balance_is_cumulative {num : Type} `{Number num}
    (host : JS.Host) (txs : list (Transaction.t num))
    (newer older : list (TransactionWithBalance.t num))
    (a : TransactionWithBalance.t num) :
  computeRunningBalances host txs = newer ++ a :: older ->
  TransactionWithBalance.runningBalance a
  = fold_left step (rev (map forget (a :: older))) zero
  /\ TransactionWithBalance.runningBalance a
     = step (match older with
             | b :: _ => TransactionWithBalance.runningBalance b
             | [] => zero
             end) (forget a).
Proof.
  intros E. unfold computeRunningBalances in E.
  apply (f_equal (@rev _)) in E. rewrite rev_involutive in E.
  rewrite rev_app_distr in E. cbn [rev] in E. rewrite <- app_assoc in E.
  cbn [app] in E.
  pose proof (runningPass_at _ _ _ _ _ E) as Ha.
  cbn [map rev]. rewrite <- map_rev.
  split; [exact Ha|].
  rewrite Ha, fold_left_app. cbn [fold_left]. f_equal.
  destruct older as [|b older']; [reflexivity|].
  cbn [rev] in E. rewrite <- app_assoc in E. cbn [app] in E.
  rewrite (runningPass_at _ _ _ _ _ E).
  cbn [rev]. now rewrite map_app.
Qed.

(** The property on scenario 1, at the entry of 10:00 on the first day:
    its running balance 60 is the 100 of the entry below it less its own
    40. *)
Lemma running_balance_is_cumulative_witness :
  TransactionWithBalance.runningBalance
    (withRunningBalance (transactionOfRow IST (sampleRow "e2" "OUT" 40 "2024-01-01" "10:00")) 60)
  = fold_left step
      (rev (map forget
         [withRunningBalance (transactionOfRow IST (sampleRow "e2" "OUT" 40 "2024-01-01" "10:00")) 60;
          withRunningBalance (transactionOfRow IST (sampleRow "e1" "IN" 100 "2024-01-01" "09:00")) 100]))
      zero
  /\ TransactionWithBalance.runningBalance
       (withRunningBalance (transactionOfRow IST (sampleRow "e2" "OUT" 40 "2024-01-01" "10:00")) 60)
     = step 100
         (forget (withRunningBalance
                    (transactionOfRow IST (sampleRow "e2" "OUT" 40 "2024-01-01" "10:00")) 60)).
Proof.
  exact (running_balance_is_cumulative (num := Z) IST
           (map (transactionOfRow IST) scenario1)
           [withRunningBalance (transactionOfRow IST (sampleRow "e3" "IN" 10 "2024-01-02" "08:00")) 70]
           [withRunningBalance (transactionOfRow IST (sampleRow "e1" "IN" 100 "2024-01-01" "09:00")) 100]
           _ eq_refl).
Defined.

(** X2: on every host that keeps its offsets below a day, when every
    transaction has a valid date and time, the output descends by the
    instants the sort compares: an entry's timestamp is never earlier than
    that of any entry further down the list. *)
Theorem output_descends_by_timestamp {num : Type} `{Number num}
    (host : JS.Host) (txs : list (Transaction.t num)) :
  boundedOffsets host ->
  Forall (fun tx => wellFormed tx = true) txs ->
  forall (i j : nat) (a b : TransactionWithBalance.t num),
    (i < j)%nat ->
    computeRunningBalances host txs !! i = Some a ->
    computeRunningBalances host txs !! j = Some b ->
    exists ta tb : Z,
      timestamp host (forget a) = Some ta
      /\ timestamp host (forget b) = Some tb
      /\ tb <= ta.
Proof.
  intros Hb Hwf i j a b Hij Ha Hbb.
  destruct (lookup_pair_split _ _ _ _ _ Hij Ha Hbb) as (l1 & l2 & l3 & Hout).
  pose proof (computeRunningBalances_forget host txs) as Hf.
  rewrite Hout in Hf.
  apply (f_equal (@rev _)) in Hf. rewrite rev_involutive in Hf.
  rewrite !map_app in Hf. cbn [map] in Hf. rewrite map_app in Hf. cbn [map] in Hf.
  rewrite rev_app_distr in Hf. cbn [rev] in Hf.
  rewrite rev_app_distr in Hf. cbn [rev] in Hf.
  rewrite <- !app_assoc in Hf. cbn [app] in Hf.
  pose proof (sortedAsc_ascending host Hb txs Hwf) as Hs.
  assert (Hall : Forall (fun tx => wellFormed tx = true)
                   (JS.arraySort (byDateTime host) txs)).
  { eapply Permutation_Forall; [symmetry; apply arraySort_perm | exact Hwf]. }
  rewrite <- Hf in Hs, Hall.
  apply StronglySorted_pair in Hs. unfold ascendingBy in Hs.
  apply Forall_app in Hall. destruct Hall as [_ Hall].
  inversion Hall as [|? ? Wb Hall']; subst.
  apply Forall_app in Hall'. destruct Hall' as [_ Hall'].
  inversion Hall' as [|? ? Wa _]; subst.
  exists (instant host (forget a)), (instant host (forget b)).
  split; [now apply timestamp_wellFormed|].
  split; [now apply timestamp_wellFormed|]. exact Hs.
Qed.

(** The property on the night the clocks of [NewYork2024] go forward: the
    entry of 02:30 stands above the entry of 03:00, and its instant is the
    later one. *)
Lemma output_descends_by_timestamp_witness :
  exists (a b : TransactionWithBalance.t float) (ta tb : Z),
    computeRunningBalances NewYork2024 springForwardTxs !! 0%nat = Some a
    /\ computeRunningBalances NewYork2024 springForwardTxs !! 1%nat = Some b
    /\ timestamp NewYork2024 (forget a) = Some ta
    /\ timestamp NewYork2024 (forget b) = Some tb
    /\ tb <= ta.
Proof.
  eexists _, _.
  assert (Hb : boundedOffsets NewYork2024).
  { intros t. unfold JS.msPerDay. simpl. destruct (t <? _); lia. }
  destruct (output_descends_by_timestamp (num := float) NewYork2024
              springForwardTxs Hb ltac:(repeat constructor) 0%nat 1%nat _ _
              ltac:(lia) eq_refl eq_refl) as (ta & tb & Ha & Hbb & Hle).
  exists ta, tb. repeat split; assumption.
Defined.

(** X3: entries with the same timestamp keep their order through the sort
    and are turned around by the final reversal: on a host that keeps its
    offsets below a day and for valid dates and times, the entries of the
    output at any one instant are those of the input at that instant, in
    the opposite order. *)
Theorem equal_timestamps_come_out_reversed {num : Type} `{Number num}
    (host : JS.Host) (txs : list (Transaction.t num)) (t : Z) :
  boundedOffsets host ->
  Forall (fun tx => wellFormed tx = true) txs ->
  List.filter (atInstant host t) (map forget (computeRunningBalances host txs))
  = rev (List.filter (atInstant host t) txs).
Proof.
  intros Hb Hwf.
  assert (Hkey : forall l : list (Transaction.t num),
            Forall (fun tx => wellFormed tx = true) l ->
            List.filter (atInstant host t) l
            = List.filter (fun tx => instant host tx =? t) l).
  { intros l Hl. apply filter_ext_in. intros tx Hin.
    rewrite List.Forall_forall in Hl. unfold atInstant.
    now rewrite (timestamp_wellFormed host Hb tx (Hl tx Hin)). }
  rewrite computeRunningBalances_forget, filter_rev. f_equal.
  rewrite Hkey.
  - rewrite (arraySort_ties (byDateTime host) (instant host)
               (fun tx => wellFormed tx = true) (byDateTime_instant host Hb) t txs Hwf).
    symmetry. now apply Hkey.
  - eapply Permutation_Forall; [symmetry; apply arraySort_perm | exact Hwf].
Qed.

Lemma equal_timestamps_come_out_reversed_witness :
  List.filter (atInstant IST 1704079800000)
    (map forget (computeRunningBalances IST sameMinuteTxs))
  = rev (List.filter (atInstant IST 1704079800000) sameMinuteTxs).
Proof.
  apply (equal_timestamps_come_out_reversed (num := Z) IST sameMinuteTxs).
  - intros t. unfold JS.msPerDay. simpl. lia.
  - repeat constructor.
Defined.

(** X4: in exact arithmetic the totals of a book do not depend on the
    order in which its entries are fetched. *)
Theorem book_totals_ignore_entry_order {num : Type} `{ExactNumber num}
    (host : JS.Host) (ledger : LedgerRow.t num) (es es' : list (EntryRow.t num)) :
  LedgerRow.entries ledger = Some es ->
  Permutation es es' ->
  getBookTotals host
    (Some (LedgerRow.mk (LedgerRow.id ledger) (LedgerRow.project_id ledger)
             (LedgerRow.name ledger) (LedgerRow.created_at ledger) (Some es')))
  = getBookTotals host (Some ledger).
Proof.
  intros He Hp. unfold getBookTotals, bookOfLedger. cbn. rewrite He.
  unfold sumEntries. now rewrite (fold_addEntry_perm es es' Hp).
Qed.

Lemma book_totals_ignore_entry_order_witness :
  getBookTotals IST
    (Some (LedgerRow.mk "book-1" "business-1" "Cash" "2024-01-01T03:30:00+00:00"
             (Some (rev scenario1))))
  = getBookTotals IST (Some (sampleLedger scenario1)).
Proof.
  apply (book_totals_ignore_entry_order (num := Z) IST (sampleLedger scenario1)
           scenario1 (rev scenario1) eq_refl).
  apply Permutation_rev.
Defined.

Section SumFacts.
Context {num : Type} `{ExactNumber num}.

Lemma fold_add_shift {A : Type} (f : A -> num) (l : list A) (r c : num) :
  fold_left (fun sum b => add sum (f b)) l (add r c)
  = add (fold_left (fun sum b => add sum (f b)) l r) c.
Proof.
  revert r. induction l as [|x l IH]; intros r; simpl.
  - reflexivity.
  - rewrite <- IH. f_equal.
    rewrite !add_assoc. f_equal. apply add_comm.
Qed.

Lemma sumOf_perm {A : Type} (f : A -> num) (l l' : list A) :
  Permutation l l' -> forall r,
  fold_left (fun sum b => add sum (f b)) l r
  = fold_left (fun sum b => add sum (f b)) l' r.
Proof.
  induction 1 as [|x l l' _ IH|x y l|l l' l'' _ IH1 _ IH2]; intros r; simpl.
  - reflexivity.
  - apply IH.
  - f_equal. rewrite !add_assoc. f_equal. apply add_comm.
  - now rewrite IH1.
Qed.

(** The sum of differences is the difference of the sums. *)
Lemma fold_sub {A : Type} (fi fo fb : A -> num) (l : list A) (i o : num) :
  Forall (fun x => fb x = sub (fi x) (fo x)) l ->
  fold_left (fun sum b => add sum (fb b)) l (sub i o)
  = sub (fold_left (fun sum b => add sum (fi b)) l i)
        (fold_left (fun sum b => add sum (fo b)) l o).
Proof.
  intros Hl. revert i o. induction Hl as [|x l Hx _ IH]; intros i o; simpl.
  - reflexivity.
  - rewrite <- IH. f_equal. rewrite Hx.
    apply (add_cancel_r _ _ (add o (fo x))).
    rewrite sub_add.
    rewrite (add_comm o (fo x)).
    rewrite add_assoc, <- (add_assoc (sub (fi x) (fo x)) (fo x) o), sub_add.
    rewrite <- add_assoc, (add_comm (sub i o) (fi x)), add_assoc, sub_add.
    apply add_comm.
Qed.

Lemma zero_is_difference : (zero : num) = sub zero zero.
Proof. symmetry. apply sub_zero_r. Qed.
End SumFacts.

Section BusinessFacts.
Context {num : Type} `{Number num}.
Variable host : JS.Host.

Lemma businessOfProject_books (isShared : bool) (b : ProjectRow.t num)
    (ledgers : list (LedgerRow.t num)) :
  ProjectRow.ledgers b = Some ledgers ->
  BusinessWithTotals.books (businessOfProject host isShared b)
  = JS.arraySort newestFirst (map (bookInBusiness host (ProjectRow.id b)) ledgers).
Proof.
  intros E. unfold businessOfProject. rewrite E, fold_ledgerStep. reflexivity.
Qed.

Lemma businessOfProject_balance (isShared : bool) (b : ProjectRow.t num) :
  BusinessWithTotals.balance (businessOfProject host isShared b)
  = sub (BusinessWithTotals.totalIn (businessOfProject host isShared b))
        (BusinessWithTotals.totalOut (businessOfProject host isShared b)).
Proof.
  unfold businessOfProject.
  destruct (ProjectRow.ledgers b) as [ledgers|]; [|reflexivity].
  rewrite fold_ledgerStep. reflexivity.
Qed.

Lemma bookInBusiness_fields (bid : string) (l : LedgerRow.t num) :
  BookWithTotals.totalIn (bookInBusiness host bid l)
  = BookWithTotals.totalIn (bookOfLedger host l)
  /\ BookWithTotals.totalOut (bookInBusiness host bid l)
     = BookWithTotals.totalOut (bookOfLedger host l)
  /\ BookWithTotals.balance (bookInBusiness host bid l)
     = sub (BookWithTotals.totalIn (bookInBusiness host bid l))
           (BookWithTotals.totalOut (bookInBusiness host bid l))
  /\ BookWithTotals.createdAt (bookInBusiness host bid l)
     = JS.getTime host (LedgerRow.created_at l).
Proof.
  unfold bookInBusiness, bookOfLedger.
  destruct (sumEntries (LedgerRow.entries l)). now simpl.
Qed.

Lemma bookInBusiness_sums (bid : string) (ledgers : list (LedgerRow.t num))
    (i o : num) :
  fold_left (fun sum b => add sum (BookWithTotals.totalIn b))
    (map (bookInBusiness host bid) ledgers) i
  = fold_left (fun sum b => add sum (BookWithTotals.totalIn b))
      (map (bookOfLedger host) ledgers) i
  /\ fold_left (fun sum b => add sum (BookWithTotals.totalOut b))
       (map (bookInBusiness host bid) ledgers) o
     = fold_left (fun sum b => add sum (BookWithTotals.totalOut b))
         (map (bookOfLedger host) ledgers) o.
Proof.
  revert i o. induction ledgers as [|l ledgers IH]; intros i o; simpl.
  - now split.
  - destruct (bookInBusiness_fields bid l) as (-> & -> & _). apply IH.
Qed.
End BusinessFacts.

(** X5: the books attached to a business summary are ordered newest first:
    when the creation time of every ledger is a number, a book's
    [createdAt] is never earlier than that of any book after it. *)
Theorem business_books_newest_first {num : Type} `{Number num}
    (host : JS.Host) (isShared : bool) (b : ProjectRow.t num)
    (ledgers : list (LedgerRow.t num)) :
  ProjectRow.ledgers b = Some ledgers ->
  Forall (fun l => JS.getTime host (LedgerRow.created_at l) <> None) ledgers ->
  forall (i j : nat) (x y : BookWithTotals.t num),
    (i < j)%nat ->
    BusinessWithTotals.books (businessOfProject host isShared b) !! i = Some x ->
    BusinessWithTotals.books (businessOfProject host isShared b) !! j = Some y ->
    exists tx ty : Z,
      BookWithTotals.createdAt x = Some tx
      /\ BookWithTotals.createdAt y = Some ty
      /\ ty <= tx.
Proof.
  intros E Hall i j x y Hij Hx Hy.
  rewrite (businessOfProject_books host isShared b ledgers E) in Hx, Hy.
  set (P := fun bk : BookWithTotals.t num => BookWithTotals.createdAt bk <> None).
  set (key := fun bk : BookWithTotals.t num =>
                - default 0 (BookWithTotals.createdAt bk)).
  assert (Hcmp : forall a c, P a -> P c -> newestFirst a c = Some (key a - key c)).
  { intros a c Pa Pc. unfold newestFirst, key, P in *.
    destruct (BookWithTotals.createdAt a) as [ta|]; [|contradiction].
    destruct (BookWithTotals.createdAt c) as [tc|]; [|contradiction].
    simpl. f_equal. lia. }
  assert (HP : Forall P (map (bookInBusiness host (ProjectRow.id b)) ledgers)).
  { apply Forall_map. eapply Forall_impl; [exact Hall|].
    intros l Hl. unfold P.
    destruct (bookInBusiness_fields host (ProjectRow.id b) l) as (_ & _ & _ & ->).
    exact Hl. }
  pose proof (arraySort_sorted newestFirst key P Hcmp _ HP) as Hs.
  assert (HP' : Forall P (JS.arraySort newestFirst
                            (map (bookInBusiness host (ProjectRow.id b)) ledgers))).
  { eapply Permutation_Forall; [symmetry; apply arraySort_perm | exact HP]. }
  destruct (lookup_pair_split _ _ _ _ _ Hij Hx Hy) as (l1 & l2 & l3 & Hout).
  rewrite Hout in Hs, HP'.
  apply StronglySorted_pair in Hs. unfold ascendingBy, key in Hs.
  apply Forall_app in HP'. destruct HP' as [_ HP'].
  inversion HP' as [|? ? Px HP'']; subst.
  apply Forall_app in HP''. destruct HP'' as [_ HP''].
  inversion HP'' as [|? ? Py _]; subst.
  unfold P in Px, Py.
  destruct (BookWithTotals.createdAt x) as [tx|]; [|contradiction].
  destruct (BookWithTotals.createdAt y) as [ty|]; [|contradiction].
  exists tx, ty. simpl in Hs. repeat split. lia.
Qed.

Lemma business_books_newest_first_witness :
  exists (x y : BookWithTotals.t Z) (tx ty : Z),
    BusinessWithTotals.books
      (businessOfProject IST false (sampleProject (Some twoLedgers))) !! 0%nat = Some x
    /\ BusinessWithTotals.books
         (businessOfProject IST false (sampleProject (Some twoLedgers))) !! 1%nat = Some y
    /\ BookWithTotals.name x = "Bank"
    /\ BookWithTotals.createdAt x = Some tx
    /\ BookWithTotals.createdAt y = Some ty
    /\ ty <= tx.
Proof.
  eexists _, _.
  destruct (business_books_newest_first (num := Z) IST false
              (sampleProject (Some twoLedgers)) twoLedgers eq_refl
              ltac:(repeat constructor; discriminate) 0%nat 1%nat _ _
              ltac:(lia) eq_refl eq_refl) as (tx & ty & Hx & Hy & Hle).
  exists tx, ty. repeat split; assumption.
Defined.

(** X6: in exact arithmetic the balance of a business is the sum of the
    balances of the books attached to it. *)
Theorem business_balance_is_sum_of_book_balances {num : Type} `{ExactNumber num}
    (host : JS.Host) (isShared : bool) (b : ProjectRow.t num) :
  BusinessWithTotals.balance (businessOfProject host isShared b)
  = sumOf BookWithTotals.balance
      (BusinessWithTotals.books (businessOfProject host isShared b)).
Proof.
  unfold businessOfProject, sumOf.
  destruct (ProjectRow.ledgers b) as [ledgers|]; simpl.
  - rewrite fold_ledgerStep. simpl.
    rewrite (sumOf_perm BookWithTotals.balance _ _
               (arraySort_perm newestFirst
                  (map (bookInBusiness host (ProjectRow.id b)) ledgers))).
    rewrite zero_is_difference at 3.
    rewrite (fold_sub BookWithTotals.totalIn BookWithTotals.totalOut
               BookWithTotals.balance).
    + now destruct (bookInBusiness_sums host (ProjectRow.id b) ledgers zero zero)
        as (-> & ->).
    + apply Forall_map, Forall_forall. intros l _.
      now destruct (bookInBusiness_fields host (ProjectRow.id b) l) as (_ & _ & -> & _).
  - apply sub_zero_r.
Qed.

Lemma business_balance_is_sum_of_book_balances_witness :
  BusinessWithTotals.balance
    (businessOfProject IST false (sampleProject (Some twoLedgers)))
  = sumOf BookWithTotals.balance
      (BusinessWithTotals.books
         (businessOfProject IST false (sampleProject (Some twoLedgers)))).
Proof.
  exact (business_balance_is_sum_of_book_balances (num := Z) IST false
           (sampleProject (Some twoLedgers))).
Defined.

(** X7: in exact arithmetic the three figures at the top of the dashboard
    agree: the total balance over the businesses that [getBusinesses]
    returns is the total in less the total out. *)
Theorem dashboard_balance_is_in_less_out {num : Type} `{ExactNumber num}
    (host : JS.Host) (ownedData sharedData : option (list (ProjectRow.t num))) :
  DashboardView.totalBalance (getBusinesses host ownedData sharedData)
  = sub (DashboardView.totalIn (getBusinesses host ownedData sharedData))
        (DashboardView.totalOut (getBusinesses host ownedData sharedData)).
Proof.
  unfold DashboardView.totalBalance, DashboardView.totalIn, DashboardView.totalOut.
  rewrite zero_is_difference at 1.
  apply fold_sub. unfold getBusinesses.
  apply Forall_app; split; apply Forall_map, Forall_forall; intros b _;
    apply businessOfProject_balance.
Qed.

Lemma dashboard_balance_is_in_less_out_witness :
  DashboardView.totalBalance
    (getBusinesses IST (Some [sampleProject (Some twoLedgers)])
                       (Some [sampleProject (Some [sampleLedger scenario1])]))
  = sub (DashboardView.totalIn
           (getBusinesses IST (Some [sampleProject (Some twoLedgers)])
                              (Some [sampleProject (Some [sampleLedger scenario1])])))
        (DashboardView.totalOut
           (getBusinesses IST (Some [sampleProject (Some twoLedgers)])
                              (Some [sampleProject (Some [sampleLedger scenario1])]))).
Proof.
  exact (dashboard_balance_is_in_less_out (num := Z) IST
           (Some [sampleProject (Some twoLedgers)])
           (Some [sampleProject (Some [sampleLedger scenario1])])).
Defined.

Section SortedFacts.
Context {A : Type}.

Lemma StronglySorted_of_pairs (R : A -> A -> Prop) (l : list A) :
  (forall l1 l2 l3 x y, l = l1 ++ x :: l2 ++ y :: l3 -> R x y) ->
  StronglySorted R l.
Proof.
  induction l as [|z l IH]; intros Hp; constructor.
  - apply IH. intros l1 l2 l3 x y ->. now apply (Hp (z :: l1) l2 l3).
  - apply List.Forall_forall. intros y Hy.
    apply in_split in Hy. destruct Hy as (l2 & l3 & ->).
    now apply (Hp [] l2 l3).
Qed.

Lemma StronglySorted_filter (R : A -> A -> Prop) (f : A -> bool) (l : list A) :
  StronglySorted R l -> StronglySorted R (List.filter f l).
Proof.
  induction 1 as [|x l Hs IH Hx]; simpl; [constructor|].
  destruct (f x); [|exact IH].
  constructor; [exact IH|].
  apply List.Forall_forall. intros y Hy. apply filter_In in Hy.
  rewrite List.Forall_forall in Hx. now apply Hx.
Qed.

Lemma filter_sublist (f : A -> bool) (l : list A) : sublist (List.filter f l) l.
Proof.
  induction l as [|x l IH]; simpl; [constructor|].
  destruct (f x); now constructor.
Qed.
End SortedFacts.

Section OutputOrderFacts.
Context {num : Type} `{Number num}.
Variable host : JS.Host.
Hypothesis Hbounded : boundedOffsets host.

(** Of two entries of the output, the upper one has the later or the same
    instant. *)
Lemma output_pair (txs : list (Transaction.t num))
    (l1 l2 l3 : list (TransactionWithBalance.t num))
    (a b : TransactionWithBalance.t num) :
  Forall (fun tx => wellFormed tx = true) txs ->
  computeRunningBalances host txs = l1 ++ a :: l2 ++ b :: l3 ->
  wellFormed (forget a) = true /\ wellFormed (forget b) = true
  /\ instant host (forget b) <= instant host (forget a).
Proof.
  intros Hwf Hout.
  pose proof (computeRunningBalances_forget host txs) as Hf.
  rewrite Hout in Hf.
  apply (f_equal (@rev _)) in Hf. rewrite rev_involutive in Hf.
  rewrite !map_app in Hf. cbn [map] in Hf. rewrite map_app in Hf. cbn [map] in Hf.
  rewrite rev_app_distr in Hf. cbn [rev] in Hf.
  rewrite rev_app_distr in Hf. cbn [rev] in Hf.
  rewrite <- !app_assoc in Hf. cbn [app] in Hf.
  pose proof (sortedAsc_ascending host Hbounded txs Hwf) as Hs.
  assert (Hall : Forall (fun tx => wellFormed tx = true)
                   (JS.arraySort (byDateTime host) txs)).
  { eapply Permutation_Forall; [symmetry; apply arraySort_perm | exact Hwf]. }
  rewrite <- Hf in Hs, Hall.
  apply StronglySorted_pair in Hs. unfold ascendingBy in Hs.
  apply Forall_app in Hall. destruct Hall as [_ Hall].
  inversion Hall as [|? ? Wb Hall']; subst.
  apply Forall_app in Hall'. destruct Hall' as [_ Hall'].
  inversion Hall' as [|? ? Wa _]; subst.
  now repeat split.
Qed.

Hypothesis Hclock : increasingClock host.

Lemma output_sorted (txs : list (Transaction.t num)) :
  Forall (fun tx => wellFormed tx = true) txs ->
  StronglySorted notBefore (computeRunningBalances host txs).
Proof.
  intros Hwf. apply StronglySorted_of_pairs. intros l1 l2 l3 a b Hout.
  destruct (output_pair txs l1 l2 l3 a b Hwf Hout) as (Wa & Wb & Hle).
  now apply (instant_le_notBefore host Hclock a b Wa Wb).
Qed.
End OutputOrderFacts.

Lemma strLt_irrefl (s : string) : ~ strLt s s.
Proof.
  unfold strLt. intros E. pose proof (String.compare_antisym s s) as Ha.
  rewrite E in Ha. discriminate.
Qed.

Lemma strLt_asym (s1 s2 : string) : strLt s1 s2 -> ~ strLt s2 s1.
Proof.
  unfold strLt. intros E E'. pose proof (String.compare_antisym s1 s2) as Ha.
  rewrite E, E' in Ha. discriminate.
Qed.

(** X8: with no search term, type ['ALL'] and no date bounds, the book view
    shows every transaction, whatever the engine's [toLowerCase] and number
    formatting do. *)
Theorem default_filters_show_everything {num : Type}
    (toLowerCase : string -> string) (numberToString : num -> string)
    (transactions : list (TransactionWithBalance.t num)) :
  BookDetailView.filteredTransactions toLowerCase numberToString "" "ALL" "" ""
    transactions
  = transactions.
Proof.
  unfold BookDetailView.filteredTransactions.
  apply forallb_filter_id, forallb_forall. intros t _.
  unfold BookDetailView.matchesFilters.
  assert (E : BookDetailView.includes
                (numberToString (TransactionWithBalance.amount t)) "" = true)
    by (destruct (numberToString (TransactionWithBalance.amount t)); reflexivity).
  rewrite E, orb_true_r. reflexivity.
Qed.

(** X9: the filter only hides entries.  What the book view shows is a
    sub-list of the transactions in their order, each entry as it was, with
    the running balance computed over the whole book; and every entry shown
    has the selected type, unless the type is ['ALL'], and a date that is
    not before a non-empty [dateStart] and not after a non-empty
    [dateEnd]. *)
Theorem filter_only_hides {num : Type}
    (toLowerCase : string -> string) (numberToString : num -> string)
    (searchTerm filterType dateStart dateEnd : string)
    (transactions : list (TransactionWithBalance.t num)) :
  sublist
    (BookDetailView.filteredTransactions toLowerCase numberToString
       searchTerm filterType dateStart dateEnd transactions)
    transactions
  /\ Forall (fun t =>
               (filterType = "ALL" \/ TransactionWithBalance.type t = filterType)
               /\ (dateStart <> "" -> ~ strLt (TransactionWithBalance.date t) dateStart)
               /\ (dateEnd <> "" -> ~ strLt dateEnd (TransactionWithBalance.date t)))
       (BookDetailView.filteredTransactions toLowerCase numberToString
          searchTerm filterType dateStart dateEnd transactions).
Proof.
  split; [apply filter_sublist|].
  apply List.Forall_forall. intros t Ht.
  apply filter_In in Ht. destruct Ht as [_ Ht].
  unfold BookDetailView.matchesFilters, BookDetailView.truthy in Ht.
  apply andb_prop in Ht. destruct Ht as [Ht Hdate].
  apply andb_prop in Ht. destruct Ht as [_ Htype].
  split; [|split].
  - apply orb_prop in Htype. destruct Htype as [E|E];
      apply String.eqb_eq in E; [now left | now right].
  - intros Hne Hlt. unfold strLt in Hlt.
    destruct (String.eqb_spec dateStart ""); [contradiction|].
    unfold String.ltb in Hdate. rewrite Hlt in Hdate. simpl in Hdate.
    destruct (negb (dateEnd =? "")%string && _); discriminate.
  - intros Hne Hlt. unfold strLt in Hlt.
    destruct (String.eqb_spec dateEnd ""); [contradiction|].
    unfold String.ltb in Hdate. rewrite Hlt in Hdate. simpl in Hdate.
    discriminate.
Qed.

(** X10: in the book view no date gets two headers.  On a host whose clock
    never skips local time and for valid dates and times, whatever the
    filters, an entry of the shown list that starts a date group has a date
    different from that of every entry above it. *)
Theorem each_date_has_one_header {num : Type} `{Number num}
    (host : JS.Host) (txs : list (Transaction.t num))
    (toLowerCase : string -> string) (numberToString : num -> string)
    (searchTerm filterType dateStart dateEnd : string) :
  boundedOffsets host -> increasingClock host ->
  Forall (fun tx => wellFormed tx = true) txs ->
  forall (i j : nat) (a b : TransactionWithBalance.t num),
    (i < j)%nat ->
    BookDetailView.filteredTransactions toLowerCase numberToString
      searchTerm filterType dateStart dateEnd
      (computeRunningBalances host txs) !! i = Some a ->
    BookDetailView.filteredTransactions toLowerCase numberToString
      searchTerm filterType dateStart dateEnd
      (computeRunningBalances host txs) !! j = Some b ->
    BookDetailView.isDateHeader
      (BookDetailView.filteredTransactions toLowerCase numberToString
         searchTerm filterType dateStart dateEnd
         (computeRunningBalances host txs)) j b = Some true ->
    TransactionWithBalance.date a <> TransactionWithBalance.date b.
Proof.
  intros Hb Hc Hwf i j a b Hij Ha Hbb Hhead.
  set (shown := BookDetailView.filteredTransactions toLowerCase numberToString
                  searchTerm filterType dateStart dateEnd
                  (computeRunningBalances host txs)) in *.
  assert (Hs : StronglySorted notBefore shown).
  { apply StronglySorted_filter. now apply output_sorted. }
  destruct j as [|k]; [lia|].
  unfold BookDetailView.isDateHeader in Hhead.
  destruct (shown !! k) as [p|] eqn:Hp; [|discriminate].
  injection Hhead as Hhead. apply negb_true_iff in Hhead.
  apply String.eqb_neq in Hhead.
  assert (Hpb : notBefore p b).
  { destruct (lookup_pair_split shown k (S k) p b ltac:(lia) Hp Hbb)
      as (l1 & l2 & l3 & E).
    rewrite E in Hs. now apply StronglySorted_pair in Hs. }
  destruct Hpb as [Hpb | [Hpb _]]; [|now symmetry in Hpb].
  destruct (Nat.eq_dec i k) as [->|Hik].
  - rewrite Hp in Ha. injection Ha as ->. intros E. now symmetry in E.
  - assert (Hap : notBefore a p).
    { destruct (lookup_pair_split shown i k a p ltac:(lia) Ha Hp)
        as (l1 & l2 & l3 & E).
      rewrite E in Hs. now apply StronglySorted_pair in Hs. }
    intros E. rewrite <- E in Hpb.
    destruct Hap as [Hap | [Hap _]].
    + exact (strLt_asym _ _ Hpb Hap).
    + rewrite Hap in Hpb. exact (strLt_irrefl _ Hpb).
Qed.

Lemma each_date_has_one_header_witness :
  exists a b : TransactionWithBalance.t Z,
    BookDetailView.filteredTransactions (fun s => s) toString "" "ALL" "" ""
      (computeRunningBalances IST (map (transactionOfRow IST) scenario1)) !! 0%nat
    = Some a
    /\ BookDetailView.filteredTransactions (fun s => s) toString "" "ALL" "" ""
         (computeRunningBalances IST (map (transactionOfRow IST) scenario1)) !! 1%nat
       = Some b
    /\ TransactionWithBalance.date a <> TransactionWithBalance.date b.
Proof.
  eexists _, _. split; [reflexivity|]. split; [reflexivity|].
  apply (each_date_has_one_header (num := Z) IST
           (map (transactionOfRow IST) scenario1) (fun s => s) toString
           "" "ALL" "" "") with (i := 0%nat) (j := 1%nat).
  - intros t. unfold JS.msPerDay. simpl. lia.
  - intros t1 t2 Hlt. unfold JS.UTC. simpl. lia.
  - repeat constructor.
  - lia.
  - reflexivity.
  - reflexivity.
  - reflexivity.
Defined.

Section TimePickerFacts.
Import JS.

Lemma digit_is_digitChar (c : ascii) (v : Z) :
  digit c = Some v -> c = digitChar v.
Proof.
  intros Hd. apply digit_inv in Hd. destruct Hd as [Hr Hc].
  unfold digitChar. rewrite <- Hc, N2Z.id. symmetry. apply ascii_N_embedding.
Qed.

Lemma digit_not_colon (c : ascii) (v : Z) :
  digit c = Some v -> Ascii.eqb c ":" = false.
Proof.
  intros Hd. apply digit_inv in Hd. destruct Hd as [Hr Hc].
  apply Ascii.eqb_neq. intros ->. simpl in Hc. lia.
Qed.

Lemma parseHM_build (c1 c2 c3 c4 : ascii) (v1 v2 v3 v4 : Z) :
  digit c1 = Some v1 -> digit c2 = Some v2 ->
  digit c3 = Some v3 -> digit c4 = Some v4 ->
  10 * v1 + v2 <= 23 -> 10 * v3 + v4 <= 59 ->
  parseHM (String c1 (String c2 (String ":" (String c3 (String c4 "")))))
  = Some (10 * v1 + v2, 10 * v3 + v4).
Proof.
  intros H1 H2 H3 H4 Hh Hm. unfold parseHM, digits2. simpl.
  rewrite H1, H2, H3, H4.
  destruct (Z.leb_spec (10 * v1 + v2) 23); [|lia].
  destruct (Z.leb_spec (10 * v3 + v4) 59); [|lia].
  reflexivity.
Qed.

Lemma split_time (c1 c2 c3 c4 : ascii) (v1 v2 v3 v4 : Z) :
  digit c1 = Some v1 -> digit c2 = Some v2 ->
  digit c3 = Some v3 -> digit c4 = Some v4 ->
  JSString.split ":"
    (String c1 (String c2 (String ":" (String c3 (String c4 "")))))
  = [String c1 (String c2 ""); String c3 (String c4 "")].
Proof.
  intros H1 H2 H3 H4. simpl.
  rewrite (digit_not_colon _ _ H1), (digit_not_colon _ _ H2),
    (digit_not_colon _ _ H3), (digit_not_colon _ _ H4).
  reflexivity.
Qed.
End TimePickerFacts.

(** X11: the hour buttons of the time picker keep the time valid.  There are
    24 of them; from a valid [HH:mm] value, the button at place [i] gives
    the valid time with hour [i] and the minutes unchanged. *)
Theorem hour_buttons_keep_the_time_valid (value : string) (hh mm : Z) :
  JS.parseHM value = Some (hh, mm) ->
  length ModernTimePicker.hoursList = 24%nat
  /\ forall (i : nat) (h : string),
       ModernTimePicker.hoursList !! i = Some h ->
       JS.parseHM (ModernTimePicker.handleHourClick value h)
       = Some (Z.of_nat i, mm).
Proof.
  intros Hv. split; [reflexivity|].
  apply parseHM_view in Hv.
  destruct Hv as [c1 c2 c3 c4 v1 v2 v3 v4 H1 H2 H3 H4 Hh Hm].
  intros i h Hi.
  unfold ModernTimePicker.handleHourClick, ModernTimePicker.minutes.
  rewrite (split_time _ _ _ _ _ _ _ _ H1 H2 H3 H4).
  simpl lookup. unfold ModernTimePicker.shown, default. simpl from_option.
  assert (Hlt : (i < 24)%nat) by (apply lookup_lt_Some in Hi; exact Hi).
  let l := eval vm_compute in ModernTimePicker.hoursList in
    change ModernTimePicker.hoursList with l in Hi.
  do 24 (destruct i as [|i];
         [ injection Hi as <-; unfold id, String.append;
           erewrite parseHM_build; cycle 1;
           [ vm_compute; reflexivity | vm_compute; reflexivity
           | exact H3 | exact H4 | lia | exact Hm | reflexivity ] |]).
  lia.
Qed.

Lemma hour_buttons_keep_the_time_valid_witness :
  length ModernTimePicker.hoursList = 24%nat
  /\ forall (i : nat) (h : string),
       ModernTimePicker.hoursList !! i = Some h ->
       JS.parseHM (ModernTimePicker.handleHourClick "09:30" h)
       = Some (Z.of_nat i, 30).
Proof.
  exact (hour_buttons_keep_the_time_valid "09:30" 9 30 eq_refl).
Defined.

Section MinuteFacts.
Import JS.

Lemma ascendingStrings_sound (l : list string) :
  ascendingStrings l = true -> StronglySorted strLt l.
Proof.
  induction l as [|x l IH]; simpl; intros E; constructor.
  - apply andb_prop in E. now apply IH.
  - apply andb_prop in E. destruct E as [E _].
    rewrite forallb_forall in E. apply List.Forall_forall. intros y Hy.
    specialize (E y Hy). unfold String.ltb in E. unfold strLt.
    now destruct (String.compare x y).
Qed.

Lemma minute_click (c1 c2 : ascii) (v1 v2 : Z) (m : string) (v : Z) :
  digit c1 = Some v1 -> digit c2 = Some v2 -> 10 * v1 + v2 <= 23 ->
  minuteValue m = Some v ->
  parseHM (String c1 (String c2 (String ":" m))) = Some (10 * v1 + v2, v).
Proof.
  intros H1 H2 Hh Hm. unfold minuteValue in Hm.
  destruct m as [|a [|b [|? ?]]]; try discriminate.
  destruct (digits2 a b) as [w|] eqn:Ed; [|discriminate].
  destruct (Z.leb_spec w 59) as [Hw|]; [|discriminate].
  injection Hm as ->.
  apply digits2_inv in Ed. destruct Ed as (x & y & Hx & Hy & ->).
  now apply parseHM_build.
Qed.

Lemma minute_buttons (c1 c2 : ascii) (v1 v2 mm : Z) (strs : list string) :
  digit c1 = Some v1 -> digit c2 = Some v2 -> 10 * v1 + v2 <= 23 ->
  forallb (fun m => match minuteValue m with
                    | Some v => (v =? mm) || (v mod 5 =? 0)
                    | None => false
                    end) strs = true ->
  Forall (fun m => exists v,
            parseHM (String c1 (String c2 (String ":" m))) = Some (10 * v1 + v2, v)
            /\ (v = mm \/ v mod 5 = 0)) strs.
Proof.
  intros H1 H2 Hh E. rewrite forallb_forall in E.
  apply List.Forall_forall. intros m Hin. specialize (E m Hin).
  destruct (minuteValue m) as [v|] eqn:Ev; [|discriminate].
  exists v. split; [now apply minute_click|].
  apply orb_prop in E. destruct E as [E|E]; [left | right]; now apply Z.eqb_eq.
Qed.
End MinuteFacts.

(** X12: the minute buttons of the time picker keep the time valid.  From
    a valid [HH:mm] value the list of buttons holds strings only, in
    strictly ascending order, the current minutes among them; and each
    button gives a valid time with the hour unchanged, whose minutes are the
    current ones or a multiple of five. *)
Theorem minute_buttons_keep_the_time_valid (value : string) (hh mm : Z) :
  JS.parseHM value = Some (hh, mm) ->
  exists strs : list string,
    ModernTimePicker.minutesList value = map Some strs
    /\ In (ModernTimePicker.minutes value) (map Some strs)
    /\ StronglySorted strLt strs
    /\ Forall (fun m => exists mm' : Z,
                 JS.parseHM (ModernTimePicker.handleMinuteClick value (Some m))
                 = Some (hh, mm')
                 /\ (mm' = mm \/ mm' mod 5 = 0)) strs.
Proof.
  intros Hv. apply parseHM_view in Hv.
  destruct Hv as [c1 c2 c3 c4 v1 v2 v3 v4 H1 H2 H3 H4 Hh Hm].
  unfold ModernTimePicker.minutesList, ModernTimePicker.handleMinuteClick,
    ModernTimePicker.minutes, ModernTimePicker.hours.
  rewrite (split_time _ _ _ _ _ _ _ _ H1 H2 H3 H4).
  simpl lookup. unfold ModernTimePicker.shown, default. simpl from_option.
  unfold id, String.append.
  pose proof (proj1 (digit_inv _ _ H3)) as R3.
  pose proof (proj1 (digit_inv _ _ H4)) as R4.
  apply digit_is_digitChar in H3, H4. subst c3 c4.
  assert (C3 : v3 = 0 \/ v3 = 1 \/ v3 = 2 \/ v3 = 3 \/ v3 = 4 \/ v3 = 5) by lia.
  assert (C4 : v4 = 0 \/ v4 = 1 \/ v4 = 2 \/ v4 = 3 \/ v4 = 4 \/ v4 = 5
               \/ v4 = 6 \/ v4 = 7 \/ v4 = 8 \/ v4 = 9) by lia.
  clear R3 R4 Hm.
  repeat (destruct C3 as [C3|C3]); repeat (destruct C4 as [C4|C4]); subst v3 v4;
    match goal with
    | |- exists strs, ?L = map Some strs /\ _ =>
        let l := eval vm_compute in L in
        exists (map ModernTimePicker.shown l)
    end;
    (split; [vm_compute; reflexivity|]);
    (split; [vm_compute; tauto|]);
    (split; [apply ascendingStrings_sound; vm_compute; reflexivity|]);
    apply (minute_buttons c1 c2 v1 v2 _ _ H1 H2 Hh); vm_compute; reflexivity.
Qed.

Lemma minute_buttons_keep_the_time_valid_witness :
  exists strs : list string,
    ModernTimePicker.minutesList "09:32" = map Some strs
    /\ In (ModernTimePicker.minutes "09:32") (map Some strs)
    /\ StronglySorted strLt strs
    /\ Forall (fun m => exists mm' : Z,
                 JS.parseHM (ModernTimePicker.handleMinuteClick "09:32" (Some m))
                 = Some (9, mm')
                 /\ (mm' = 32 \/ mm' mod 5 = 0)) strs.
Proof.
  exact (minute_buttons_keep_the_time_valid "09:32" 9 32 eq_refl).
Defined.

Section SignatureFacts.

Lemma hexPairOk_all : forallb hexPairOk (map N.of_nat (seq 0 256)) = true.
Proof. vm_compute. reflexivity. Qed.

Lemma hexByte_two (b : Byte.byte) :
  exists (c1 c2 : ascii) (h l : N),
    hexOfNumber (Z.of_N (Byte.to_N b)) = String c1 (String c2 "")
    /\ hexValue c1 = Some h /\ hexValue c2 = Some l
    /\ Byte.of_N (16 * h + l) = Some b.
Proof.
  pose proof (Byte.to_N_bounded b) as Hb.
  pose proof hexPairOk_all as Hall. rewrite forallb_forall in Hall.
  assert (Hin : In (Byte.to_N b) (map N.of_nat (seq 0 256))).
  { rewrite <- (N2Nat.id (Byte.to_N b)). apply in_map, in_seq. lia. }
  specialize (Hall _ Hin). unfold hexPairOk in Hall.
  destruct (hexOfNumber (Z.of_N (Byte.to_N b))) as [|c1 [|c2 [|? ?]]];
    try discriminate.
  destruct (hexValue c1) as [h|] eqn:E1; [|discriminate].
  destruct (hexValue c2) as [l|] eqn:E2; [|discriminate].
  apply N.eqb_eq in Hall. exists c1, c2, h, l.
  split; [reflexivity|]. split; [exact E1|]. split; [exact E2|].
  rewrite Hall. apply Byte.of_to_N.
Qed.

Lemma concat_empty_cons (s : string) (l : list string) :
  String.concat "" (s :: l) = (s ++ String.concat "" l)%string.
Proof.
  destruct l as [|t l]; [|reflexivity].
  cbn [String.concat]. induction s as [|c s IH]; [reflexivity|].
  change (String c s = String c (s ++ "")%string). now rewrite <- IH.
Qed.

Lemma signature_cons (b : Byte.byte) (h : list Byte.byte) :
  signature (b :: h)
  = (hexOfNumber (Z.of_N (Byte.to_N b)) ++ signature h)%string.
Proof. unfold signature, JSString.join. cbn [map]. apply concat_empty_cons. Qed.
End SignatureFacts.

(** X13: the signature string determines the digest.  It has two
    characters for every byte, reading it back gives the bytes again, and
    so two different digests never get the same signature. *)
Theorem signature_determines_the_digest (hashArray : list Byte.byte) :
  String.length (signature hashArray) = (2 * length hashArray)%nat
  /\ fromHex (signature hashArray) = Some hashArray
  /\ forall other : list Byte.byte,
       signature other = signature hashArray -> other = hashArray.
Proof.
  assert (L : forall h, String.length (signature h) = (2 * length h)%nat).
  { induction h as [|b h IH]; [reflexivity|].
    rewrite signature_cons.
    destruct (hexByte_two b) as (c1 & c2 & x & y & -> & _).
    change (String.length (String c1 (String c2 (signature h)))
            = (2 * S (length h))%nat).
    cbn [String.length]. lia. }
  assert (R : forall h, fromHex (signature h) = Some h).
  { induction h as [|b h IH]; [reflexivity|].
    rewrite signature_cons.
    destruct (hexByte_two b) as (c1 & c2 & x & y & -> & Hx & Hy & Hb).
    change (fromHex (String c1 (String c2 (signature h))) = Some (b :: h)).
    cbn [fromHex]. now rewrite Hx, Hy, IH, Hb. }
  split; [apply L|]. split; [apply R|].
  intros other E. apply (f_equal fromHex) in E. rewrite !R in E.
  now injection E.
Qed.

Section ExactRounding.

Lemma binary_round_aux_sign (s : bool) (m e : Z) (l : location) :
  binary_round_aux prec emax s m e l
  = match binary_round_aux prec emax false m e l with
    | S754_zero _ => S754_zero s
    | S754_infinity _ => S754_infinity s
    | S754_nan => S754_nan
    | S754_finite _ q t => S754_finite s q t
    end.
Proof.
  unfold binary_round_aux.
  destruct (shr_fexp prec emax m e l) as [mrs' e'].
  destruct (shr_fexp prec emax _ e' loc_Exact) as [mrs'' e''].
  destruct (shr_m mrs''); try reflexivity.
  destruct (e'' <=? emax - prec); reflexivity.
Qed.

Lemma digits_scaled (p q : positive) (j k : Z) :
  0 <= j -> 0 <= k -> Z.pos p * 2 ^ j = Z.pos q * 2 ^ k ->
  Z.pos (digits2_pos p) + j = Z.pos (digits2_pos q) + k.
Proof.
  intros Hj Hk E.
  pose proof (digits2_pos_bounds p) as [Lp Up].
  pose proof (digits2_pos_bounds q) as [Lq Uq].
  pose proof (pow2_pos j Hj) as Pj. pose proof (pow2_pos k Hk) as Pk.
  set (dp := Z.pos (digits2_pos p)) in *. set (dq := Z.pos (digits2_pos q)) in *.
  assert (Hdp : 1 <= dp) by (subst dp; lia).
  assert (Hdq : 1 <= dq) by (subst dq; lia).
  assert (B1 : 2 ^ (dp - 1 + j) <= Z.pos p * 2 ^ j < 2 ^ (dp + j)).
  { rewrite !Z.pow_add_r by lia. split.
    - apply Z.mul_le_mono_nonneg_r; lia.
    - apply Z.mul_lt_mono_pos_r; lia. }
  assert (B2 : 2 ^ (dq - 1 + k) <= Z.pos q * 2 ^ k < 2 ^ (dq + k)).
  { rewrite !Z.pow_add_r by lia. split.
    - apply Z.mul_le_mono_nonneg_r; lia.
    - apply Z.mul_lt_mono_pos_r; lia. }
  rewrite E in B1.
  destruct (Z.lt_trichotomy (dp + j) (dq + k)) as [L|[Eq|G]]; [exfalso|exact Eq|exfalso].
  - assert (2 ^ (dp + j) <= 2 ^ (dq - 1 + k)) by (apply Z.pow_le_mono_r; lia). lia.
  - assert (2 ^ (dq + k) <= 2 ^ (dp - 1 + j)) by (apply Z.pow_le_mono_r; lia). lia.
Qed.

(** Rounding a number that is the value of a normal binary64 float returns
    that float. *)
Lemma binary_round_exact (s : bool) (M q : positive) (E t : Z) :
  -52 <= E -> -52 <= t <= 971 -> Z.pos (digits2_pos q) = 53 ->
  Z.pos M * 2 ^ (E + 52) = Z.pos q * 2 ^ (t + 52) ->
  binary_round prec emax s M E = S754_finite s q t.
Proof.
  intros HE Ht Hq Hv.
  pose proof (digits_scaled M q (E + 52) (t + 52) ltac:(lia) ltac:(lia) Hv) as HD.
  unfold binary_round.
  assert (Hf : fexp prec emax (Z.pos (digits2_pos M) + E) = t)
    by (rewrite fexp64; lia).
  rewrite Hf.
  destruct (shl_align_spec M E t) as (He' & Hmz & Hdz).
  destruct (shl_align M E t) as [mz ez'] eqn:Eal. simpl in He', Hmz, Hdz.
  rewrite binary_round_aux_sign.
  destruct (binary_round_aux_bracket prec emax (Z.pos mz) ez' ltac:(lia))
    as (m1 & m2 & k1 & k2 & Hk1 & Hk2 & Hlo & Hhi & Hm2 & ->).
  simpl Zdigits2 in Hk1.
  assert (Hdz' : Z.pos (digits2_pos mz) + ez' = t + 53) by lia.
  rewrite Hdz', fexp64 in Hk1.
  assert (Hk1e : k1 = t - ez') by lia.
  assert (Hez : -52 <= ez' <= t) by lia.
  pose proof (pow2_pos k1 ltac:(lia)) as P1.
  pose proof (pow2_pos (ez' + 52) ltac:(lia)) as P2.
  assert (Hmzq : Z.pos mz = Z.pos q * 2 ^ k1).
  { apply (Z.mul_cancel_r _ _ (2 ^ (ez' + 52))); [lia|].
    rewrite Hmz, <- !Z.mul_assoc, <- !Z.pow_add_r by lia.
    replace (E - Z.min E t + (ez' + 52)) with (E + 52) by lia.
    replace (k1 + (ez' + 52)) with (t + 52) by lia. exact Hv. }
  rewrite Hmzq in Hlo, Hhi. rewrite Z.div_mul in Hlo by lia.
  assert (Hm1 : m1 = Z.pos q) by nia.
  subst m1. simpl Zdigits2 in Hk2. rewrite Hq in Hk2.
  replace (ez' + k1) with t in * by lia.
  rewrite fexp64 in Hk2.
  assert (Hk2z : k2 = 0) by lia.
  clear Hk2. subst k2. rewrite Z.pow_0_r, Z.div_1_r in Hm2. subst m2.
  rewrite Z.add_0_r.
  destruct (Z.leb_spec t (emax - prec)) as [_|Hbad];
    [reflexivity | unfold emax, prec in Hbad; lia].
Qed.

(** The normal float of a whole number from 1 to [2 ^ 53]. *)
Lemma integer_canonical (n : positive) :
  Z.pos n <= 2 ^ 53 ->
  exists (q : positive) (t : Z),
    -52 <= t <= 1 /\ Z.pos (digits2_pos q) = 53
    /\ Z.pos n * 2 ^ 52 = Z.pos q * 2 ^ (t + 52).
Proof.
  intros Hn.
  pose proof (digits2_pos_bounds n) as [Lo Hi].
  set (d := Z.pos (digits2_pos n)) in *.
  assert (Hd1 : 1 <= d) by (subst d; lia).
  assert (Hd54 : d <= 54).
  { subst d. apply digits2_pos_le. change (2 ^ 54) with (2 * 2 ^ 53). lia. }
  destruct (Z.le_gt_cases d 53) as [Hle|Hgt].
  - pose proof (pow2_pos (53 - d) ltac:(lia)) as Pp.
    exists (Z.to_pos (Z.pos n * 2 ^ (53 - d))), (d - 53).
    assert (Hq : Z.pos (Z.to_pos (Z.pos n * 2 ^ (53 - d))) = Z.pos n * 2 ^ (53 - d))
      by (apply Z2Pos.id; lia).
    split; [lia|]. split.
    + pose proof (digits_scaled (Z.to_pos (Z.pos n * 2 ^ (53 - d))) n 0 (53 - d)
                    ltac:(lia) ltac:(lia)) as HD.
      rewrite Hq, Z.pow_0_r, Z.mul_1_r in HD. specialize (HD eq_refl).
      fold d in HD. lia.
    + rewrite Hq, <- Z.mul_assoc, <- Z.pow_add_r by lia.
      f_equal. f_equal. lia.
  - assert (d = 54) by lia.
    assert (Hn53 : Z.pos n = 2 ^ 53).
    { replace (d - 1) with 53 in Lo by lia. lia. }
    exists 4503599627370496%positive, 1.
    split; [lia|]. split; [reflexivity|].
    rewrite Hn53. reflexivity.
Qed.

Lemma SFofZ_canonical (z : Z) :
  z <> 0 -> Z.abs z <= 2 ^ 53 ->
  exists (q : positive) (t : Z),
    SFofZ z = S754_finite (z <? 0) q t
    /\ -52 <= t <= 1 /\ Z.pos (digits2_pos q) = 53
    /\ Z.abs z * 2 ^ 52 = Z.pos q * 2 ^ (t + 52).
Proof.
  intros Hz Hb. destruct z as [|n|n]; [contradiction| |];
    destruct (integer_canonical n ltac:(lia)) as (q & t & Ht & Hq & Hv);
    exists q, t; (split; [|now repeat split]);
    unfold SFofZ, binary_normalize;
    (apply binary_round_exact; [lia | lia | exact Hq | exact Hv]).
Qed.

Lemma SFofZ_valid (z : Z) :
  Z.abs z <= 2 ^ 53 -> valid_binary (SFofZ z) = true.
Proof.
  intros Hb. destruct (Z.eq_dec z 0) as [->|Hz]; [reflexivity|].
  destruct (SFofZ_canonical z Hz Hb) as (q & t & -> & Ht & Hq & _).
  unfold SpecFloat.valid_binary, bounded, canonical_mantissa.
  rewrite Hq, fexp64.
  apply andb_true_iff. split; [apply Z.eqb_eq; lia | apply Z.leb_le].
  unfold emax, prec. lia.
Qed.

(** A number that is a whole number [c], given with any exponent from -52
    up, is normalised to the float of [c]. *)
Lemma binary_normalize_integer (S ez c : Z) :
  -52 <= ez -> Z.abs c <= 2 ^ 53 ->
  S * 2 ^ (ez + 52) = c * 2 ^ 52 ->
  binary_normalize prec emax S ez false = SFofZ c.
Proof.
  intros Hez Hc Hv.
  pose proof (pow2_pos (ez + 52) ltac:(lia)) as Pe.
  change (2 ^ 52) with 4503599627370496 in Hv.
  destruct S as [|M|M].
  - assert (c = 0) by lia. subst c. reflexivity.
  - assert (0 < Z.pos M * 2 ^ (ez + 52)) by (apply Z.mul_pos_pos; lia).
    assert (Hcp : 0 < c) by lia.
    destruct (SFofZ_canonical c ltac:(lia) Hc) as (q & t & -> & Ht & Hq & Hq').
    destruct (Z.ltb_spec c 0) as [|_]; [lia|].
    unfold binary_normalize. apply binary_round_exact; [lia | lia | exact Hq |].
    rewrite <- Hq', Z.abs_eq by lia.
    change (2 ^ 52) with 4503599627370496. exact Hv.
  - assert (0 < Z.pos M * 2 ^ (ez + 52)) by (apply Z.mul_pos_pos; lia).
    assert (Hcn : c < 0) by lia.
    destruct (SFofZ_canonical c ltac:(lia) Hc) as (q & t & -> & Ht & Hq & Hq').
    destruct (Z.ltb_spec c 0) as [_|]; [|lia].
    unfold binary_normalize. apply binary_round_exact; [lia | lia | exact Hq |].
    rewrite <- Hq', Z.abs_neq by lia.
    change (2 ^ 52) with 4503599627370496. lia.
Qed.

(** The aligned mantissa of the float of a whole number, with its sign. *)
Lemma aligned_integer (a : Z) (q : positive) (t ez : Z) :
  -52 <= ez <= t -> 
  Z.abs a * 2 ^ 52 = Z.pos q * 2 ^ (t + 52) ->
  cond_Zopp (a <? 0) (Z.pos (fst (shl_align q t ez))) * 2 ^ (ez + 52)
  = a * 2 ^ 52.
Proof.
  intros Hez Hv.
  destruct (shl_align_spec q t ez) as (_ & Hm & _).
  rewrite Z.min_r in Hm by lia.
  assert (Hal : Z.pos (fst (shl_align q t ez)) * 2 ^ (ez + 52) = Z.abs a * 2 ^ 52).
  { rewrite Hm, Hv, <- Z.mul_assoc, <- Z.pow_add_r by lia.
    f_equal. f_equal. lia. }
  unfold cond_Zopp. destruct (Z.ltb_spec a 0).
  - rewrite Z.abs_neq in Hal by lia. lia.
  - rewrite Z.abs_eq in Hal by lia. lia.
Qed.

Lemma SFadd_integers (a b : Z) :
  Z.abs a <= 2 ^ 53 -> Z.abs b <= 2 ^ 53 -> Z.abs (a + b) <= 2 ^ 53 ->
  SFadd prec emax (SFofZ a) (SFofZ b) = SFofZ (a + b).
Proof.
  intros Ha Hb Hab.
  destruct (Z.eq_dec a 0) as [->|Ha0].
  { rewrite Z.add_0_l. destruct (Z.eq_dec b 0) as [->|Hb0]; [reflexivity|].
    destruct (SFofZ_canonical b Hb0 Hb) as (q & t & -> & _). reflexivity. }
  destruct (Z.eq_dec b 0) as [->|Hb0].
  { rewrite Z.add_0_r.
    destruct (SFofZ_canonical a Ha0 Ha) as (q & t & -> & _). reflexivity. }
  destruct (SFofZ_canonical a Ha0 Ha) as (qa & ta & Ea & Hta & _ & Hva).
  destruct (SFofZ_canonical b Hb0 Hb) as (qb & tb & Eb & Htb & _ & Hvb).
  rewrite Ea, Eb. unfold SFadd.
  set (ez := Z.min ta tb).
  apply binary_normalize_integer; [subst ez; lia | exact Hab |].
  rewrite Z.mul_add_distr_r.
  rewrite (aligned_integer a qa ta ez ltac:(subst ez; lia) Hva).
  rewrite (aligned_integer b qb tb ez ltac:(subst ez; lia) Hvb).
  lia.
Qed.

Lemma SFsub_integers (a b : Z) :
  Z.abs a <= 2 ^ 53 -> Z.abs b <= 2 ^ 53 -> Z.abs (a - b) <= 2 ^ 53 ->
  SFsub prec emax (SFofZ a) (SFofZ b) = SFofZ (a - b).
Proof.
  intros Ha Hb Hab.
  destruct (Z.eq_dec b 0) as [->|Hb0].
  { rewrite Z.sub_0_r. destruct (Z.eq_dec a 0) as [->|Ha0]; [reflexivity|].
    destruct (SFofZ_canonical a Ha0 Ha) as (q & t & -> & _). reflexivity. }
  destruct (SFofZ_canonical b Hb0 Hb) as (qb & tb & Eb & Htb & Hqb & Hvb).
  destruct (Z.eq_dec a 0) as [->|Ha0].
  { rewrite Eb, Z.sub_0_l. simpl SFsub.
    destruct (SFofZ_canonical (- b) ltac:(lia) ltac:(lia))
      as (q' & t' & -> & Ht' & Hq' & Hv').
    rewrite Z.abs_opp, Hvb in Hv'.
    pose proof (digits_scaled qb q' (tb + 52) (t' + 52) ltac:(lia) ltac:(lia) Hv') as HD.
    assert (t' = tb) by lia. subst t'.
    assert (Z.pos qb = Z.pos q').
    { apply (Z.mul_cancel_r _ _ (2 ^ (tb + 52))); [|exact Hv'].
      pose proof (pow2_pos (tb + 52) ltac:(lia)). lia. }
    replace q' with qb by lia.
    f_equal. destruct (Z.ltb_spec b 0), (Z.ltb_spec (- b) 0); try reflexivity; lia. }
  destruct (SFofZ_canonical a Ha0 Ha) as (qa & ta & Ea & Hta & _ & Hva).
  rewrite Ea, Eb. unfold SFsub.
  set (ez := Z.min ta tb).
  apply binary_normalize_integer; [subst ez; lia | exact Hab |].
  rewrite Z.mul_sub_distr_r.
  rewrite (aligned_integer a qa ta ez ltac:(subst ez; lia) Hva).
  rewrite (aligned_integer b qb tb ez ltac:(subst ez; lia) Hvb).
  lia.
Qed.

Lemma add_integerFloat (a b : Z) :
  Z.abs a <= 2 ^ 53 -> Z.abs b <= 2 ^ 53 -> Z.abs (a + b) <= 2 ^ 53 ->
  (integerFloat a + integerFloat b)%float = integerFloat (a + b).
Proof.
  intros Ha Hb Hab. unfold integerFloat.
  rewrite <- (SF2Prim_Prim2SF (SF2Prim (SFofZ a) + SF2Prim (SFofZ b))), add_spec.
  rewrite !Prim2SF_SF2Prim by now apply SFofZ_valid.
  unfold SF64add. now rewrite SFadd_integers.
Qed.

Lemma sub_integerFloat (a b : Z) :
  Z.abs a <= 2 ^ 53 -> Z.abs b <= 2 ^ 53 -> Z.abs (a - b) <= 2 ^ 53 ->
  (integerFloat a - integerFloat b)%float = integerFloat (a - b).
Proof.
  intros Ha Hb Hab. unfold integerFloat.
  rewrite <- (SF2Prim_Prim2SF (SF2Prim (SFofZ a) - SF2Prim (SFofZ b))), sub_spec.
  rewrite !Prim2SF_SF2Prim by now apply SFofZ_valid.
  unfold SF64sub. now rewrite SFsub_integers.
Qed.
End ExactRounding.

Section SortMapFacts.
Context {A B : Type}.
Variable f : A -> B.
Variable cmpA : A -> A -> JS.Time.
Variable cmpB : B -> B -> JS.Time.
Hypothesis cmp_f : forall a b, cmpB (f a) (f b) = cmpA a b.

Lemma sortInsert_map (x : A) (l : list A) :
  JS.sortInsert cmpB (f x) (map f l) = map f (JS.sortInsert cmpA x l).
Proof.
  induction l as [|y l IH]; simpl; [reflexivity|].
  unfold JS.SortCompare. rewrite cmp_f.
  destruct (0 <? match cmpA y x with Some v => v | None => 0 end);
    simpl; [reflexivity | now rewrite IH].
Qed.

Lemma fold_sortInsert_map (l acc : list A) :
  fold_left (fun acc x => JS.sortInsert cmpB x acc) (map f l) (map f acc)
  = map f (fold_left (fun acc x => JS.sortInsert cmpA x acc) l acc).
Proof.
  revert acc. induction l as [|x l IH]; intros acc; simpl; [reflexivity|].
  now rewrite sortInsert_map, IH.
Qed.

Lemma arraySort_map (l : list A) :
  JS.arraySort cmpB (map f l) = map f (JS.arraySort cmpA l).
Proof. apply (fold_sortInsert_map l []). Qed.
End SortMapFacts.

Section WholeNumberFacts.
Variable host : JS.Host.

Lemma integerFloat_zero : integerFloat 0 = 0%float.
Proof. reflexivity. Qed.

(** The float of a whole number denotes that number. *)
Lemma integerFloat_denotes (z : Z) :
  Z.abs z <= 2 ^ 53 -> Math_floor (integerFloat z) = Some z.
Proof.
  intros Hb. unfold Math_floor, integerFloat.
  rewrite Prim2SF_SF2Prim by now apply SFofZ_valid.
  destruct (Z.eq_dec z 0) as [->|Hz]; [reflexivity|].
  destruct (SFofZ_canonical z Hz Hb) as (q & t & -> & Ht & _ & Hv).
  f_equal.
  assert (Hq : Z.shiftl (Z.pos q) t = Z.abs z
               /\ Z.shiftl (Z.neg q) t = - Z.abs z).
  { destruct (Z.le_gt_cases t 0) as [Hle|Hgt].
    - pose proof (pow2_pos (- t) ltac:(lia)) as Pt.
      pose proof (pow2_pos (t + 52) ltac:(lia)) as Pu.
      assert (Hqz : Z.pos q = Z.abs z * 2 ^ (- t)).
      { apply (Z.mul_cancel_r _ _ (2 ^ (t + 52))); [lia|].
        rewrite <- Hv, <- Z.mul_assoc, <- Z.pow_add_r by lia.
        f_equal. f_equal. lia. }
      rewrite !Z.shiftl_div_pow2 by lia.
      change (Z.neg q) with (- Z.pos q). rewrite Hqz.
      rewrite <- Z.mul_opp_l, !Z.div_mul by lia. now split.
    - assert (t = 1) by lia. subst t.
      rewrite !Z.shiftl_mul_pow2 by lia.
      change (2 ^ (1 + 52)) with (2 * 2 ^ 52) in Hv.
      change (2 ^ 1) with 2. lia. }
  destruct Hq as [Hp Hn].
  destruct (Z.ltb_spec z 0); [rewrite Hn | rewrite Hp]; lia.
Qed.

Lemma magnitude_bound (rows : list (EntryRow.t Z)) (e : EntryRow.t Z) :
  In e rows -> Z.abs (EntryRow.amount e) <= magnitude rows.
Proof.
  induction rows as [|r rows IH]; [contradiction|].
  assert (Hn : 0 <= magnitude rows) by (clear; induction rows; simpl; lia).
  intros [->|Hin]; simpl; [lia|]. specialize (IH Hin). lia.
Qed.

Lemma txMagnitude_nonneg (l : list (Transaction.t Z)) : 0 <= txMagnitude l.
Proof. induction l as [|tx l IH]; simpl; lia. Qed.

Lemma txMagnitude_perm (l l' : list (Transaction.t Z)) :
  Permutation l l' -> txMagnitude l = txMagnitude l'.
Proof. induction 1; simpl; lia. Qed.

Lemma txMagnitude_rows (rows : list (EntryRow.t Z)) :
  txMagnitude (map (transactionOfRow host) rows) = magnitude rows.
Proof. induction rows as [|e rows IH]; simpl; [reflexivity | now rewrite IH]. Qed.

Lemma transactionOfRow_with {A B : Type} (f : A -> B) (e : EntryRow.t A) :
  transactionOfRow host (entryWith f e) = transactionWith f (transactionOfRow host e).
Proof. reflexivity. Qed.

Lemma byDateTime_with {A B : Type} (f : A -> B) (a b : Transaction.t A) :
  byDateTime host (transactionWith f a) (transactionWith f b) = byDateTime host a b.
Proof. reflexivity. Qed.

Lemma step_whole (r : Z) (tx : Transaction.t Z) :
  Z.abs r + Z.abs (Transaction.amount tx) <= 2 ^ 53 ->
  step (integerFloat r) (transactionWith integerFloat tx) = integerFloat (step r tx)
  /\ Z.abs (step r tx) <= Z.abs r + Z.abs (Transaction.amount tx).
Proof.
  intros Hb. unfold step. simpl.
  revert Hb. generalize (Transaction.amount tx). intros a Hb.
  destruct (String.eqb (Transaction.type tx) TransactionType_IN).
  - split; [apply add_integerFloat; lia | lia].
  - split; [apply sub_integerFloat; lia | lia].
Qed.

Lemma runningPass_whole (l : list (Transaction.t Z)) (r : Z) :
  Z.abs r + txMagnitude l <= 2 ^ 53 ->
  runningPass (integerFloat r) (map (transactionWith integerFloat) l)
  = map (annotatedWith integerFloat) (runningPass r l).
Proof.
  revert r. induction l as [|tx l IH]; intros r Hb; [reflexivity|].
  cbn [map runningPass]. simpl txMagnitude in Hb.
  pose proof (txMagnitude_nonneg l) as Hn.
  destruct (step_whole r tx ltac:(lia)) as [Es Hs].
  rewrite Es, IH by lia. reflexivity.
Qed.

Lemma addEntry_whole (es : list (EntryRow.t Z)) (i o : Z) :
  Z.abs i + Z.abs o + magnitude es <= 2 ^ 53 ->
  fold_left addEntry (map (entryWith integerFloat) es) (integerFloat i, integerFloat o)
  = (integerFloat (fst (fold_left addEntry es (i, o))),
     integerFloat (snd (fold_left addEntry es (i, o))))
  /\ Z.abs (fst (fold_left addEntry es (i, o)))
     + Z.abs (snd (fold_left addEntry es (i, o)))
     <= Z.abs i + Z.abs o + magnitude es.
Proof.
  revert i o. induction es as [|e es IH]; intros i o Hb; [simpl; split; [reflexivity | lia]|].
  cbn [map fold_left]. simpl magnitude in Hb.
  assert (Hn : 0 <= magnitude es) by (clear; induction es; simpl; lia).
  assert (Hstep : exists i' o',
            addEntry (i, o) e = (i', o')
            /\ addEntry (integerFloat i, integerFloat o) (entryWith integerFloat e)
               = (integerFloat i', integerFloat o')
            /\ Z.abs i' + Z.abs o' <= Z.abs i + Z.abs o + Z.abs (EntryRow.amount e)).
  { unfold addEntry. simpl EntryRow.type. simpl EntryRow.amount.
    destruct (String.eqb (EntryRow.type e) "IN"); simpl add.
    - exists (i + EntryRow.amount e), o.
      rewrite add_integerFloat by lia. repeat split. lia.
    - exists i, (o + EntryRow.amount e).
      rewrite add_integerFloat by lia. repeat split. lia. }
  destruct Hstep as (i' & o' & -> & -> & Hio).
  destruct (IH i' o' ltac:(lia)) as [E Hs].
  rewrite E. split; [reflexivity | simpl magnitude; lia].
Qed.

Lemma getTransactionsWithBalance_whole (rows : list (EntryRow.t Z)) :
  magnitude rows <= 2 ^ 53 ->
  getTransactionsWithBalance host (Some (map (entryWith integerFloat) rows))
  = map (annotatedWith integerFloat) (getTransactionsWithBalance host (Some rows)).
Proof.
  intros Hb. unfold getTransactionsWithBalance, computeRunningBalances.
  rewrite map_map.
  rewrite (map_ext (fun e => transactionOfRow host (entryWith integerFloat e))
             (fun e => transactionWith integerFloat (transactionOfRow host e)))
    by (intros; reflexivity).
  rewrite <- (map_map (transactionOfRow host) (transactionWith integerFloat)).
  rewrite (arraySort_map (transactionWith integerFloat) (byDateTime host)
             (byDateTime host) (byDateTime_with integerFloat)).
  change (@zero float _) with 0%float. rewrite <- integerFloat_zero.
  rewrite runningPass_whole.
  - now rewrite map_rev.
  - rewrite (txMagnitude_perm _ _ (arraySort_perm (byDateTime host) _)).
    rewrite txMagnitude_rows. simpl. lia.
Qed.

Lemma bookOfLedger_whole (ledger : LedgerRow.t Z) :
  magnitude (default [] (LedgerRow.entries ledger)) <= 2 ^ 53 ->
  bookOfLedger host (ledgerWith integerFloat ledger)
  = bookWith integerFloat (bookOfLedger host ledger).
Proof.
  intros Hb. unfold bookOfLedger, ledgerWith, bookWith, sumEntries. simpl.
  destruct (LedgerRow.entries ledger) as [es|]; simpl in *.
  - change (@zero float _) with 0%float. rewrite <- integerFloat_zero.
    destruct (addEntry_whole es 0 0 ltac:(simpl; lia)) as [E Hs].
    change (@zero Z _) with 0.
    rewrite E. destruct (fold_left addEntry es (0, 0)) as [i o]. simpl in *.
    rewrite sub_integerFloat by lia. reflexivity.
  - reflexivity.
Qed.
End WholeNumberFacts.

Section FirstBalanceFacts.
Context {num : Type} `{ExactNumber num}.

(** In exact arithmetic the first running balance is the balance of the
    totals. *)
Lemma first_balance_exact (host : JS.Host) (rows : list (EntryRow.t num)) :
  match getTransactionsWithBalance host (Some rows) with
  | first :: _ =>
      TransactionWithBalance.runningBalance first
      = sub (fst (sumEntries (Some rows))) (snd (sumEntries (Some rows)))
  | [] => rows = []
  end.
Proof.
  assert (Hbal : sub (fst (sumEntries (Some rows))) (snd (sumEntries (Some rows)))
                 = fold_left step
                     (JS.arraySort (byDateTime host) (map (transactionOfRow host) rows))
                     zero).
  { unfold sumEntries.
    rewrite <- (fold_step_totals rows host zero zero), sub_zero_r.
    apply fold_step_perm. symmetry. apply arraySort_perm. }
  set (bal := sub (fst (sumEntries (Some rows))) (snd (sumEntries (Some rows)))) in *.
  unfold getTransactionsWithBalance, computeRunningBalances.
  pose proof (arraySort_perm (byDateTime host) (map (transactionOfRow host) rows))
    as Hperm.
  destruct (JS.arraySort (byDateTime host) (map (transactionOfRow host) rows))
    as [|tx0 sorted0] eqn:Es using rev_ind.
  - simpl. apply Permutation_nil in Hperm. now destruct rows.
  - rewrite runningPass_last, rev_app_distr. cbn [rev app].
    cbn [TransactionWithBalance.runningBalance withRunningBalance].
    symmetry. exact Hbal.
Qed.
End FirstBalanceFacts.

(** X14: for whole-number amounts whose magnitudes add up to at most
    [2 ^ 53], binary64 computes the running balances exactly.  Each such
    amount is a float that denotes the whole number, and the output for the
    binary64 amounts is the output for the integers, with every amount and
    running balance turned into its float. *)
Theorem whole_number_running_balances_are_exact (host : JS.Host)
    (rows : list (EntryRow.t Z)) :
  magnitude rows <= 2 ^ 53 ->
  Forall (fun e => Math_floor (integerFloat (EntryRow.amount e))
                   = Some (EntryRow.amount e)) rows
  /\ getTransactionsWithBalance host (Some (map (entryWith integerFloat) rows))
     = map (annotatedWith integerFloat) (getTransactionsWithBalance host (Some rows)).
Proof.
  intros Hb. split; [|now apply getTransactionsWithBalance_whole].
  apply List.Forall_forall. intros e He. apply integerFloat_denotes.
  pose proof (magnitude_bound rows e He). lia.
Qed.

(** The property on scenario 1, whose rows in binary64 are those with the
    amounts 100, 10 and 40, and whose running balances are 70, 60 and
    100. *)
Lemma whole_number_running_balances_are_exact_witness :
  map (entryWith integerFloat) scenario1 = scenario1Float
  /\ Forall (fun e => Math_floor (integerFloat (EntryRow.amount e))
                      = Some (EntryRow.amount e)) scenario1
  /\ getTransactionsWithBalance IST (Some (map (entryWith integerFloat) scenario1))
     = map (annotatedWith integerFloat) (getTransactionsWithBalance IST (Some scenario1))
  /\ map TransactionWithBalance.runningBalance
       (getTransactionsWithBalance IST (Some scenario1Float))
     = [70%float; 60%float; 100%float].
Proof.
  split; [vm_compute; reflexivity|].
  assert (H : magnitude scenario1 <= 2 ^ 53) by (vm_compute; discriminate).
  destruct (whole_number_running_balances_are_exact IST scenario1 H) as [H1 H2].
  split; [exact H1|]. split; [exact H2|]. vm_compute. reflexivity.
Defined.

(** X15: for whole-number amounts whose magnitudes add up to at most
    [2 ^ 53], binary64 computes the totals and the balance of a book
    exactly. *)
Theorem whole_number_book_totals_are_exact (host : JS.Host)
    (ledger : LedgerRow.t Z) :
  magnitude (default [] (LedgerRow.entries ledger)) <= 2 ^ 53 ->
  getBookTotals host (Some (ledgerWith integerFloat ledger))
  = option_map (bookWith integerFloat) (getBookTotals host (Some ledger)).
Proof.
  intros Hb. unfold getBookTotals. simpl. f_equal.
  now apply bookOfLedger_whole.
Qed.

Lemma whole_number_book_totals_are_exact_witness :
  getBookTotals IST (Some (ledgerWith integerFloat (sampleLedger scenario1)))
  = option_map (bookWith integerFloat)
      (getBookTotals IST (Some (sampleLedger scenario1))).
Proof.
  apply (whole_number_book_totals_are_exact IST (sampleLedger scenario1)).
  vm_compute. discriminate.
Defined.

(** X16: the agreement of the book view with the book summary holds in
    binary64 for whole-number amounts.  When the magnitudes of the amounts
    add up to at most [2 ^ 53], the running balance of the first entry of
    the output equals the balance that [getBookTotals] reports, both
    computed in binary64. *)
Theorem whole_number_first_balance_is_book_balance (host : JS.Host)
    (ledger : LedgerRow.t Z) (rows : list (EntryRow.t Z)) :
  LedgerRow.entries ledger = Some rows ->
  magnitude rows <= 2 ^ 53 ->
  exists book : BookWithTotals.t float,
    getBookTotals host (Some (ledgerWith integerFloat ledger)) = Some book
    /\ match getTransactionsWithBalance host
               (Some (map (entryWith integerFloat) rows)) with
       | first :: _ =>
           TransactionWithBalance.runningBalance first = BookWithTotals.balance book
       | [] => rows = []
       end.
Proof.
  intros He Hb.
  exists (bookOfLedger host (ledgerWith integerFloat ledger)).
  split; [reflexivity|].
  rewrite bookOfLedger_whole by (rewrite He; exact Hb).
  rewrite getTransactionsWithBalance_whole by exact Hb.
  pose proof (first_balance_exact host rows) as Hf.
  destruct (getTransactionsWithBalance host (Some rows)) as [|first rest];
    [exact Hf|].
  cbn [map annotatedWith TransactionWithBalance.runningBalance bookWith
       BookWithTotals.balance].
  rewrite Hf. destruct (bookOfLedger_totals host ledger) as (Ei & Eo & ->).
  now rewrite Ei, Eo, He.
Qed.

Lemma whole_number_first_balance_is_book_balance_witness :
  exists book : BookWithTotals.t float,
    getBookTotals IST (Some (ledgerWith integerFloat (sampleLedger scenario1)))
    = Some book
    /\ match getTransactionsWithBalance IST
               (Some (map (entryWith integerFloat) scenario1)) with
       | first :: _ =>
           TransactionWithBalance.runningBalance first = BookWithTotals.balance book
       | [] => scenario1 = []
       end.
Proof.
  apply (whole_number_first_balance_is_book_balance IST (sampleLedger scenario1)
           scenario1 eq_refl).
  vm_compute. discriminate.
Defined.

Section SplitFacts.


Lemma split_append (c : ascii) (s rest : string) :
  lacks c s = true ->
  JSString.split c (s ++ String c rest) = s :: JSString.split c rest.
Proof.
  induction s as [|a s IH]; intros E.
  - change (("" ++ String c rest)%string) with (String c rest).
    simpl. now rewrite Ascii.eqb_refl.
  - simpl in E. apply andb_prop in E. destruct E as [Ea Es].
    apply negb_true_iff in Ea.
    change ((String a s ++ String c rest)%string)
      with (String a (s ++ String c rest)).
    cbn [JSString.split]. rewrite Ea, (IH Es). reflexivity.
Qed.




End SplitFacts.



Section DateFacts.
Import JS.

Lemma YearFromDay_spec (day : Z) :
  DayFromYear (JSDate.YearFromDay day) <= day
  < DayFromYear (JSDate.YearFromDay day + 1).
Proof.
  unfold JSDate.YearFromDay.
  set (y := 1970 + 400 * day / 146097).
  assert (Hlo : DayFromYear (y - 1) <= day).
  { subst y. unfold DayFromYear. Z.div_mod_to_equations. lia. }
  assert (Hhi : day < DayFromYear (y + 2)).
  { subst y. unfold DayFromYear. Z.div_mod_to_equations. lia. }
  destruct (Z.leb_spec (DayFromYear (y + 1)) day) as [H1|H1].
  - replace (y + 1 + 1) with (y + 2) by lia. lia.
  - destruct (Z.leb_spec (DayFromYear y) day) as [H0|H0].
    + lia.
    + replace (y - 1 + 1) with y by lia. lia.
Qed.
End DateFacts.

Section CalendarOfDayFacts.
Import JS.

Lemma YearFromDay_unique (day Y : Z) :
  DayFromYear Y <= day < DayFromYear (Y + 1) -> JSDate.YearFromDay day = Y.
Proof.
  intros [Hlo Hhi]. pose proof (YearFromDay_spec day) as [Slo Shi].
  set (y := JSDate.YearFromDay day) in *.
  destruct (Z.lt_trichotomy y Y) as [L|[E|G]]; [exfalso | exact E | exfalso].
  - pose proof (DayFromYear_lt y Y L). rewrite DayFromYear_succ in Shi. lia.
  - pose proof (DayFromYear_lt Y y G). rewrite DayFromYear_succ in Hhi. lia.
Qed.

Lemma Day_MakeDate (D : Z) : JSDate.Day (MakeDate D 0) = D.
Proof.
  unfold JSDate.Day, MakeDate. rewrite Z.add_0_r. apply Z.div_mul.
  unfold msPerDay. lia.
Qed.

Lemma MakeDate_midnight (D : Z) : MakeDate D 0 mod msPerDay = 0.
Proof. unfold MakeDate. rewrite Z.add_0_r. apply Z.mod_mul. unfold msPerDay. lia. Qed.

(** The calendar date of any time of the day [MakeDay y m d]. *)
Lemma calendar_of_day (t y m d : Z) :
  validDay y m d -> JSDate.Day t = JS.MakeDay y m d ->
  JSDate.YearFromTime t = y
  /\ JSDate.MonthFromTime t = m - 1
  /\ JSDate.DateFromTime t = d.
Proof.
  intros V Ht. pose proof (dayWithinYear_range y m d V) as Hr.
  pose proof (leapDay_range y) as Hl.
  assert (Hy : JSDate.YearFromTime t = y).
  { unfold JSDate.YearFromTime. rewrite Ht. apply YearFromDay_unique.
    rewrite DayFromYear_succ. unfold JS.MakeDay. lia. }
  assert (Hd : JSDate.DayWithinYear t = monthStart y m + d - 1).
  { unfold JSDate.DayWithinYear. rewrite Hy, Ht. unfold JS.MakeDay. lia. }
  split; [exact Hy|].
  assert (Hm : JSDate.MonthFromTime t = m - 1).
  { unfold JSDate.MonthFromTime. rewrite Hd, Hy. destruct V as [Vm Vd].
    destruct (month_cases m Vm) as [->|[->|[->|[->|[->|[->|[->|[->|[->|[->|[->| ->]]]]]]]]]]];
      simpl in *;
      repeat match goal with
             | |- context [?a <? ?b] => destruct (Z.ltb_spec a b); try lia
             end. }
  split; [exact Hm|].
  unfold JSDate.DateFromTime. rewrite Hm, Hd, Hy. destruct V as [Vm Vd].
  destruct (month_cases m Vm) as [->|[->|[->|[->|[->|[->|[->|[->|[->|[->|[->| ->]]]]]]]]]]];
    simpl; lia.
Qed.

Lemma MakeDay_in_year (yr month date : Z) :
  0 <= month <= 11 -> JSDate.MakeDay yr month date = JS.MakeDay yr (month + 1) date.
Proof.
  intros Hm. unfold JSDate.MakeDay.
  rewrite Z.div_small, Z.mod_small by lia. now rewrite Z.add_0_r.
Qed.

(** Day 0 of the next month is the last day of the month. *)
Lemma MakeDay_day_zero (yr month : Z) :
  0 <= month <= 11 ->
  JSDate.MakeDay yr (month + 1) 0
  = JS.MakeDay yr (month + 1) (daysInMonth yr (month + 1)).
Proof.
  intros Hm. unfold JSDate.MakeDay, JS.MakeDay.
  assert (C : month = 0 \/ month = 1 \/ month = 2 \/ month = 3 \/ month = 4
              \/ month = 5 \/ month = 6 \/ month = 7 \/ month = 8 \/ month = 9
              \/ month = 10 \/ month = 11) by lia.
  destruct C as [->|[->|[->|[->|[->|[->|[->|[->|[->|[->|[->| ->]]]]]]]]]]];
    simpl; rewrite ?Z.add_0_r; try lia.
  rewrite DayFromYear_succ. lia.
Qed.

Lemma daysInMonth_range (y m : Z) : 1 <= m <= 12 -> 28 <= daysInMonth y m <= 31.
Proof.
  intros Hm. pose proof (leapDay_range y).
  destruct (month_cases m Hm) as [->|[->|[->|[->|[->|[->|[->|[->|[->|[->|[->| ->]]]]]]]]]]];
    simpl; lia.
Qed.
(** Month -1 is December of the year before, month 12 January of the year
    after. *)
Lemma MakeDay_carry (yr month : Z) :
  -1 <= month <= 12 ->
  JSDate.MakeDay yr month 1
  = JS.MakeDay (yr + month / 12) (month mod 12 + 1) 1
  /\ validDay (yr + month / 12) (month mod 12 + 1) 1.
Proof.
  intros Hm. split; [reflexivity|].
  assert (Hr : 1 <= month mod 12 + 1 <= 12) by (Z.div_mod_to_equations; lia).
  split; [exact Hr|].
  pose proof (daysInMonth_range (yr + month / 12) (month mod 12 + 1) Hr). lia.
Qed.

End CalendarOfDayFacts.

Section ConstructFacts.
Import JS.
Variable clock : JSDate.Clock.
Hypothesis Hbounded : boundedOffsets (JSDate.host clock).
Hypothesis Hkeeps : keepsTheDay clock.

(** The getters on the date built for a day of the calendar. *)
Lemma getters_of_day (y m d : Z) :
  0 <= y <= 9999 -> validDay y m d ->
  exists t : Z,
    TimeClip (UTC (JSDate.host clock) (MakeDate (JS.MakeDay y m d) 0)) = Some t
    /\ JSDate.getFullYear clock (Some t) = Some y
    /\ JSDate.getMonth clock (Some t) = Some (m - 1)
    /\ JSDate.getDate clock (Some t) = Some d
    /\ JSDate.getDay clock (Some t) = Some ((JS.MakeDay y m d + 4) mod 7).
Proof.
  intros Hy V.
  pose proof (MakeDate_range y m d 0 0 Hy V ltac:(lia) ltac:(lia)) as Hr.
  change (MakeTime 0 0) with 0 in Hr.
  set (local := MakeDate (JS.MakeDay y m d) 0) in *.
  pose proof (Hbounded local) as Hb.
  exists (UTC (JSDate.host clock) local). split.
  - unfold TimeClip, UTC.
    destruct (Z.leb_spec (Z.abs (local - LocalTZA (JSDate.host clock) local))
                         8640000000000000) as [_|Hgt]; [reflexivity|].
    unfold msPerDay in *. lia.
  - assert (Hd : JSDate.Day (JSDate.LocalTime clock (UTC (JSDate.host clock) local))
                 = JS.MakeDay y m d).
    { rewrite (Hkeeps local (MakeDate_midnight _)). apply Day_MakeDate. }
    destruct (calendar_of_day _ y m d V Hd) as (E1 & E2 & E3).
    unfold JSDate.getFullYear, JSDate.getMonth, JSDate.getDate, JSDate.getDay,
      JSDate.WeekDay.
    simpl. now rewrite E1, E2, E3, Hd.
Qed.
End ConstructFacts.

Section DateStringFacts.
Import JS.

Lemma toString_four (n : Z) :
  1000 <= n <= 9999 ->
  toString n
  = String (digitChar (n / 1000 mod 10)) (String (digitChar (n / 100 mod 10))
      (String (digitChar (n / 10 mod 10)) (String (digitChar (n mod 10)) ""))).
Proof.
  intros Hn. unfold toString.
  destruct (Z.ltb_spec n 0) as [?|_]; [lia|].
  assert (Hlog : 9 <= Z.log2 n).
  { change 9 with (Z.log2 512). apply Z.log2_le_mono. lia. }
  destruct (Z.to_nat (Z.log2 n)) as [|[|[|f]]] eqn:Ef; try lia.
  rewrite digitsOf_more by lia.
  rewrite digitsOf_more by (Z.div_mod_to_equations; lia).
  rewrite digitsOf_more by (Z.div_mod_to_equations; lia).
  rewrite digitsOf_last by (Z.div_mod_to_equations; lia).
  rewrite !Z.div_div by lia. reflexivity.
Qed.

Lemma padStart_two (n : Z) :
  0 <= n <= 99 ->
  JSString.padStart 2 "0" (toString n)
  = String (digitChar (n / 10)) (String (digitChar (n mod 10)) "").
Proof.
  intros Hn. unfold toString.
  destruct (Z.ltb_spec n 0) as [?|_]; [lia|].
  destruct (Z.lt_ge_cases n 10) as [Hs|Hb].
  - rewrite digitsOf_last by lia.
    rewrite (Z.div_small n 10) by lia. reflexivity.
  - assert (Hlog : 3 <= Z.log2 n).
    { change 3 with (Z.log2 8). apply Z.log2_le_mono. lia. }
    destruct (Z.to_nat (Z.log2 n)) as [|f] eqn:Ef; try lia.
    rewrite digitsOf_more by lia.
    rewrite digitsOf_last by (Z.div_mod_to_equations; lia).
    rewrite (Z.mod_small (n / 10) 10) by (Z.div_mod_to_equations; lia).
    reflexivity.
Qed.

Lemma parseYMD_digits (y m d : Z) :
  0 <= y <= 9999 -> validDay y m d ->
  parseYMD
    (String (digitChar (y / 1000 mod 10)) (String (digitChar (y / 100 mod 10))
      (String (digitChar (y / 10 mod 10)) (String (digitChar (y mod 10))
        (String "-" (String (digitChar (m / 10)) (String (digitChar (m mod 10))
          (String "-" (String (digitChar (d / 10)) (String (digitChar (d mod 10))
            ""))))))))))
  = Some (y, m, d).
Proof.
  intros Hy [Hm Hd]. pose proof (daysInMonth_range y m Hm) as Hr.
  unfold parseYMD. cbn [list_ascii_of_string]. unfold digits4, digits2.
  rewrite !digit_digitChar by (Z.div_mod_to_equations; lia).
  replace (100 * (10 * (y / 1000 mod 10) + y / 100 mod 10)
           + (10 * (y / 10 mod 10) + y mod 10)) with y
    by (Z.div_mod_to_equations; lia).
  replace (10 * (m / 10) + m mod 10) with m by (Z.div_mod_to_equations; lia).
  replace (10 * (d / 10) + d mod 10) with d by (Z.div_mod_to_equations; lia).
  change (Ascii.eqb "-" "-") with true. cbn [andb].
  destruct (Z.leb_spec 1 m); [|lia]. destruct (Z.leb_spec m 12); [|lia].
  destruct (Z.leb_spec 1 d); [|lia].
  destruct (Z.leb_spec d (daysInMonth y m)); [|lia].
  reflexivity.
Qed.
End DateStringFacts.

(** X18: the day buttons of the date picker give valid dates.  On a clock
    that never skips a calendar day, for a year from 1000 to 9999 and a
    month shown, [getDaysInMonth] is the length of that month, the buttons
    are the days 1 to that length, and the button of a day passes on the
    date string [YYYY-MM-DD] of exactly that day. *)
Theorem day_buttons_give_valid_dates (clock : JSDate.Clock) (year month : Z) :
  boundedOffsets (JSDate.host clock) -> keepsTheDay clock ->
  1000 <= year <= 9999 -> 0 <= month <= 11 ->
  ModernDatePicker.getDaysInMonth clock year month
  = Some (JS.daysInMonth year (month + 1))
  /\ forall day : Z,
       (In day (ModernDatePicker.days
                  (ModernDatePicker.getDaysInMonth clock year month))
        <-> 1 <= day <= JS.daysInMonth year (month + 1))
       /\ (1 <= day <= JS.daysInMonth year (month + 1) ->
           JS.parseYMD (ModernDatePicker.handleDayClick clock year month day)
           = Some (year, month + 1, day)).
Proof.
  intros Hb Hk Hy Hm.
  pose proof (daysInMonth_range year (month + 1) ltac:(lia)) as Hr.
  assert (Hyr : ((0 <=? year) && (year <=? 99)) = false).
  { apply andb_false_iff. right. apply Z.leb_gt. lia. }
  assert (Hdim : ModernDatePicker.getDaysInMonth clock year month
                 = Some (JS.daysInMonth year (month + 1))).
  { unfold ModernDatePicker.getDaysInMonth, JSDate.construct. rewrite Hyr.
    rewrite (MakeDay_day_zero year month Hm).
    destruct (getters_of_day clock Hb Hk year (month + 1)
                (JS.daysInMonth year (month + 1)) ltac:(lia) ltac:(split; lia))
      as (t & -> & _ & _ & E & _).
    exact E. }
  split; [exact Hdim|]. intros day. rewrite Hdim. split.
  - unfold ModernDatePicker.days. rewrite in_map_iff. split.
    + intros (i & <- & Hi). apply in_seq in Hi. lia.
    + intros Hd. exists (Z.to_nat (day - 1)). split; [lia|]. apply in_seq. lia.
  - intros Hd.
    unfold ModernDatePicker.handleDayClick, JSDate.construct. rewrite Hyr.
    rewrite (MakeDay_in_year year month day Hm).
    destruct (getters_of_day clock Hb Hk year (month + 1) day ltac:(lia)
                ltac:(split; lia))
      as (t & -> & -> & -> & -> & _).
    cbn [option_map JSDate.numberString].
    replace (month + 1 - 1 + 1) with (month + 1) by lia.
    rewrite (toString_four year Hy), (padStart_two (month + 1)) by lia.
    rewrite (padStart_two day) by lia.
    unfold String.append.
    apply parseYMD_digits; [lia | split; lia].
Qed.

Lemma ISTclock_keepsTheDay : keepsTheDay ISTclock.
Proof.
  intros t _. unfold JSDate.LocalTime, JS.UTC. simpl. f_equal. lia.
Qed.

(** The property for February 2024 in India Standard Time. *)
Lemma day_buttons_give_valid_dates_witness :
  ModernDatePicker.getDaysInMonth ISTclock 2024 1 = Some 29
  /\ forall day : Z,
       (In day (ModernDatePicker.days (ModernDatePicker.getDaysInMonth ISTclock 2024 1))
        <-> 1 <= day <= 29)
       /\ (1 <= day <= 29 ->
           JS.parseYMD (ModernDatePicker.handleDayClick ISTclock 2024 1 day)
           = Some (2024, 2, day)).
Proof.
  apply (day_buttons_give_valid_dates ISTclock 2024 1).
  - intros t. unfold JS.msPerDay. simpl. lia.
  - exact ISTclock_keepsTheDay.
  - lia.
  - lia.
Defined.

(** X19: the arrows of the date picker move by one month.  On a clock that
    never skips a calendar day, for a year from 100 to 9998, the next arrow
    shows the month after the current one and the previous arrow the month
    before it, across the ends of the year; and going forward and then back
    shows the current month again. *)
Theorem month_arrows_step_by_one_month (clock : JSDate.Clock) (year month : Z) :
  boundedOffsets (JSDate.host clock) -> keepsTheDay clock ->
  100 <= year <= 9998 -> 0 <= month <= 11 ->
  let next := ModernDatePicker.handleNextMonth clock year month in
  let prev := ModernDatePicker.handlePrevMonth clock year month in
  ModernDatePicker.currentYear clock next
  = Some (if month =? 11 then year + 1 else year)
  /\ ModernDatePicker.currentMonth clock next
     = Some (if month =? 11 then 0 else month + 1)
  /\ ModernDatePicker.currentYear clock prev
     = Some (if month =? 0 then year - 1 else year)
  /\ ModernDatePicker.currentMonth clock prev
     = Some (if month =? 0 then 11 else month - 1)
  /\ ModernDatePicker.currentYear clock
       (ModernDatePicker.handlePrevMonth clock
          (if month =? 11 then year + 1 else year)
          (if month =? 11 then 0 else month + 1))
     = Some year
  /\ ModernDatePicker.currentMonth clock
       (ModernDatePicker.handlePrevMonth clock
          (if month =? 11 then year + 1 else year)
          (if month =? 11 then 0 else month + 1))
     = Some month.
Proof.
  intros Hb Hk Hy Hm.
  assert (G : forall y m, 100 <= y <= 9999 -> -1 <= m <= 12 ->
            99 <= y + m / 12 <= 9999 ->
            ModernDatePicker.currentYear clock (JSDate.construct clock y m 1)
            = Some (y + m / 12)
            /\ ModernDatePicker.currentMonth clock (JSDate.construct clock y m 1)
               = Some (m mod 12)).
  { intros y m Hy' Hm' Hym. unfold JSDate.construct.
    assert (Hyr : ((0 <=? y) && (y <=? 99)) = false).
    { apply andb_false_iff. right. apply Z.leb_gt. lia. }
    rewrite Hyr. destruct (MakeDay_carry y m Hm') as [-> V].
    destruct (getters_of_day clock Hb Hk (y + m / 12) (m mod 12 + 1) 1
                ltac:(lia) V)
      as (t & -> & E1 & E2 & _ & _).
    unfold ModernDatePicker.currentYear, ModernDatePicker.currentMonth.
    rewrite E1, E2. split; [reflexivity|]. f_equal. lia. }
  cbv zeta. unfold ModernDatePicker.handleNextMonth, ModernDatePicker.handlePrevMonth.
  assert (C : month = 0 \/ month = 11 \/ (1 <= month <= 10)) by lia.
  destruct C as [->|[->|Hmid]].
  - simpl Z.eqb. cbv iota.
    destruct (G year (0 + 1) ltac:(lia) ltac:(lia) ltac:(Z.div_mod_to_equations; lia)) as [A1 A2].
    destruct (G year (0 - 1) ltac:(lia) ltac:(lia) ltac:(Z.div_mod_to_equations; lia)) as [B1 B2].
    destruct (G year (0 + 1 - 1) ltac:(lia) ltac:(lia) ltac:(Z.div_mod_to_equations; lia)) as [C1 C2].
    rewrite A1, A2, B1, B2, C1, C2. repeat split; f_equal; Z.div_mod_to_equations; lia.
  - simpl Z.eqb. cbv iota.
    destruct (G year (11 + 1) ltac:(lia) ltac:(lia) ltac:(Z.div_mod_to_equations; lia)) as [A1 A2].
    destruct (G year (11 - 1) ltac:(lia) ltac:(lia) ltac:(Z.div_mod_to_equations; lia)) as [B1 B2].
    destruct (G (year + 1) (0 - 1) ltac:(lia) ltac:(lia) ltac:(Z.div_mod_to_equations; lia)) as [C1 C2].
    rewrite A1, A2, B1, B2, C1, C2. repeat split; f_equal; Z.div_mod_to_equations; lia.
  - destruct (Z.eqb_spec month 11); [lia|]. destruct (Z.eqb_spec month 0); [lia|].
    assert (D1 : (month + 1) / 12 = 0) by (apply Z.div_small; lia).
    assert (D2 : (month - 1) / 12 = 0) by (apply Z.div_small; lia).
    assert (D3 : (month + 1 - 1) / 12 = 0) by (apply Z.div_small; lia).
    destruct (G year (month + 1) ltac:(lia) ltac:(lia) ltac:(lia)) as [A1 A2].
    destruct (G year (month - 1) ltac:(lia) ltac:(lia) ltac:(lia)) as [B1 B2].
    destruct (G year (month + 1 - 1) ltac:(lia) ltac:(lia) ltac:(lia)) as [C1 C2].
    rewrite A1, A2, B1, B2, C1, C2, D1, D2, D3.
    rewrite !Z.mod_small by lia.
    repeat split; f_equal; lia.
Qed.

(** The property for December 2024 in India Standard Time. *)
Lemma month_arrows_step_by_one_month_witness :
  ModernDatePicker.currentYear ISTclock
    (ModernDatePicker.handleNextMonth ISTclock 2024 11) = Some 2025
  /\ ModernDatePicker.currentMonth ISTclock
       (ModernDatePicker.handleNextMonth ISTclock 2024 11) = Some 0
  /\ ModernDatePicker.currentYear ISTclock
       (ModernDatePicker.handlePrevMonth ISTclock 2024 11) = Some 2024
  /\ ModernDatePicker.currentMonth ISTclock
       (ModernDatePicker.handlePrevMonth ISTclock 2024 11) = Some 10
  /\ ModernDatePicker.currentYear ISTclock
       (ModernDatePicker.handlePrevMonth ISTclock 2025 0) = Some 2024
  /\ ModernDatePicker.currentMonth ISTclock
       (ModernDatePicker.handlePrevMonth ISTclock 2025 0) = Some 11.
Proof.
  apply (month_arrows_step_by_one_month ISTclock 2024 11).
  - intros t. unfold JS.msPerDay. simpl. lia.
  - exact ISTclock_keepsTheDay.
  - lia.
  - lia.
Defined.

Section AppFacts.

Lemma handle_signed_in (e : App.Event) (s s' : App.State) :
  (App.viewState s = App.AUTH <-> App.user s = None) ->
  App.handle e s = Some s' ->
  (App.viewState s' = App.AUTH <-> App.user s' = None).
Proof.
  intros Hs He. destruct s as [u v]. simpl in Hs.
  destruct e as [|[w|]| | | |], v as [| |b|b k], u as [x|];
    simpl in He; try discriminate; injection He as <-; simpl;
    try tauto; split; intros E; try discriminate; tauto.
Qed.
End AppFacts.

(** X20: the router shows the sign-in view exactly when no user is set.
    After the mount effect and any sequence of events, the view state is
    [AUTH] if and only if [user] is [null], so a dashboard, business or book
    view is on screen only with a user; and the back arrow undoes a
    selection: from a business view, opening a book and going back gives
    the same state. *)
Theorem router_shows_data_only_to_a_user (existingUser : option App.User)
    (events : list App.Event) :
  let s := App.run existingUser events in
  (App.viewState s = App.AUTH <-> App.user s = None)
  /\ (App.render s = App.AuthView <-> App.user s = None)
  /\ forall (businessId bookId : string) (s1 : App.State),
       App.render s = App.BusinessDetailView businessId ->
       App.handle (App.onSelectBook bookId) s = Some s1 ->
       App.render s1 = App.BookDetailView bookId
       /\ App.handle App.onBack s1 = Some s.
Proof.
  cbv zeta.
  assert (I : App.viewState (App.run existingUser events) = App.AUTH
              <-> App.user (App.run existingUser events) = None).
  { unfold App.run.
    assert (I0 : App.viewState (App.mount existingUser App.initial) = App.AUTH
                 <-> App.user (App.mount existingUser App.initial) = None)
      by (destruct existingUser; simpl; split; intros; (discriminate || reflexivity)).
    revert I0. generalize (App.mount existingUser App.initial).
    induction events as [|e events IH]; intros s I0; [exact I0|].
    cbn [fold_left]. apply IH.
    destruct (App.handle e s) as [s'|] eqn:E; [|exact I0].
    exact (handle_signed_in e s s' I0 E). }
  split; [exact I|].
  destruct (App.run existingUser events) as [u v]. simpl in I.
  split.
  - unfold App.render. simpl. destruct v, u; split; intros E;
      try reflexivity; try discriminate; tauto.
  - intros businessId bookId s1 Hr Hh.
    destruct v as [| |b|b k], u as [x|]; simpl in Hr; try discriminate.
    injection Hr as <-. simpl in Hh. injection Hh as <-.
    split; reflexivity.
Qed.

(** ** The calendar grid and the first values of the entry form *)

Section AnyDayFacts.
Import JS.

(** The calendar date of any time: a day of its month, and the day number
    of that date is the day of the time. *)
Lemma day_calendar (t : Z) :
  validDay (JSDate.YearFromTime t) (JSDate.MonthFromTime t + 1) (JSDate.DateFromTime t)
  /\ JS.MakeDay (JSDate.YearFromTime t) (JSDate.MonthFromTime t + 1)
                (JSDate.DateFromTime t)
     = JSDate.Day t.
Proof.
  pose proof (YearFromDay_spec (JSDate.Day t)) as [Lo Hi].
  rewrite DayFromYear_succ in Hi.
  pose proof (leapDay_range (JSDate.YearFromTime t)) as Hl.
  assert (Hd : 0 <= JSDate.DayWithinYear t < 365 + leapDay (JSDate.YearFromTime t)).
  { unfold JSDate.DayWithinYear, JSDate.YearFromTime in *. lia. }
  assert (Hday : JSDate.Day t
                 = DayFromYear (JSDate.YearFromTime t) + JSDate.DayWithinYear t).
  { unfold JSDate.DayWithinYear. lia. }
  rewrite Hday. unfold JSDate.DateFromTime, JSDate.MonthFromTime, validDay, JS.MakeDay.
  generalize dependent (JSDate.DayWithinYear t). intros d Hd _.
  generalize (DayFromYear (JSDate.YearFromTime t)). intros base.
  set (leap := leapDay (JSDate.YearFromTime t)) in *.
  repeat match goal with
         | |- context [?a <? ?b] => destruct (Z.ltb_spec a b)
         end;
    repeat match goal with
           | |- context [0 + 1] => change (0 + 1) with 1
           | |- context [Z.pos ?p + 1] =>
               let v := eval vm_compute in (Z.pos p + 1) in
               change (Z.pos p + 1) with v
           end;
    cbn [monthStart daysInMonth]; lia.
Qed.

Lemma calendar_same_day (t u : Z) :
  JSDate.Day t = JSDate.Day u ->
  JSDate.YearFromTime t = JSDate.YearFromTime u
  /\ JSDate.MonthFromTime t = JSDate.MonthFromTime u
  /\ JSDate.DateFromTime t = JSDate.DateFromTime u.
Proof.
  intros E.
  unfold JSDate.DateFromTime, JSDate.MonthFromTime, JSDate.DayWithinYear,
    JSDate.YearFromTime.
  now rewrite E.
Qed.

Lemma digit_not_space (c : ascii) (v : Z) :
  digit c = Some v -> Ascii.eqb c " " = false.
Proof.
  intros Hd. apply digit_inv in Hd. destruct Hd as [Hr Hc].
  apply Ascii.eqb_neq. intros ->. simpl in Hc. lia.
Qed.

Lemma padded_four (y : Z) :
  0 <= y <= 9999 ->
  JSDate.padded 4 y
  = String (digitChar (y / 1000 mod 10)) (String (digitChar (y / 100 mod 10))
      (String (digitChar (y / 10 mod 10)) (String (digitChar (y mod 10)) ""))).
Proof.
  intros Hy. unfold JSDate.padded.
  destruct (Z.lt_ge_cases y 1000) as [H3|H3]; [|now rewrite toString_four by lia].
  unfold toString. destruct (Z.ltb_spec y 0) as [?|_]; [lia|].
  replace (y / 1000 mod 10) with 0 by (Z.div_mod_to_equations; lia).
  destruct (Z.lt_ge_cases y 10) as [H1|H1].
  - rewrite digitsOf_last by lia.
    replace (y / 100 mod 10) with 0 by (Z.div_mod_to_equations; lia).
    replace (y / 10 mod 10) with 0 by (Z.div_mod_to_equations; lia).
    reflexivity.
  - destruct (Z.lt_ge_cases y 100) as [H2|H2].
    + assert (Hlog : 3 <= Z.log2 y).
      { change 3 with (Z.log2 8). apply Z.log2_le_mono. lia. }
      destruct (Z.to_nat (Z.log2 y)) as [|f] eqn:Ef; try lia.
      rewrite digitsOf_more by lia.
      rewrite digitsOf_last by (Z.div_mod_to_equations; lia).
      replace (y / 100 mod 10) with 0 by (Z.div_mod_to_equations; lia).
      reflexivity.
    + assert (Hlog : 6 <= Z.log2 y).
      { change 6 with (Z.log2 64). apply Z.log2_le_mono. lia. }
      destruct (Z.to_nat (Z.log2 y)) as [|[|f]] eqn:Ef; try lia.
      rewrite digitsOf_more by lia.
      rewrite digitsOf_more by (Z.div_mod_to_equations; lia).
      rewrite digitsOf_last by (Z.div_mod_to_equations; lia).
      rewrite !Z.div_div by lia. reflexivity.
Qed.

Lemma padded_two (n : Z) :
  0 <= n <= 99 ->
  JSDate.padded 2 n = String (digitChar (n / 10)) (String (digitChar (n mod 10)) "").
Proof. apply padStart_two. Qed.

(** The date part of [toISOString] for a year from 0 to 9999. *)
Lemma dateText_digits (t : Z) :
  0 <= JSDate.YearFromTime t <= 9999 ->
  lacks "T" (JSDate.dateText t) = true
  /\ parseYMD (JSDate.dateText t)
     = Some (JSDate.YearFromTime t, JSDate.MonthFromTime t + 1, JSDate.DateFromTime t).
Proof.
  intros Hy. destruct (day_calendar t) as [V _].
  pose proof V as [Hm Hd].
  pose proof (daysInMonth_range (JSDate.YearFromTime t) _ Hm) as Hr.
  unfold JSDate.dateText, JSDate.yearText.
  destruct (Z.leb_spec 0 (JSDate.YearFromTime t)); [|lia].
  destruct (Z.leb_spec (JSDate.YearFromTime t) 9999); [|lia].
  cbn [andb].
  rewrite (padded_four _ Hy), !padded_two by lia.
  unfold String.append. split.
  - assert (D : forall v, 0 <= v <= 9 -> Ascii.eqb (digitChar v) "T" = false).
    { intros v Hv. exact (digit_not_T _ _ (digit_digitChar v Hv)). }
    cbn [lacks]. rewrite !D by (Z.div_mod_to_equations; lia). reflexivity.
  - now apply parseYMD_digits.
Qed.

Lemma time_fields_range (t : Z) :
  0 <= JSDate.HourFromTime t <= 23 /\ 0 <= JSDate.MinFromTime t <= 59
  /\ 0 <= JSDate.SecFromTime t <= 59.
Proof.
  unfold JSDate.HourFromTime, JSDate.MinFromTime, JSDate.SecFromTime.
  repeat split; Z.div_mod_to_equations; lia.
Qed.
(** The first five characters of the time of day. *)
Lemma initialTxTime_text (clock : JSDate.Clock) (zoneText : string) (now : Z) :
  let local := JSDate.LocalTime clock now in
  BookDetailView.initialTxTime clock zoneText now
  = Some (JSDate.padded 2 (JSDate.HourFromTime local) ++ ":"
          ++ JSDate.padded 2 (JSDate.MinFromTime local))%string.
Proof.
  intros local.
  destruct (time_fields_range local) as (Hh & Hm & Hs).
  unfold BookDetailView.initialTxTime, JSDate.toTimeString, JSDate.timeText.
  fold local.
  rewrite !padded_two by lia.
  set (h1 := digitChar (JSDate.HourFromTime local / 10)).
  set (h2 := digitChar (JSDate.HourFromTime local mod 10)).
  set (m1 := digitChar (JSDate.MinFromTime local / 10)).
  set (m2 := digitChar (JSDate.MinFromTime local mod 10)).
  set (s1 := digitChar (JSDate.SecFromTime local / 10)).
  set (s2 := digitChar (JSDate.SecFromTime local mod 10)).
  change ((String h1 (String h2 "") ++ ":" ++ String m1 (String m2 "") ++ ":"
           ++ String s1 (String s2 "")) ++ " GMT" ++ zoneText)%string
    with ((String h1 (String h2 (String ":" (String m1 (String m2 (String ":"
             (String s1 (String s2 ""))))))))
          ++ String " " ("GMT" ++ zoneText))%string.
  assert (D : forall v, 0 <= v <= 9 -> Ascii.eqb (digitChar v) " " = false).
  { intros v Hv. exact (digit_not_space _ _ (digit_digitChar v Hv)). }
  rewrite split_append.
  - reflexivity.
  - cbn [lacks]. subst h1 h2 m1 m2 s1 s2.
    rewrite !D by (Z.div_mod_to_equations; lia). reflexivity.
Qed.

Lemma parseHM_padded (t : Z) :
  parseHM (JSDate.padded 2 (JSDate.HourFromTime t) ++ ":"
           ++ JSDate.padded 2 (JSDate.MinFromTime t))
  = Some (JSDate.HourFromTime t, JSDate.MinFromTime t).
Proof.
  destruct (time_fields_range t) as (Hh & Hm & Hs).
  rewrite !padded_two by lia. unfold String.append.
  replace (JSDate.HourFromTime t) with
    (10 * (JSDate.HourFromTime t / 10) + JSDate.HourFromTime t mod 10) at 3
    by (Z.div_mod_to_equations; lia).
  replace (JSDate.MinFromTime t) with
    (10 * (JSDate.MinFromTime t / 10) + JSDate.MinFromTime t mod 10) at 3
    by (Z.div_mod_to_equations; lia).
  apply parseHM_build;
    try (apply digit_digitChar; Z.div_mod_to_equations; lia);
    Z.div_mod_to_equations; lia.
Qed.

Lemma initialTxDate_text (now : Z) :
  0 <= JSDate.YearFromTime now <= 9999 ->
  BookDetailView.initialTxDate now = Some (JSDate.dateText now).
Proof.
  intros Hy. destruct (dateText_digits now Hy) as [Hl _].
  unfold BookDetailView.initialTxDate, JSDate.toISOString.
  change ("T" ++ JSDate.timeText now ++ "." ++ JSDate.padded 3 (JSDate.msFromTime now)
          ++ "Z")%string
    with (String "T" (JSDate.timeText now ++ "."
                      ++ JSDate.padded 3 (JSDate.msFromTime now) ++ "Z")).
  now rewrite (split_append "T" _ _ Hl).
Qed.

(** The time of day to the minute, in milliseconds. *)
Lemma MakeTime_of_fields (t : Z) :
  MakeTime (JSDate.HourFromTime t) (JSDate.MinFromTime t)
  = t mod msPerDay - t mod msPerMinute.
Proof.
  unfold MakeTime, JSDate.HourFromTime, JSDate.MinFromTime, msPerDay, msPerHour,
    msPerMinute.
  Z.div_mod_to_equations. lia.
Qed.
End AnyDayFacts.

(** X21: in the calendar grid every day stands in the column of its
    weekday.  On a clock that never skips a calendar day, for a year from
    100 to 9999, the children of the seven-column grid are the blanks
    followed by the days of the month, and the button of a day is at a place
    whose remainder by 7 is the weekday of that date, 0 for Sunday, the
    order of the column heads. *)
Theorem grid_puts_days_under_their_weekday (clock : JSDate.Clock) (year month : Z) :
  boundedOffsets (JSDate.host clock) -> keepsTheDay clock ->
  100 <= year <= 9999 -> 0 <= month <= 11 ->
  exists cells : list (option Z),
    ModernDatePicker.grid clock year month = Some cells
    /\ forall (i : nat) (day : Z),
         cells !! i = Some (Some day) ->
         1 <= day <= JS.daysInMonth year (month + 1)
         /\ Z.of_nat i mod 7
            = JSDate.WeekDay (JS.MakeDate (JS.MakeDay year (month + 1) day) 0).
Proof.
  intros Hb Hk Hy Hm.
  pose proof (daysInMonth_range year (month + 1) ltac:(lia)) as Hr.
  assert (Hyr : ((0 <=? year) && (year <=? 99)) = false).
  { apply andb_false_iff. right. apply Z.leb_gt. lia. }
  unfold ModernDatePicker.grid, ModernDatePicker.blanks,
    ModernDatePicker.getFirstDayOfMonth, ModernDatePicker.getDaysInMonth,
    JSDate.construct.
  rewrite Hyr, (MakeDay_day_zero year month Hm), (MakeDay_in_year year month 1 Hm).
  destruct (getters_of_day clock Hb Hk year (month + 1)
              (JS.daysInMonth year (month + 1)) ltac:(lia) ltac:(split; lia))
    as (t & -> & _ & _ & -> & _).
  destruct (getters_of_day clock Hb Hk year (month + 1) 1 ltac:(lia)
              ltac:(split; lia))
    as (t1 & -> & _ & _ & _ & ->).
  set (first := (JS.MakeDay year (month + 1) 1 + 4) mod 7).
  assert (Hf : 0 <= first < 7) by (subst first; apply Z.mod_pos_bound; lia).
  eexists. split; [reflexivity|].
  intros i day Hi.
  apply lookup_app_Some in Hi. destruct Hi as [Hi | [Hlen Hi]].
  - apply list_lookup_fmap_Some in Hi. destruct Hi as (u & Hu & _). discriminate.
  - rewrite length_map, repeat_length in Hlen, Hi.
    apply list_lookup_fmap_Some in Hi. destruct Hi as (d & Ed & Hd).
    injection Ed as ->.
    unfold ModernDatePicker.days in Hd.
    apply list_lookup_fmap_Some in Hd. destruct Hd as (k & -> & Hk').
    pose proof (lookup_lt_Some _ _ _ Hk') as Hlt. rewrite length_seq in Hlt.
    apply lookup_seq in Hk'. destruct Hk' as [-> _].
    split; [lia|].
    unfold JSDate.WeekDay. rewrite Day_MakeDate.
    replace (Z.of_nat i) with (first + (Z.of_nat (0 + (i - Z.to_nat first)) + 1 - 1)) by lia.
    subst first. unfold JS.MakeDay. Z.div_mod_to_equations. lia.
Qed.

(** The property for February 2024 in India Standard Time: the first of
    the month is a Thursday, column 4. *)
Lemma grid_puts_days_under_their_weekday_witness :
  exists cells : list (option Z),
    ModernDatePicker.grid ISTclock 2024 1 = Some cells
    /\ cells !! 4%nat = Some (Some 1)
    /\ forall (i : nat) (day : Z),
         cells !! i = Some (Some day) ->
         1 <= day <= 29
         /\ Z.of_nat i mod 7
            = JSDate.WeekDay (JS.MakeDate (JS.MakeDay 2024 2 day) 0).
Proof.
  destruct (grid_puts_days_under_their_weekday ISTclock 2024 1) as (cells & Hc & Hall).
  - intros t. unfold JS.msPerDay. simpl. lia.
  - exact ISTclock_keepsTheDay.
  - lia.
  - lia.
  - exists cells. split; [exact Hc|]. split; [|exact Hall].
    vm_compute in Hc. injection Hc as <-. reflexivity.
Defined.

(** X22: the first value of the date field of the entry form is the
    calendar date in UTC, not the local one.  For a time value in the years
    0 to 9999 it is the valid date string of the UTC year, month and day;
    and that is the local calendar date exactly when the local time lies in
    the same day as the UTC time. *)
Theorem default_date_is_the_utc_date (clock : JSDate.Clock) (now : Z) :
  0 <= JSDate.YearFromTime now <= 9999 ->
  exists s : string,
    BookDetailView.initialTxDate now = Some s
    /\ JS.parseYMD s
       = Some (JSDate.YearFromTime now, JSDate.MonthFromTime now + 1,
               JSDate.DateFromTime now)
    /\ ((JSDate.YearFromTime (JSDate.LocalTime clock now),
         JSDate.MonthFromTime (JSDate.LocalTime clock now) + 1,
         JSDate.DateFromTime (JSDate.LocalTime clock now))
        = (JSDate.YearFromTime now, JSDate.MonthFromTime now + 1,
           JSDate.DateFromTime now)
        <-> JSDate.Day (JSDate.LocalTime clock now) = JSDate.Day now).
Proof.
  intros Hy. destruct (dateText_digits now Hy) as [_ Hp].
  exists (JSDate.dateText now).
  split; [exact (initialTxDate_text now Hy)|]. split; [exact Hp|].
  split.
  - intros E. injection E as E1 E2 E3.
    destruct (day_calendar (JSDate.LocalTime clock now)) as [_ <-].
    destruct (day_calendar now) as [_ <-].
    now rewrite E1, E2, E3.
  - intros E. destruct (calendar_same_day _ _ E) as (-> & -> & ->). reflexivity.
Qed.

(** The property in India Standard Time at 2024-01-01T20:00:00Z, which is
    01:30 on 2 January there: the form starts with 1 January. *)
Lemma default_date_is_the_utc_date_witness :
  exists s : string,
    BookDetailView.initialTxDate 1704139200000 = Some s
    /\ s = "2024-01-01"
    /\ JS.parseYMD s = Some (2024, 1, 1)
    /\ (JSDate.YearFromTime (JSDate.LocalTime ISTclock 1704139200000),
        JSDate.MonthFromTime (JSDate.LocalTime ISTclock 1704139200000) + 1,
        JSDate.DateFromTime (JSDate.LocalTime ISTclock 1704139200000))
       = (2024, 1, 2).
Proof.
  destruct (default_date_is_the_utc_date ISTclock 1704139200000) as (s & Hs & Hp & _).
  - vm_compute. split; discriminate.
  - exists s. split; [exact Hs|].
    vm_compute in Hs. injection Hs as <-.
    split; [reflexivity|]. split; [exact Hp|]. vm_compute. reflexivity.
Defined.

(** X23: the first value of the time field of the entry form is the local
    time of day: for every time value and every text the engine writes for
    the time zone, it is the valid [HH:mm] string of the local hour and
    minute. *)
Theorem default_time_is_the_local_time (clock : JSDate.Clock) (zoneText : string)
    (now : Z) :
  exists s : string,
    BookDetailView.initialTxTime clock zoneText now = Some s
    /\ JS.parseHM s
       = Some (JSDate.HourFromTime (JSDate.LocalTime clock now),
               JSDate.MinFromTime (JSDate.LocalTime clock now)).
Proof.
  eexists. split; [apply initialTxTime_text|]. apply parseHM_padded.
Qed.

(** X24: where the ledger places an entry saved with the first date and
    time of the form.  The sort of the ledger reads the stored date and time
    as a local time; for an entry that carries the two first values, from a
    time value in the years 0 to 9999, that local time is the local time of
    the moment the form was opened, cut to the minute, moved back by as many
    whole days as the local calendar day is ahead of the UTC day. *)
Theorem default_entry_is_placed_on_the_utc_day {num : Type} `{Number num}
    (clock : JSDate.Clock) (zoneText : string) (now : Z) (tx : Transaction.t num) :
  0 <= JSDate.YearFromTime now <= 9999 ->
  BookDetailView.initialTxDate now = Some (Transaction.date tx) ->
  BookDetailView.initialTxTime clock zoneText now = Some (Transaction.time tx) ->
  let local := JSDate.LocalTime clock now in
  timestamp (JSDate.host clock) tx
  = JS.TimeClip
      (JS.UTC (JSDate.host clock)
         (local - local mod JS.msPerMinute
          - (JSDate.Day local - JSDate.Day now) * JS.msPerDay)).
Proof.
  intros Hy Hd Ht local.
  rewrite (initialTxDate_text now Hy) in Hd. injection Hd as Hd.
  rewrite initialTxTime_text in Ht. injection Ht as Ht. fold local in Ht.
  destruct (dateText_digits now Hy) as [_ Hp].
  destruct (day_calendar now) as [_ Hday].
  unfold timestamp, JS.getTime.
  rewrite <- Hd, <- Ht.
  rewrite (isoLocal_wellFormed _ _ _ _ _ _ _ Hp (parseHM_padded local)).
  rewrite Hday, MakeTime_of_fields. do 2 f_equal.
  unfold JS.MakeDate, JSDate.Day, JS.msPerDay, JS.msPerMinute.
  Z.div_mod_to_equations. lia.
Qed.

(** The property in India Standard Time at 2024-01-01T20:00:00Z, 01:30 on
    2 January there: the entry is placed a whole day before that moment. *)
Lemma default_entry_is_placed_on_the_utc_day_witness :
  BookDetailView.initialTxDate 1704139200000 = Some "2024-01-01"
  /\ BookDetailView.initialTxTime ISTclock "+0530 (India Standard Time)" 1704139200000
     = Some "01:30"
  /\ timestamp IST (sampleTx (num := Z) "e1" "OUT" 40 "2024-01-01" "01:30")
     = Some (1704139200000 - 86400000).
Proof.
  split; [reflexivity|]. split; [reflexivity|].
  exact (default_entry_is_placed_on_the_utc_day ISTclock
           "+0530 (India Standard Time)" 1704139200000
           (sampleTx (num := Z) "e1" "OUT" 40 "2024-01-01" "01:30")
           ltac:(vm_compute; split; discriminate) eq_refl eq_refl).
Defined.
